(** * Monthly planner: calendar engine, pattern resolution and export

    A shallow embedding of [my-planner/app/MonthlyPlanner.tsx].

    The component keeps its state in React hooks; here the state is a record
    and every handler is a function from the state (and, for the export, the
    document body) to the next state together with the effects it performed
    ([alert], [focus], [console.error], a download).

    Conventions of the embedding:
    - calendar components, weekdays, list lengths, ids ([Date.now()]) and
      time values are integers of magnitude below 2^53, on which the
      arithmetic of JavaScript is exact: they are [Z]s;
    - the start number and the count per day of a pattern come from
      [parseInt] and are added up by [applyAllPatterns]: they are
      [JS.Number]s, integer-valued doubles or infinities, with the rounding
      of IEEE 754 written out;
    - a JavaScript [string] is a [string] of bytes (UTF-8); the code only
      inspects ASCII characters, which UTF-8 never uses inside a longer
      sequence;
    - a valid [Date] is its time value, the milliseconds since the epoch, a
      [Z]; an invalid one (time value NaN) only arises from [new Date(string)]
      and is [None] there;
    - the time zone of the host is a parameter, the function
      [LocalTZA(t, isUTC)] of ECMA-262: the offset of local time from UTC in
      milliseconds, at a UTC instant ([true]) or at a local time ([false]);
    - [Record<string,string>] and [Map<number,number>] are [gmap]s.

    The first part holds the definitions: the ECMAScript operations the
    component calls, the component itself, the resolution algorithm in the
    words of the specification, and the notions and sample inputs of the
    statements. The second part holds the properties, the third the claims
    C1 to C10, the fourth further properties of the component. *)

From Stdlib Require Import ZArith Lia String Ascii.
From stdpp Require Import gmap strings list fin_maps pretty sorting.

Open Scope Z_scope.

(** ** ECMAScript strings and numbers *)

Module JS.

(** [String(n)] and [`${n}`] for a Number that is a safe integer, that is
    of magnitude at most 2^53: its decimal numeral.  The component prints
    calendar components of dates (a year has at most six digits, since a
    time value is at most 8.64e15 ms from the epoch), weekdays and
    [maxSpan] this way; [ToString] below prints the Numbers of a pattern. *)
Definition ToStringInt (n : Z) : string := pretty n.

(** The line feed, the separator of [lines.join("\n")]. *)
Definition LF : string := String "010" EmptyString.

(** *** Numbers

    The Numbers of a pattern are the results of [parseInt] and of the
    additions of [applyAllPatterns]: integer-valued doubles, infinities and
    NaN.  [Fin z] is the finite Number of value [z]; -0 is written [Fin 0]
    (it prints as "0", equals 0 and adds like 0). *)
Inductive Number : Type :=
  | Fin (z : Z)
  | PosInf
  | NegInf
  | NaN.

(** An integer rounded to 53 significant bits, to the nearest such value and
    in a tie to the one with an even significand (roundTiesToEven). *)
Definition roundInt (z : Z) : Z :=
  let a := Z.abs z in
  let e := Z.log2 a - 52 in
  if e <=? 0 then z
  else
    let u := 2 ^ e in
    let q := a / u in
    let r := a mod u in
    let q' := if (u <? 2 * r) || ((2 * r =? u) && Z.odd q) then q + 1 else q in
    Z.sgn z * (q' * u).

(** The Number value of an integer: what rounds to 2^1024 or beyond is an
    infinity. *)
Definition toNumber (z : Z) : Number :=
  let r := roundInt z in
  if 2 ^ 1024 <=? r then PosInf
  else if r <=? - 2 ^ 1024 then NegInf
  else Fin r.

(** [x + y], [-x] and [x - y]. *)
Definition add (x y : Number) : Number :=
  match x, y with
  | NaN, _ | _, NaN => NaN
  | PosInf, NegInf | NegInf, PosInf => NaN
  | PosInf, _ | _, PosInf => PosInf
  | NegInf, _ | _, NegInf => NegInf
  | Fin a, Fin b => toNumber (a + b)
  end.

Definition neg (x : Number) : Number :=
  match x with
  | Fin a => Fin (- a)
  | PosInf => NegInf
  | NegInf => PosInf
  | NaN => NaN
  end.

Definition sub (x y : Number) : Number := add x (neg y).

(** [x === y], [x >= y] and [isNaN(x)]. *)
Definition eqb (x y : Number) : bool :=
  match x, y with
  | Fin a, Fin b => a =? b
  | PosInf, PosInf | NegInf, NegInf => true
  | _, _ => false
  end.

Definition geb (x y : Number) : bool :=
  match x, y with
  | NaN, _ | _, NaN => false
  | Fin a, Fin b => b <=? a
  | PosInf, _ | _, NegInf => true
  | _, _ => false
  end.

Definition isNaN (x : Number) : bool :=
  match x with NaN => true | _ => false end.

(** The integer of a finite Number. *)
Definition intValue (x : Number) : Z :=
  match x with Fin z => z | _ => 0 end.

(** [Number::toString] (ECMA-262) for radix 10.  For a positive value [v]
    it takes the integers [n], [k] and [s] with [k] as small as possible
    such that [s] has [k] digits and [s * 10^(n-k)] rounds to [v]; among
    several [s] the one closest to [v], in a tie the even one. *)
Definition digitCount (v : Z) : Z := Z.of_nat (String.length (pretty v)).

Definition candidates (v k n : Z) : list (Z * Z) :=
  let p := 10 ^ (n - k) in
  if n - k <? 0 then []
  else
    List.filter
      (fun sn : Z * Z =>
         (10 ^ (k - 1) <=? sn.1) && (sn.1 <? 10 ^ k) && (roundInt (sn.1 * p) =? v))
      [(v / p, n); (v / p + 1, n)].

Definition better (v k : Z) (a b : Z * Z) : Z * Z :=
  let da := Z.abs (a.1 * 10 ^ (a.2 - k) - v) in
  let db := Z.abs (b.1 * 10 ^ (b.2 - k) - v) in
  if da <? db then a
  else if db <? da then b
  else if Z.even a.1 then a else b.

Definition pick (v k : Z) (l : list (Z * Z)) : option (Z * Z) :=
  match l with
  | [] => None
  | a :: l' => Some (foldl (better v k) a l')
  end.

(** Seventeen digits always suffice for a double. *)
Fixpoint shortest (fuel : nat) (v k : Z) : Z * Z * Z :=
  match fuel with
  | O => (v, digitCount v, digitCount v)
  | S fuel' =>
      let d := digitCount v in
      match pick v k (candidates v k d ++ candidates v k (d + 1)) with
      | Some (s, n) => (s, k, n)
      | None => shortest fuel' v (k + 1)
      end
  end.

Fixpoint zeros (n : nat) : string :=
  match n with
  | O => EmptyString
  | S n' => String "0" (zeros n')
  end.

(** An integer up to 2^53 has no shorter form than its own digits; from
    10^21 on the exponent form is used. *)
Definition positiveToString (v : Z) : string :=
  if v <=? 2 ^ 53 then pretty v
  else
    let '(s, k, n) := shortest 17 v 1 in
    if n <=? 21 then pretty s +:+ zeros (Z.to_nat (n - k))
    else
      match pretty s with
      | String c EmptyString => String c ("e+" +:+ pretty (n - 1))
      | String c rest => String c ("." +:+ rest +:+ "e+" +:+ pretty (n - 1))
      | EmptyString => EmptyString
      end.

Definition ToString (x : Number) : string :=
  match x with
  | NaN => "NaN"
  | PosInf => "Infinity"
  | NegInf => "-Infinity"
  | Fin z => if z <? 0 then "-" +:+ positiveToString (- z) else positiveToString z
  end.

(** [s.padStart(targetLength, padString)]. *)
Fixpoint fill (fuel : nat) (pad cur : string) : string :=
  match fuel with
  | O => EmptyString
  | S fuel' =>
      match cur with
      | String c cur' => String c (fill fuel' pad cur')
      | EmptyString =>
          match pad with
          | String c pad' => String c (fill fuel' pad pad')
          | EmptyString => EmptyString
          end
      end
  end.

Definition padStart (targetLength : nat) (padString s : string) : string :=
  if (targetLength <=? String.length s)%nat then s
  else fill (targetLength - String.length s) padString padString +:+ s.

(** [lines.join(sep)]. *)
Fixpoint join (sep : string) (lines : list string) : string :=
  match lines with
  | [] => EmptyString
  | [l] => l
  | l :: rest => l +:+ sep +:+ join sep rest
  end.

(** [s.replace(/c/g, by)] for a one-character pattern and a replacement
    without [$]. *)
Fixpoint replaceAll (c : ascii) (by_ : string) (s : string) : string :=
  match s with
  | EmptyString => EmptyString
  | String a s' =>
      (if Ascii.eqb a c then by_ else String a EmptyString) +:+ replaceAll c by_ s'
  end.

(** [s.replace(/[...]/g, f)] for a character class and a callback [f] on the
    matched character. *)
Fixpoint replaceClass (cls : ascii -> bool) (f : ascii -> string) (s : string) : string :=
  match s with
  | EmptyString => EmptyString
  | String a s' =>
      (if cls a then f a else String a EmptyString) +:+ replaceClass cls f s'
  end.

(** [a % b] on integers: the sign of the result is that of [a]. *)
Definition rem (a b : Z) : Z := Z.rem a b.

End JS.

Coercion JS.Fin : Z >-> JS.Number.

(** ** ECMAScript dates

    Day numbers and time values as ECMA-262 defines them (Date Objects,
    "Time Values and Time Range" to "MakeDate"). *)

Module ES.

Definition msPerDay : Z := 86400000.
Definition msPerHour : Z := 3600000.

Definition Day (t : Z) : Z := t / msPerDay.
Definition TimeWithinDay (t : Z) : Z := t mod msPerDay.

Definition isLeap (y : Z) : bool :=
  (y mod 4 =? 0) && (negb (y mod 100 =? 0) || (y mod 400 =? 0)).

Definition DaysInYear (y : Z) : Z := if isLeap y then 366 else 365.

Definition DayFromYear (y : Z) : Z :=
  365 * (y - 1970) + (y - 1969) / 4 - (y - 1901) / 100 + (y - 1601) / 400.

(** The largest [y] with [DayFromYear y <= d]: an estimate from the mean
    length of a year, put right by at most one (see [YearFromDay_bracket]). *)
Definition YearFromDay (d : Z) : Z :=
  let y0 := 1970 + (d * 400) / 146097 in
  if DayFromYear (y0 + 1) <=? d then y0 + 1
  else if DayFromYear y0 <=? d then y0 else y0 - 1.

Definition YearFromTime (t : Z) : Z := YearFromDay (Day t).
Definition InLeapYear (t : Z) : Z := if isLeap (YearFromTime t) then 1 else 0.
Definition DayWithinYear (t : Z) : Z := Day t - DayFromYear (YearFromTime t).

Definition MonthFromTime (t : Z) : Z :=
  let d := DayWithinYear t in
  let l := InLeapYear t in
  if d <? 31 then 0
  else if d <? 59 + l then 1
  else if d <? 90 + l then 2
  else if d <? 120 + l then 3
  else if d <? 151 + l then 4
  else if d <? 181 + l then 5
  else if d <? 212 + l then 6
  else if d <? 243 + l then 7
  else if d <? 273 + l then 8
  else if d <? 304 + l then 9
  else if d <? 334 + l then 10
  else 11.

Definition DateFromTime (t : Z) : Z :=
  let d := DayWithinYear t in
  let l := InLeapYear t in
  match MonthFromTime t with
  | 0 => d + 1
  | 1 => d - 30
  | 2 => d - 58 - l
  | 3 => d - 89 - l
  | 4 => d - 119 - l
  | 5 => d - 150 - l
  | 6 => d - 180 - l
  | 7 => d - 211 - l
  | 8 => d - 242 - l
  | 9 => d - 272 - l
  | 10 => d - 303 - l
  | _ => d - 333 - l
  end.

Definition WeekDay (t : Z) : Z := (Day t + 4) mod 7.

(** The day within the year on which month [m] (0..11) starts. *)
Definition monthStart (m : Z) (leap : bool) : Z :=
  let l := if leap then 1 else 0 in
  match m with
  | 0 => 0
  | 1 => 31
  | 2 => 59 + l
  | 3 => 90 + l
  | 4 => 120 + l
  | 5 => 151 + l
  | 6 => 181 + l
  | 7 => 212 + l
  | 8 => 243 + l
  | 9 => 273 + l
  | 10 => 304 + l
  | _ => 334 + l
  end.

Definition DaysInMonth (y m : Z) : Z :=
  match m with
  | 1 => if isLeap y then 29 else 28
  | 3 | 5 | 8 | 10 => 30
  | _ => 31
  end.

(** [MakeDay(year, month, date)]: the day number of the first of the month
    plus [date - 1]; [month] and [date] may be out of range. *)
Definition MakeDay (year month date : Z) : Z :=
  let ym := year + month / 12 in
  let mn := month mod 12 in
  DayFromYear ym + monthStart mn (isLeap ym) + date - 1.

Definition MakeDate (day time : Z) : Z := day * msPerDay + time.

End ES.

(** ** The [Date] object *)

(** The host's time zone: [tz t true] is the offset at the UTC instant [t],
    [tz t false] the offset at the local time [t], both in milliseconds. *)
Definition TimeZone : Type := Z -> bool -> Z.

(** A zone whose offset never changes. *)
Definition fixedZone (offset : Z) : TimeZone := fun _ _ => offset.

Module Date.
Import ES.

Section Local.
Variable tz : TimeZone.

Definition LocalTime (t : Z) : Z := t + tz t true.
Definition UTC (t : Z) : Z := t - tz t false.

Definition getTime (d : Z) : Z := d.
Definition getFullYear (d : Z) : Z := YearFromTime (LocalTime d).
Definition getMonth (d : Z) : Z := MonthFromTime (LocalTime d).
Definition getDate (d : Z) : Z := DateFromTime (LocalTime d).
Definition getDay (d : Z) : Z := WeekDay (LocalTime d).

(** [new Date(year, month, date)]: local midnight of that day; a year in
    0..99 means 1900 + year. *)
Definition ofComponents (year month date : Z) : Z :=
  let yr := if (0 <=? year) && (year <=? 99) then 1900 + year else year in
  UTC (MakeDate (MakeDay yr month date) 0).

(** [d.setDate(date)]: same local year, month and time of day. *)
Definition setDate (d : Z) (date : Z) : Z :=
  let t := LocalTime d in
  UTC (MakeDate (MakeDay (YearFromTime t) (MonthFromTime t) date) (TimeWithinDay t)).

End Local.

(** The value of a decimal digit. *)
Definition digit (c : ascii) : option Z :=
  let n := Z.of_N (N_of_ascii c) in
  if (48 <=? n) && (n <=? 57) then Some (n - 48) else None.

Definition isHyphen (c : ascii) : bool := Ascii.eqb c "-"%char.

(** [new Date(s)] for a date-only string [YYYY-MM-DD] (ECMA-262, Date Time
    String Format: a date-only form is read as UTC): midnight UTC of that
    day, whatever the host's zone. A string of any other
    shape, or with a month or day out of range, is outside the date-only
    format; what a host makes of it is implementation-defined and is [None]
    (Invalid Date) here. The component only passes what [dateKey] wrote. *)
Definition parse (s : string) : option Z :=
  match s with
  | String y1 (String y2 (String y3 (String y4 (String h1
      (String m1 (String m2 (String h2 (String d1 (String d2 EmptyString))))))))) =>
      match digit y1, digit y2, digit y3, digit y4,
            digit m1, digit m2, digit d1, digit d2 with
      | Some a, Some b, Some c, Some d, Some e, Some f, Some g, Some h =>
          let year := 1000 * a + 100 * b + 10 * c + d in
          let month := 10 * e + f in
          let day := 10 * g + h in
          if isHyphen h1 && isHyphen h2
             && (1 <=? month) && (month <=? 12)
             && (1 <=? day) && (day <=? DaysInMonth year (month - 1))
          then Some (MakeDate (MakeDay year (month - 1) day) 0)
          else None
      | _, _, _, _, _, _, _, _ => None
      end
  | _ => None
  end.

End Date.

(** ** Module-level helpers of the component *)

(** [dateKey]: the local [YYYY-MM-DD] key of a date. *)
Definition dateKey (tz : TimeZone) (d : Z) : string :=
  let y := Date.getFullYear tz d in
  let m := JS.padStart 2 "0" (JS.ToStringInt (Date.getMonth tz d + 1)) in
  let day := JS.padStart 2 "0" (JS.ToStringInt (Date.getDate tz d)) in
  JS.ToStringInt y +:+ "-" +:+ m +:+ "-" +:+ day.

(** [escHTML]: every one of the five characters is replaced by its entity. *)
Definition isHtmlSpecial (c : ascii) : bool :=
  Ascii.eqb c "&"%char || Ascii.eqb c "<"%char || Ascii.eqb c ">"%char
  || Ascii.eqb c "034"%char || Ascii.eqb c "'"%char.

Definition htmlEntity (c : ascii) : string :=
  if Ascii.eqb c "&"%char then "&amp;"
  else if Ascii.eqb c "<"%char then "&lt;"
  else if Ascii.eqb c ">"%char then "&gt;"
  else if Ascii.eqb c "034"%char then "&quot;"
  else "&#39;".

Definition escHTML (s : string) : string :=
  JS.replaceClass isHtmlSpecial htmlEntity s.

(** [parseInt(s, 10)]: leading white space (the ASCII part of it), an
    optional sign, then the longest run of decimal digits, whose value is
    rounded to a Number; NaN without a digit.  The digits are read exactly:
    ECMA-262 lets an implementation read the digits after the twentieth
    as zeros, a freedom that is not used here. *)
Definition isWhite (c : ascii) : bool :=
  let n := N_of_ascii c in
  ((9 <=? n) && (n <=? 13))%N || (n =? 32)%N.

Fixpoint skipWhite (s : string) : string :=
  match s with
  | String c s' => if isWhite c then skipWhite s' else s
  | EmptyString => s
  end.

Fixpoint digitsValue (acc : option Z) (s : string) : option Z :=
  match s with
  | String c s' =>
      match Date.digit c with
      | Some d => digitsValue (Some (10 * default 0 acc + d)) s'
      | None => acc
      end
  | EmptyString => acc
  end.

Definition numberOfDigits (negative : bool) (digits : option Z) : JS.Number :=
  match digits with
  | Some mathInt => JS.toNumber (if negative then - mathInt else mathInt)
  | None => JS.NaN
  end.

Definition parseInt (s : string) : JS.Number :=
  match skipWhite s with
  | String c s' =>
      if Ascii.eqb c "-"%char then numberOfDigits true (digitsValue None s')
      else if Ascii.eqb c "+"%char then numberOfDigits false (digitsValue None s')
      else numberOfDigits false (digitsValue None (String c s'))
  | EmptyString => JS.NaN
  end.

(** ** State of the component

    The hooks that carry data: the date range (keys written by [dateKey], or
    empty), the planner name, the date format of the export, the calendar,
    the plans, the pattern store and the pattern dialog. The hooks and refs
    that only drive the view (the picker popover, focus) are left out. *)

Module Pattern.
Record t : Type := mk {
  id : Z;
  subjectName : string;
  unit : string;
  startNum : JS.Number;
  countPerDay : JS.Number;
  days : list Z
}.
Definition withId (p : t) (i : Z) : t :=
  mk i (subjectName p) (unit p) (startNum p) (countPerDay p) (days p).
Definition withCountPerDay (p : t) (n : JS.Number) : t :=
  mk (id p) (subjectName p) (unit p) (startNum p) n (days p).
End Pattern.

Inductive DateFormat : Type := FmtDay | FmtMonthDay.

Record State : Type := mkState {
  startDate : string;
  endDate : string;
  plannerName : string;
  dateFormat : DateFormat;
  calendar : list Z;
  plans : gmap string string;
  patterns : list Pattern.t;
  showPatternModal : bool;
  editingPattern : Pattern.t
}.

Definition setCalendar (s : State) (c : list Z) : State :=
  mkState (startDate s) (endDate s) (plannerName s) (dateFormat s) c
          (plans s) (patterns s) (showPatternModal s) (editingPattern s).
Definition setPlans (s : State) (p : gmap string string) : State :=
  mkState (startDate s) (endDate s) (plannerName s) (dateFormat s) (calendar s)
          p (patterns s) (showPatternModal s) (editingPattern s).
Definition setPatterns (s : State) (ps : list Pattern.t) : State :=
  mkState (startDate s) (endDate s) (plannerName s) (dateFormat s) (calendar s)
          (plans s) ps (showPatternModal s) (editingPattern s).
Definition setShowPatternModal (s : State) (b : bool) : State :=
  mkState (startDate s) (endDate s) (plannerName s) (dateFormat s) (calendar s)
          (plans s) (patterns s) b (editingPattern s).
Definition setEditingPattern (s : State) (p : Pattern.t) : State :=
  mkState (startDate s) (endDate s) (plannerName s) (dateFormat s) (calendar s)
          (plans s) (patterns s) (showPatternModal s) p.

(** What a handler does besides updating the state. *)
Inductive Effect : Type :=
  | Alert (msg : string)
  | Focus
  | ConsoleError (err : string)
  | Download (fileName : string).

(** ** Calendar *)

Definition maxSpan : Z := 400.

(** The loop [for (let d = new Date(s); d <= e; ) { dates.push(new Date(d));
    d.setDate(d.getDate() + 1) }]. [None] when [fuel] iterations did not
    reach the end of the loop. *)
Fixpoint calendarLoop (tz : TimeZone) (fuel : nat) (d e : Z) : option (list Z) :=
  if d <=? e then
    match fuel with
    | O => None
    | S fuel' =>
        cons d <$> calendarLoop tz fuel' (Date.setDate tz d (Date.getDate tz d + 1)) e
    end
  else Some [].

(** [new Date(d.getFullYear(), d.getMonth(), d.getDate())]. *)
Definition localMidnight (tz : TimeZone) (d : Z) : Z :=
  Date.ofComponents tz (Date.getFullYear tz d) (Date.getMonth tz d) (Date.getDate tz d).

(** [generateCalendar]; [None] only when the loop ran out of [fuel]. *)
Definition generateCalendar (tz : TimeZone) (fuel : nat) (st : State)
  : option (State * list Effect) :=
  if bool_decide (startDate st = "") || bool_decide (endDate st = "") then
    Some (st, [Alert "날짜를 선택해주세요"; Focus])
  else
    match Date.parse (startDate st), Date.parse (endDate st) with
    | Some start, Some end_ =>
        let s := localMidnight tz start in
        let e := localMidnight tz end_ in
        if e <? s then Some (st, [Alert "종료일이 시작일보다 빠를 수 없어요"])
        else
          let days := (Date.getTime e - Date.getTime s) / (24 * 60 * 60 * 1000) + 1 in
          if days >? maxSpan then
            Some (st, [Alert ("기간이 너무 깁니다 (최대 " +:+ JS.ToStringInt maxSpan +:+ "일)")])
          else
            dates ← calendarLoop tz fuel s e;
            Some (setCalendar st dates, [])
    | _, _ =>
        (* an Invalid Date: every comparison with NaN is false, the loop
           body never runs *)
        Some (setCalendar st [], [])
    end.

(** ** Patterns *)

Fixpoint findIndex {A : Type} (f : A -> bool) (l : list A) : option nat :=
  match l with
  | [] => None
  | x :: l' => if f x then Some O else S <$> findIndex f l'
  end.

(** [addOrUpdatePattern]; [now] is what [Date.now()] returns when the
    updater runs. *)
Definition addOrUpdatePattern (now : Z) (st : State) : State :=
  let prev := patterns st in
  let next :=
    match findIndex (fun p => Pattern.id p =? Pattern.id (editingPattern st)) prev with
    | Some idx => <[idx := editingPattern st]> prev
    | None => prev ++ [Pattern.withId (editingPattern st) now]
    end in
  setShowPatternModal (setPatterns st next) false.

Definition editPattern (p : Pattern.t) (st : State) : State :=
  setShowPatternModal (setEditingPattern st p) true.

Definition removePattern (i : Z) (st : State) : State :=
  setPatterns st (filter (fun p => Pattern.id p ≠ i) (patterns st)).

(** The count-per-day input of the pattern dialog: [onChange] with the
    text of the field, and [onBlur]. *)
Definition countPerDay_onChange (val : string) (st : State) : State :=
  if bool_decide (val = "") then
    setEditingPattern st (Pattern.withCountPerDay (editingPattern st) 0)
  else
    let num := parseInt val in
    if negb (JS.isNaN num) && JS.geb num 0 then
      setEditingPattern st (Pattern.withCountPerDay (editingPattern st) num)
    else st.

Definition countPerDay_onBlur (st : State) : State :=
  if JS.eqb (Pattern.countPerDay (editingPattern st)) 0 then
    setEditingPattern st (Pattern.withCountPerDay (editingPattern st) 1)
  else st.

(** ** Applying the patterns *)

(** [p.days.length === 0 || p.days.includes(weekday)]. *)
Definition shouldApply (p : Pattern.t) (weekday : Z) : bool :=
  (length (Pattern.days p) =? 0)%nat || bool_decide (weekday ∈ Pattern.days p).

(** The line of a firing pattern whose counter is [current]. *)
Definition displayText (p : Pattern.t) (current : JS.Number) : string :=
  if JS.eqb (Pattern.countPerDay p) 1 then
    Pattern.subjectName p +:+ " " +:+ JS.ToString current +:+ Pattern.unit p
  else
    let start := current in
    let end_ := JS.sub (JS.add current (Pattern.countPerDay p)) 1 in
    Pattern.subjectName p +:+ " " +:+ JS.ToString start +:+ "-"
      +:+ JS.ToString end_ +:+ Pattern.unit p.

(** [counters.get(p.id)!]: the assertion is justified, every id is set before
    the days are walked ([initCounters_lookup], [patternStep_dom]); the value
    for an absent id is never used. *)
Definition getCounter (counters : gmap Z JS.Number) (i : Z) : JS.Number :=
  default JS.NaN (counters !! i).

(** [patterns.forEach((p) => counters.set(p.id, p.startNum))]. *)
Definition initCounters (ps : list Pattern.t) : gmap Z JS.Number :=
  foldl (fun c p => <[Pattern.id p := Pattern.startNum p]> c) ∅ ps.

(** The body of the inner [patterns.forEach], on the counters and the lines
    of the day. *)
Definition patternStep (weekday : Z) (acc : gmap Z JS.Number * list string)
  (p : Pattern.t) : gmap Z JS.Number * list string :=
  let '(counters, lines) := acc in
  if shouldApply p weekday then
    let current := getCounter counters (Pattern.id p) in
    (<[Pattern.id p := JS.add current (Pattern.countPerDay p)]> counters,
     lines ++ [displayText p current])
  else (counters, lines).

(** The body of [calendar.forEach], on the counters and [newPlans]. *)
Definition dayStep (tz : TimeZone) (ps : list Pattern.t)
  (acc : gmap Z JS.Number * gmap string string) (date : Z)
  : gmap Z JS.Number * gmap string string :=
  let '(counters, newPlans) := acc in
  let key := dateKey tz date in
  let weekday := Date.getDay tz date in
  let '(counters', lines) := foldl (patternStep weekday) (counters, []) ps in
  (counters', if (length lines =? 0)%nat then newPlans
              else <[key := JS.join JS.LF lines]> newPlans).

(** What [applyAllPatterns] builds from the calendar and the patterns. *)
Definition resolve (tz : TimeZone) (cal : list Z) (ps : list Pattern.t)
  : gmap string string :=
  (foldl (dayStep tz ps) (initCounters ps, ∅) cal).2.

(** [applyAllPatterns]. *)
Definition applyAllPatterns (tz : TimeZone) (st : State) : State * list Effect :=
  if (length (calendar st) =? 0)%nat then
    (st, [Alert "먼저 캘린더를 생성해주세요"])
  else
    (setPlans st (resolve tz (calendar st) (patterns st)), []).

(** The text area of a day cell: [setPlans((prev) => ({ ...prev, [key]: v }))]. *)
Definition editPlan (key v : string) (st : State) : State :=
  setPlans st (<[key := v]> (plans st)).

(** ** Grid *)

Record GridDates : Type := mkGrid { leading : Z; trailing : Z }.

(** [gridDates], the memo on the calendar. *)
Definition gridDates (tz : TimeZone) (cal : list Z) : GridDates :=
  match cal with
  | [] => mkGrid 0 0
  | first :: _ =>
      let leading := Date.getDay tz first in
      let trailing := JS.rem (7 - JS.rem (leading + Z.of_nat (length cal)) 7) 7 in
      mkGrid leading trailing
  end.

(** ** Export *)

(** The markup that [exportToPDF] assembles in [gridHTML]: a title block and
    the children of the seven-column grid, in order. The fixed tags and
    inline styles between the interpolated parts are not kept; every
    interpolated string is kept as the code computes it. *)
Inductive Cell : Type :=
  | HeaderCell (label : string)
  | BlankCell
  | DayCell (isSunday : bool) (dateDisplay planText : string).

Record GridHTML : Type := mkGridHTML {
  title : string;
  rangeText : string;
  cells : list Cell
}.

(** An element created by [document.createElement]; [nodeId] is its identity. *)
Record Node : Type := mkNode { nodeId : nat; innerHTML : GridHTML }.

(** The document, the console and the window as far as the export touches
    them: the children of [document.body], the number of elements created so
    far, and the effects performed, oldest first. *)
Record World : Type := mkWorld {
  body : list Node;
  created : nat;
  effects : list Effect
}.

Definition appendChild (n : Node) (w : World) : World :=
  mkWorld (body w ++ [n]) (created w) (effects w).
Definition removeChild (n : Node) (w : World) : World :=
  mkWorld (filter (fun m => nodeId m ≠ nodeId n) (body w)) (created w) (effects w).
Definition perform (e : Effect) (w : World) : World :=
  mkWorld (body w) (created w) (effects w ++ [e]).

(** A computation on the world that returns or throws; the world it leaves is
    kept in both cases. *)
Definition Exn (A : Type) : Type := World -> (A + string) * World.

Definition ret {A : Type} (a : A) : Exn A := fun w => (inl a, w).
Definition throw {A : Type} (err : string) : Exn A := fun w => (inr err, w).
Definition bind {A B : Type} (m : Exn A) (k : A -> Exn B) : Exn B :=
  fun w =>
    match m w with
    | (inl a, w') => k a w'
    | (inr err, w') => (inr err, w')
    end.
Definition tryCatch {A : Type} (m : Exn A) (handler : string -> Exn A) : Exn A :=
  fun w =>
    match m w with
    | (inl a, w') => (inl a, w')
    | (inr err, w') => handler err w'
    end.
Definition act (f : World -> World) : Exn () := fun w => (inl (), f w).
Definition createElement (html : GridHTML) : Exn Node :=
  fun w => (inl (mkNode (created w) html), mkWorld (body w) (S (created w)) (effects w)).

Notation "'let*' x ':=' m 'in' k" := (bind m (fun x => k))
  (at level 10, x name, m at level 100, k at level 200, only parsing).
Notation "m ';;;' k" := (bind m (fun _ => k))
  (at level 100, k at level 200, right associativity, only parsing).

(** The libraries the export calls: [html2canvas(container, ...)] (awaited)
    and the document assembly [new jsPDF], [addImage(canvas.toDataURL(...))],
    [save(fileName)]. Either may throw. *)
Record Renderer : Type := mkRenderer {
  Canvas : Type;
  html2canvas : Node -> Canvas + string;
  assemblePdf : Canvas -> string -> () + string
}.

Definition weekdaysLocal : list string := ["일"; "월"; "화"; "수"; "목"; "금"; "토"].

(** [format(d, 'yyyy' sep 'MM' sep 'dd')] of date-fns, local components. *)
Definition formatDate (tz : TimeZone) (sep : string) (d : Z) : string :=
  JS.padStart 4 "0" (JS.ToStringInt (Date.getFullYear tz d)) +:+ sep
  +:+ JS.padStart 2 "0" (JS.ToStringInt (Date.getMonth tz d + 1)) +:+ sep
  +:+ JS.padStart 2 "0" (JS.ToStringInt (Date.getDate tz d)).

(** [(plans[key] || '').replace(/</g, '&lt;').replace(/>/g, '&gt;')
    .replace(/\n/g, '<br>')]. *)
Definition exportPlanText (plans : gmap string string) (key : string) : string :=
  JS.replaceAll "010" "<br>"
    (JS.replaceAll ">" "&gt;" (JS.replaceAll "<" "&lt;" (default "" (plans !! key)))).

Definition dateDisplay (tz : TimeZone) (fmt : DateFormat) (date : Z) : string :=
  match fmt with
  | FmtMonthDay =>
      JS.ToStringInt (Date.getMonth tz date + 1) +:+ "/" +:+ JS.ToStringInt (Date.getDate tz date)
  | FmtDay => JS.ToStringInt (Date.getDate tz date)
  end.

Definition dayCell (tz : TimeZone) (st : State) (date : Z) : Cell :=
  let key := dateKey tz date in
  let isSunday := Date.getDay tz date =? 0 in
  DayCell isSunday (dateDisplay tz (dateFormat st) date) (exportPlanText (plans st) key).

Definition gridHTML (tz : TimeZone) (st : State) (firstDate lastDate : Z) : GridHTML :=
  let leading := Date.getDay tz firstDate in
  let trailing := JS.rem (7 - JS.rem (leading + Z.of_nat (length (calendar st))) 7) 7 in
  mkGridHTML (plannerName st)
    (formatDate tz "." firstDate +:+ " - " +:+ formatDate tz "." lastDate)
    (map HeaderCell weekdaysLocal
     ++ replicate (Z.to_nat leading) BlankCell
     ++ map (dayCell tz st) (calendar st)
     ++ replicate (Z.to_nat trailing) BlankCell).

Definition liftResult {A : Type} (r : A + string) : Exn A :=
  match r with inl a => ret a | inr err => throw err end.

(** The [try] block of [exportToPDF]. *)
Definition exportBody (tz : TimeZone) (R : Renderer) (st : State) (firstDate : Z) : Exn () :=
  let lastDate := List.last (calendar st) firstDate in
  let fileName := plannerName st +:+ "_" +:+ formatDate tz "" firstDate +:+ ".pdf" in
  let* pdfContainer := createElement (gridHTML tz st firstDate lastDate) in
  act (appendChild pdfContainer);;;
  let* canvas := liftResult (html2canvas R pdfContainer) in
  act (removeChild pdfContainer);;;
  liftResult (assemblePdf R canvas fileName);;;
  act (perform (Download fileName)).

(** [exportToPDF]: the guard on the calendar, then the [try] block with its
    [catch]. The [await] is a point in the sequence; other handlers running
    while the export is suspended are not modelled. *)
Definition exportToPDF (tz : TimeZone) (R : Renderer) (st : State) : World -> World :=
  fun w =>
    match calendar st with
    | [] => perform (Alert "먼저 캘린더를 생성해주세요") w
    | firstDate :: _ =>
        (tryCatch (exportBody tz R st firstDate)
           (fun error =>
              act (perform (ConsoleError error));;;
              act (perform (Alert "PDF 생성에 실패했습니다. 콘솔을 확인해주세요."))) w).2
    end.

(** The full reset behind a [window.confirm]. *)
Definition defaultPlannerName : string := "나의 플래너".

Definition clearPlans (confirmed : bool) (st : State) : State :=
  if confirmed then
    mkState "" "" defaultPlannerName FmtDay [] ∅ [] (showPatternModal st) (editingPattern st)
  else st.

(** ** The resolution algorithm as the specification words it

    [Spec.resolve] follows section 4.4 of the specification, not the code:
    one counter per pattern, by position, initialised to the pattern's start
    number; days in order and, within a day, patterns in store order; a
    pattern fires iff its weekday set is empty or contains the weekday of the
    day; a firing pattern emits its line and advances its counter by its
    count per day; the lines of a day are joined by newlines and a day
    without lines gets no entry. *)

Module Spec.

(** The start number and the count per day of a pattern are integers in
    the specification, and a counter is printed as its decimal numeral. *)
Definition startNumber (p : Pattern.t) : Z := JS.intValue (Pattern.startNum p).
Definition countPerDay (p : Pattern.t) : Z := JS.intValue (Pattern.countPerDay p).
Definition decimal (n : Z) : string := pretty n.

Definition fires (p : Pattern.t) (weekday : Z) : bool :=
  bool_decide (Pattern.days p = []) || bool_decide (weekday ∈ Pattern.days p).

Definition line (p : Pattern.t) (counter : Z) : string :=
  if bool_decide (countPerDay p = 1) then
    Pattern.subjectName p +:+ " " +:+ decimal counter +:+ Pattern.unit p
  else
    Pattern.subjectName p +:+ " " +:+ decimal counter +:+ "-"
      +:+ decimal (counter + countPerDay p - 1) +:+ Pattern.unit p.

(** One day: the lines of the firing patterns and the counters afterwards. *)
Fixpoint day (weekday : Z) (ps : list Pattern.t) (counters : list Z)
  : list string * list Z :=
  match ps, counters with
  | p :: ps', c :: counters' =>
      let '(lines, after) := day weekday ps' counters' in
      if fires p weekday then (line p c :: lines, (c + countPerDay p) :: after)
      else (lines, c :: after)
  | _, _ => ([], [])
  end.

Fixpoint walk (tz : TimeZone) (ps : list Pattern.t) (counters : list Z)
  (plan : gmap string string) (ds : list Z) : gmap string string :=
  match ds with
  | [] => plan
  | d :: ds' =>
      let '(lines, after) := day (Date.getDay tz d) ps counters in
      walk tz ps after
        (match lines with
         | [] => plan
         | _ => <[dateKey tz d := JS.join JS.LF lines]> plan
         end) ds'
  end.

Definition resolve (tz : TimeZone) (ds : list Z) (ps : list Pattern.t)
  : gmap string string :=
  walk tz ps (map startNumber ps) ∅ ds.

(** Notions for the statements about numbering, merging and layout. *)

(** The counter of a pattern after the days [before]: its start number plus
    its count per day for every day of [before] on which it fires. *)
Definition counterAfter (tz : TimeZone) (p : Pattern.t) (before : list Z) : Z :=
  startNumber p
  + countPerDay p
    * Z.of_nat (length (filter (fun d => fires p (Date.getDay tz d) = true) before)).

(** The lines of day [d] when the days [before] precede it, and the entry
    they make. *)
Definition linesOn (tz : TimeZone) (ps : list Pattern.t) (before : list Z) (d : Z)
  : list string :=
  map (fun p => line p (counterAfter tz p before))
      (filter (fun p => fires p (Date.getDay tz d) = true) ps).

Definition entry (lines : list string) : option string :=
  match lines with
  | [] => None
  | _ => Some (JS.join JS.LF lines)
  end.

(** The per-day merge of plans: the entries that exist, in order, joined. *)
Definition mergeLines (entries : list (option string)) : option string :=
  match omap id entries with
  | [] => None
  | lines => Some (JS.join JS.LF lines)
  end.

(** [GridLayout.layout]. *)
Definition trailingBlanks (leadingBlanks dayCount : Z) : Z :=
  (7 - (leadingBlanks + dayCount) mod 7) mod 7.

End Spec.

(** ** Notions used in the statements *)

(** The number of the local calendar day of a date (days since 1970-01-01). *)
Definition localDay (tz : TimeZone) (d : Z) : Z := ES.Day (Date.LocalTime tz d).

(** The number of the civil day [y]-[m]-[d], [m] in 1..12. *)
Definition civilDay (y m d : Z) : Z := ES.MakeDay y (m - 1) d.

Definition validCivil (y m d : Z) : Prop :=
  1 <= m <= 12 /\ 1 <= d <= ES.DaysInMonth y (m - 1).

(** The key that [dateKey] writes for the civil day [y]-[m]-[d]. *)
Definition keyOf (y m d : Z) : string :=
  JS.ToStringInt y +:+ "-" +:+ JS.padStart 2 "0" (JS.ToStringInt m) +:+ "-"
  +:+ JS.padStart 2 "0" (JS.ToStringInt d).

(** Local midnight of day number [n] in a zone of constant offset. *)
Definition midnightOf (offset n : Z) : Z := ES.MakeDate n 0 - offset.

(** By how many days the local date of midnight UTC differs from the UTC
    date in such a zone: 0 for an offset in [0, 24h), -1 for one in
    [-24h, 0). *)
Definition dayShift (offset : Z) : Z := offset / ES.msPerDay.

(** Decimal digits of years and of months and days, checked by evaluation. *)
Definition year4_ok (y : Z) : bool :=
  match JS.ToStringInt y with
  | String a (String b (String c (String d EmptyString))) =>
      match Date.digit a, Date.digit b, Date.digit c, Date.digit d with
      | Some a', Some b', Some c', Some d' => 1000 * a' + 100 * b' + 10 * c' + d' =? y
      | _, _, _, _ => false
      end
  | _ => false
  end.

Definition pad2_ok (n : Z) : bool :=
  match JS.padStart 2 "0" (JS.ToStringInt n) with
  | String a (String b EmptyString) =>
      match Date.digit a, Date.digit b with
      | Some a', Some b' => 10 * a' + b' =? n
      | _, _ => false
      end
  | _ => false
  end.

(** Every element of the body was created before: its id is below the
    number of elements created. *)
Definition freshIds (w : World) : Prop :=
  Forall (fun m => (nodeId m < created w)%nat) (body w).

(** The container that [exportToPDF] creates in the world [w]. *)
Definition pdfContainer (tz : TimeZone) (st : State) (w : World) (firstDate : Z) : Node :=
  mkNode (created w) (gridHTML tz st firstDate (List.last (calendar st) firstDate)).

Definition pdfFileName (tz : TimeZone) (st : State) (firstDate : Z) : string :=
  plannerName st +:+ "_" +:+ formatDate tz "" firstDate +:+ ".pdf".

Definition exportFailed : string := "PDF 생성에 실패했습니다. 콘솔을 확인해주세요.".

(** Plan text as [escHTML] would embed it, newlines as line breaks. *)
Definition escapedPlanText (s : string) : string :=
  JS.replaceAll "010" "<br>" (escHTML s).

(** No ampersand and no quote in a string. *)
Fixpoint plainText (s : string) : bool :=
  match s with
  | EmptyString => true
  | String c s' =>
      negb (Ascii.eqb c "&"%char || Ascii.eqb c "034"%char || Ascii.eqb c "'"%char)
      && plainText s'
  end.

(** The patterns that fire on a weekday, in store order. *)
Definition firing (weekday : Z) (ps : list Pattern.t) : list Pattern.t :=
  filter (fun p => shouldApply p weekday = true) ps.

(** The counter of a pattern that fired [k] times: its start number with
    its count per day added [k] times, each sum rounded as the code's
    addition rounds it. *)
Definition advanced (p : Pattern.t) (k : nat) : JS.Number :=
  Nat.iter k (fun c => JS.add c (Pattern.countPerDay p)) (Pattern.startNum p).

(** On how many of the days [before] a pattern fires, and its counter after
    them. *)
Definition firedOn (tz : TimeZone) (p : Pattern.t) (before : list Z) : nat :=
  length (filter (fun d => shouldApply p (Date.getDay tz d) = true) before).

Definition counterAt (tz : TimeZone) (p : Pattern.t) (before : list Z) : JS.Number :=
  advanced p (firedOn tz p before).

(** The numbers of a pattern stay exact over [n] days: start number and
    count per day are integers that are not negative, and the counter after
    [n] firings, and the end of the range printed then, are at most 2^53. *)
Definition safeNumbers (n : nat) (p : Pattern.t) : Prop :=
  exists s c,
    Pattern.startNum p = JS.Fin s /\ Pattern.countPerDay p = JS.Fin c
    /\ 0 <= s /\ 0 <= c /\ s + c * (Z.of_nat n + 1) <= 2 ^ 53.

(** The lines of day [d] when the days [before] precede it: every firing
    pattern writes its line at the counter it has after those days. *)
Definition linesOn (tz : TimeZone) (ps : list Pattern.t) (before : list Z) (d : Z)
  : list string :=
  map (fun p => displayText p (counterAt tz p before))
      (firing (Date.getDay tz d) ps).

(** [newPlans] with the entry of a day, if the day has lines. *)
Definition putLines (key : string) (lines : list string) (plan : gmap string string)
  : gmap string string :=
  match lines with
  | [] => plan
  | _ => <[key := JS.join JS.LF lines]> plan
  end.

(** The plan written day by day from the lines [L before d] of each day. *)
Fixpoint walkWith (tz : TimeZone) (L : list Z -> Z -> list string) (before : list Z)
  (plan : gmap string string) (ds : list Z) : gmap string string :=
  match ds with
  | [] => plan
  | d :: ds' =>
      walkWith tz L (before ++ [d]) (putLines (dateKey tz d) (L before d) plan) ds'
  end.

(** The plan written day by day from [linesOn]. *)
Definition closedWalk (tz : TimeZone) (ps : list Pattern.t) (before : list Z)
  (plan : gmap string string) (ds : list Z) : gmap string string :=
  walkWith tz (linesOn tz ps) before plan ds.

(** ** Sample inputs *)

(** Asia/Seoul: UTC+9 all year. *)
Definition Seoul : TimeZone := fixedZone (9 * ES.msPerHour).

(** America/Bogota: UTC-5 all year. *)
Definition Bogota : TimeZone := fixedZone (-5 * ES.msPerHour).

(** Europe/Berlin in 2025 and 2026: UTC+1, and UTC+2 from the last Sunday of
    March 01:00 UTC to the last Sunday of October 01:00 UTC. A local time
    that the clocks skip or repeat is read with the offset before the
    change, as ECMA-262 prescribes. *)
Definition berlinSummer (t : Z) : bool :=
  ((1743296400000 <=? t) && (t <? 1761440400000))
  || ((1774746000000 <=? t) && (t <? 1792890000000)).

Definition Berlin : TimeZone := fun t isUTC =>
  let t' := if isUTC then t else t - 2 * ES.msPerHour in
  if berlinSummer t' then 2 * ES.msPerHour else ES.msPerHour.

(** The local midnights of Berlin from 2025-03-01 to 2026-04-05: from the
    first, 2025-02-28T23:00Z, one per day with the offset of that day. *)
Definition berlin401 : list Z :=
  (fun n => ES.MakeDate n 0 - Berlin (ES.MakeDate n 0) false)
    <$> seqZ (civilDay 2025 3 1) 401.

(** The pattern the dialog starts with; [now] is [Date.now()] at mount. *)
Definition initialPattern (now : Z) : Pattern.t :=
  Pattern.mk now "민법" "강" 1 1 [].

Definition initialState (now : Z) : State :=
  mkState "" "" defaultPlannerName FmtDay [] ∅ [] false (initialPattern now).

(** A state with a date range, a calendar and a store. *)
Definition plannerWith (start end_ : string) (cal : list Z) (ps : list Pattern.t) : State :=
  mkState start end_ defaultPlannerName FmtDay cal ∅ ps false (initialPattern 0).

(** Monday 2025-01-06 to Monday 2025-01-13, local midnights in Seoul. *)
Definition mondayToMonday : list Z := midnightOf (9 * ES.msPerHour) <$> seqZ 20094 8.

(** A Monday-only pattern: two a day from 1. *)
Definition mondayPattern : Pattern.t := Pattern.mk 1 "X" "" 1 2 [1].

(** Two patterns under one id. *)
Definition twins : list Pattern.t :=
  [Pattern.mk 1 "A" "" 1 1 []; Pattern.mk 1 "B" "" 10 1 []].

(** One Monday with the two patterns under one id. *)
Definition twinsPlanner : State :=
  plannerWith "2025-01-06" "2025-01-06" [midnightOf (9 * ES.msPerHour) 20094] twins.

(** A dialog whose count field was emptied. *)
Definition emptiedCount : State :=
  setEditingPattern (initialState 0) (Pattern.withCountPerDay (initialPattern 0) 0).

(** A renderer whose rasterization fails, and one that works. *)
Definition failingCanvas : Renderer :=
  mkRenderer () (fun _ => inr "SecurityError") (fun _ _ => inl ()).
Definition workingRenderer : Renderer :=
  mkRenderer () (fun _ => inl ()) (fun _ _ => inl ()).
Definition failingPdf : Renderer :=
  mkRenderer () (fun _ => inl ()) (fun _ _ => inr "addImage").

Definition emptyWorld : World := mkWorld [] 0 [].

(** One day, Monday 2025-01-06 in Seoul, ready for export. *)
Definition oneDayPlanner : State :=
  plannerWith "2025-01-06" "2025-01-06" [midnightOf (9 * ES.msPerHour) 20094] [].

(** ** The rest of the component

    The handlers and helpers that the claims do not reach: the date picker,
    the other fields of the pattern dialog, the list of patterns, the
    "today" mark and the value of a day's text area. *)

Definition setStartDate (s : State) (d : string) : State :=
  mkState d (endDate s) (plannerName s) (dateFormat s) (calendar s)
          (plans s) (patterns s) (showPatternModal s) (editingPattern s).
Definition setEndDate (s : State) (d : string) : State :=
  mkState (startDate s) d (plannerName s) (dateFormat s) (calendar s)
          (plans s) (patterns s) (showPatternModal s) (editingPattern s).

(** The state together with the ref [skipSelectRef] of the date picker. *)
Record Picker : Type := mkPicker { pickerState : State; skipSelect : bool }.

(** [onDayClick] of the picker: a click on the start day clears the range
    and asks for the [onSelect] of the same click to be skipped. *)
Definition onDayClick (tz : TimeZone) (day : Z) (p : Picker) : Picker :=
  let st := pickerState p in
  let key := dateKey tz day in
  if negb (bool_decide (startDate st = "")) && bool_decide (key = startDate st) then
    mkPicker (setEndDate (setStartDate st "") "") true
  else p.

(** [onSelect] of the picker; [range] is [undefined] or a pair of an optional
    [from] and an optional [to]. *)
Definition onSelect (tz : TimeZone) (range : option (option Z * option Z)) (p : Picker)
  : Picker :=
  if skipSelect p then mkPicker (pickerState p) false
  else
    match range with
    | None => p
    | Some (f, t) =>
        let st1 := setStartDate (pickerState p)
                     (match f with Some f => dateKey tz f | None => "" end) in
        let st2 := setEndDate st1 (match t with Some t => dateKey tz t | None => "" end) in
        mkPicker st2 (skipSelect p)
    end.

(** The button that clears the range. *)
Definition clearRange (st : State) : State := setEndDate (setStartDate st "") "".

(** The start-number input of the pattern dialog. *)
Definition withStartNum (p : Pattern.t) (n : JS.Number) : Pattern.t :=
  Pattern.mk (Pattern.id p) (Pattern.subjectName p) (Pattern.unit p) n
             (Pattern.countPerDay p) (Pattern.days p).

Definition startNum_onChange (val : string) (st : State) : State :=
  if bool_decide (val = "") then
    setEditingPattern st (withStartNum (editingPattern st) 0)
  else
    let num := parseInt val in
    if negb (JS.isNaN num) && JS.geb num 0 then
      setEditingPattern st (withStartNum (editingPattern st) num)
    else st.

Definition startNum_onBlur (st : State) : State :=
  if JS.eqb (Pattern.startNum (editingPattern st)) 0 then
    setEditingPattern st (withStartNum (editingPattern st) 1)
  else st.

(** What the two number inputs show: nothing for 0, the number otherwise. *)
Definition countPerDay_value (st : State) : string :=
  if JS.eqb (Pattern.countPerDay (editingPattern st)) 0 then ""
  else JS.ToString (Pattern.countPerDay (editingPattern st)).

Definition startNum_value (st : State) : string :=
  if JS.eqb (Pattern.startNum (editingPattern st)) 0 then ""
  else JS.ToString (Pattern.startNum (editingPattern st)).

(** The "add pattern" button of the toolbar and the three ways to close the
    dialog without saving: both only set the flag of the dialog. *)
Definition openPatternModal (st : State) : State := setShowPatternModal st true.
Definition closePatternModal (st : State) : State := setShowPatternModal st false.

(** The subject input and the unit select of the dialog. *)
Definition withSubjectName (p : Pattern.t) (v : string) : Pattern.t :=
  Pattern.mk (Pattern.id p) v (Pattern.unit p) (Pattern.startNum p)
             (Pattern.countPerDay p) (Pattern.days p).
Definition withUnit (p : Pattern.t) (v : string) : Pattern.t :=
  Pattern.mk (Pattern.id p) (Pattern.subjectName p) v (Pattern.startNum p)
             (Pattern.countPerDay p) (Pattern.days p).

Definition subjectName_onChange (v : string) (st : State) : State :=
  setEditingPattern st (withSubjectName (editingPattern st) v).
Definition unit_onChange (v : string) (st : State) : State :=
  setEditingPattern st (withUnit (editingPattern st) v).

(** A weekday chip of the dialog: [active] is read at render time, the
    updater filters the day out or appends it. *)
Definition withDays (p : Pattern.t) (ds : list Z) : Pattern.t :=
  Pattern.mk (Pattern.id p) (Pattern.subjectName p) (Pattern.unit p)
             (Pattern.startNum p) (Pattern.countPerDay p) ds.

Definition toggleDay (i : Z) (st : State) : State :=
  let active := bool_decide (i ∈ Pattern.days (editingPattern st)) in
  let s := editingPattern st in
  setEditingPattern st
    (withDays s (if active then filter (fun d => d ≠ i) (Pattern.days s)
                 else Pattern.days s ++ [i])).

(** [p.days.sort()] in the list of patterns: the default order of
    [Array.prototype.sort], which compares the elements as strings. The
    order is total on numbers printed differently, so the result does not
    depend on the sorting algorithm. *)
Definition sortOrder (a b : Z) : Prop := String.le (JS.ToStringInt a) (JS.ToStringInt b).

Definition sortDays (ds : list Z) : list Z := merge_sort sortOrder ds.

(** A pattern after its days were sorted in place by a render of the list. *)
Definition afterRender (p : Pattern.t) : Pattern.t := withDays p (sortDays (Pattern.days p)).

(** The text after "요일:" in the list: the names of the sorted days, or
    "전체" for no days. A day outside 0..6 has no name ([undefined] joins as
    the empty string). *)
Definition daysLabel (p : Pattern.t) : string :=
  match Pattern.days p with
  | [] => "전체"
  | _ => JS.join ", " (map (fun d => if d <? 0 then "" else nth (Z.to_nat d) weekdaysLocal "")
                         (sortDays (Pattern.days p)))
  end.

(** [clamp] and the height that [autoResize] gives a text area: [el] is the
    [scrollHeight] of the element, [None] for no element; the result is the
    new height in pixels, [None] when nothing is set. *)
Definition clamp (n min max : Z) : Z := Z.max min (Z.min max n).

Definition autoResize (el : option Z) : option Z :=
  match el with
  | None => None
  | Some scrollHeight => Some (clamp scrollHeight 64 360)
  end.

(** [todayAt00]: [new Date()] with [setHours(0, 0, 0, 0)]; [now] is the time
    value of [new Date()]. *)
Definition todayAt00 (tz : TimeZone) (now : Z) : Z :=
  Date.UTC tz (ES.MakeDate (ES.Day (Date.LocalTime tz now)) 0).

Definition isSameDay (a b : Z) : bool := Date.getTime a =? Date.getTime b.

(** The "today" class of a day cell. *)
Definition isToday (tz : TimeZone) (now date : Z) : bool :=
  isSameDay date (todayAt00 tz now).

(** The value of the text area of a day: [plans[key] || ""]. *)
Definition cellValue (tz : TimeZone) (st : State) (date : Z) : string :=
  default "" (plans st !! dateKey tz date).

(** The one-pass reading of the export's three replacements. *)
Definition exportImage (c : ascii) : string :=
  if Ascii.eqb c "<"%char then "&lt;"
  else if Ascii.eqb c ">"%char then "&gt;"
  else if Ascii.eqb c "010"%char then "<br>"
  else String c EmptyString.

Fixpoint concatMapString (f : ascii -> string) (s : string) : string :=
  match s with
  | EmptyString => EmptyString
  | String c s' => f c +:+ concatMapString f s'
  end.

(** A string holds the character [c]. *)
Fixpoint hasChar (c : ascii) (s : string) : bool :=
  match s with
  | EmptyString => false
  | String a s' => Ascii.eqb a c || hasChar c s'
  end.

(* ===================================================================== *)
(** * Properties *)

(** ** The calendar arithmetic of ECMA-262 *)

Module ESFacts.
Import ES.

Lemma isLeap_true y :
  isLeap y = true <-> y mod 4 = 0 /\ (y mod 100 <> 0 \/ y mod 400 = 0).
Proof.
  unfold isLeap.
  rewrite andb_true_iff, orb_true_iff, negb_true_iff, !Z.eqb_eq, Z.eqb_neq.
  tauto.
Qed.

Lemma DayFromYear_succ y : DayFromYear (y + 1) = DayFromYear y + DaysInYear y.
Proof.
  unfold DaysInYear.
  destruct (isLeap y) eqn:E.
  - apply isLeap_true in E. unfold DayFromYear.
    Z.div_mod_to_equations. lia.
  - assert (H : ~ (y mod 4 = 0 /\ (y mod 100 <> 0 \/ y mod 400 = 0))).
    { rewrite <- isLeap_true. congruence. }
    unfold DayFromYear. Z.div_mod_to_equations. lia.
Qed.

Lemma DaysInYear_pos y : 365 <= DaysInYear y <= 366.
Proof. unfold DaysInYear. destruct (isLeap y); lia. Qed.

Lemma DayFromYear_lt y1 y2 : y1 < y2 -> DayFromYear y1 < DayFromYear y2.
Proof.
  intros H. unfold DayFromYear. Z.div_mod_to_equations. lia.
Qed.

Lemma DayFromYear_le y1 y2 : y1 <= y2 -> DayFromYear y1 <= DayFromYear y2.
Proof.
  intros H. destruct (Z.eq_dec y1 y2) as [->|]; [lia|].
  apply Z.lt_le_incl, DayFromYear_lt. lia.
Qed.

(** [YearFromDay d] is the year that contains day [d]. *)
Lemma YearFromDay_bracket d :
  DayFromYear (YearFromDay d) <= d < DayFromYear (YearFromDay d + 1).
Proof.
  unfold YearFromDay. cbv zeta.
  destruct (Z.leb_spec (DayFromYear (1970 + d * 400 / 146097 + 1)) d);
    [| destruct (Z.leb_spec (DayFromYear (1970 + d * 400 / 146097)) d)].
  all: unfold DayFromYear in *; Z.div_mod_to_equations; lia.
Qed.

(** It is the only such year, hence the largest [y] with
    [DayFromYear y <= d], as ECMA-262 defines the year of a time. *)
Lemma YearFromDay_unique d y :
  DayFromYear y <= d < DayFromYear (y + 1) -> YearFromDay d = y.
Proof.
  intros [H1 H2]. pose proof (YearFromDay_bracket d) as [B1 B2].
  destruct (Z.lt_trichotomy (YearFromDay d) y) as [L | [E | G]]; [| exact E |].
  - pose proof (DayFromYear_le (YearFromDay d + 1) y ltac:(lia)). lia.
  - pose proof (DayFromYear_le (y + 1) (YearFromDay d) ltac:(lia)). lia.
Qed.

Lemma YearFromDay_largest d y : DayFromYear y <= d -> y <= YearFromDay d.
Proof.
  intros H. pose proof (YearFromDay_bracket d) as [_ B].
  destruct (Z_le_gt_dec y (YearFromDay d)) as [|G]; [assumption|].
  pose proof (DayFromYear_le (YearFromDay d + 1) y ltac:(lia)). lia.
Qed.

Lemma DayWithinYear_bounds t :
  0 <= DayWithinYear t < DaysInYear (YearFromTime t).
Proof.
  unfold DayWithinYear, YearFromTime.
  pose proof (YearFromDay_bracket (Day t)) as [B1 B2].
  rewrite DayFromYear_succ in B2. lia.
Qed.


Ltac split_ltb :=
  repeat match goal with
    | |- context [if ?a <? ?b then _ else _] => destruct (Z.ltb_spec a b)
    end.

Lemma month_date_spec t :
  0 <= MonthFromTime t <= 11
  /\ DateFromTime t
     = DayWithinYear t - monthStart (MonthFromTime t) (isLeap (YearFromTime t)) + 1
  /\ 1 <= DateFromTime t <= DaysInMonth (YearFromTime t) (MonthFromTime t).
Proof.
  pose proof (DayWithinYear_bounds t) as B.
  unfold DateFromTime, MonthFromTime, InLeapYear, DaysInYear in *.
  destruct (isLeap (YearFromTime t)) eqn:L;
    split_ltb; cbn [monthStart DaysInMonth]; rewrite ?L; lia.
Qed.

Lemma Day_MakeDate n ms : 0 <= ms < msPerDay -> Day (MakeDate n ms) = n.
Proof.
  intros H. unfold Day, MakeDate, msPerDay in *. Z.div_mod_to_equations. lia.
Qed.

Lemma TimeWithinDay_MakeDate n ms :
  0 <= ms < msPerDay -> TimeWithinDay (MakeDate n ms) = ms.
Proof.
  intros H. unfold TimeWithinDay, MakeDate, msPerDay in *.
  Z.div_mod_to_equations. lia.
Qed.

Lemma MakeDate_Day t : MakeDate (Day t) (TimeWithinDay t) = t.
Proof.
  unfold MakeDate, Day, TimeWithinDay, msPerDay. Z.div_mod_to_equations. lia.
Qed.

Lemma MakeDay_in_range y m d :
  0 <= m <= 11 -> MakeDay y m d = DayFromYear y + monthStart m (isLeap y) + d - 1.
Proof.
  intros H. unfold MakeDay. cbv zeta.
  rewrite Z.div_small, Z.mod_small, Z.add_0_r by lia. reflexivity.
Qed.

(** The day number of the civil date of [t], moved by [k] days. *)
Lemma MakeDay_civil t k :
  MakeDay (YearFromTime t) (MonthFromTime t) (DateFromTime t + k) = Day t + k.
Proof.
  destruct (month_date_spec t) as (Hm & Hd & _).
  rewrite MakeDay_in_range by assumption. rewrite Hd.
  unfold DayWithinYear. lia.
Qed.

Lemma monthStart_bounds y m d :
  0 <= m <= 11 -> 1 <= d <= DaysInMonth y m ->
  0 <= monthStart m (isLeap y) + d - 1 < DaysInYear y.
Proof.
  intros Hm Hd. unfold DaysInYear.
  assert (m = 0 \/ m = 1 \/ m = 2 \/ m = 3 \/ m = 4 \/ m = 5 \/ m = 6
          \/ m = 7 \/ m = 8 \/ m = 9 \/ m = 10 \/ m = 11) as Hc by lia.
  destruct (isLeap y) eqn:L;
    repeat (destruct Hc as [-> | Hc]); try subst m;
    cbn [monthStart DaysInMonth] in *; rewrite ?L in *; lia.
Qed.

(** The civil date of a time on day [MakeDay y m d]. *)
Lemma civil_MakeDay y m d t :
  0 <= m <= 11 -> 1 <= d <= DaysInMonth y m -> Day t = MakeDay y m d ->
  YearFromTime t = y /\ MonthFromTime t = m /\ DateFromTime t = d.
Proof.
  intros Hm Hd Ht. rewrite MakeDay_in_range in Ht by assumption.
  pose proof (monthStart_bounds y m d Hm Hd) as B.
  assert (HY : YearFromTime t = y).
  { unfold YearFromTime. apply YearFromDay_unique.
    rewrite DayFromYear_succ. lia. }
  assert (HW : DayWithinYear t = monthStart m (isLeap y) + d - 1).
  { unfold DayWithinYear. rewrite HY. lia. }
  split; [exact HY|].
  assert (HM : MonthFromTime t = m).
  { unfold MonthFromTime, InLeapYear. rewrite HW, HY.
    assert (m = 0 \/ m = 1 \/ m = 2 \/ m = 3 \/ m = 4 \/ m = 5 \/ m = 6
            \/ m = 7 \/ m = 8 \/ m = 9 \/ m = 10 \/ m = 11) as Hc by lia.
    destruct (isLeap y) eqn:L;
      repeat (destruct Hc as [-> | Hc]); try subst m;
      cbn [monthStart DaysInMonth] in *; rewrite ?L in *; split_ltb; lia. }
  split; [exact HM|].
  destruct (month_date_spec t) as (_ & Hdt & _).
  rewrite Hdt, HW, HM, HY. lia.
Qed.

(** [MakeDay] finds the day that ECMA-262 asks for: a time on which the
    year is [y], the month is [m] and the date is 1. *)
Lemma MakeDay_first_of_month y m :
  0 <= m <= 11 ->
  let t := MakeDate (MakeDay y m 1) 0 in
  YearFromTime t = y /\ MonthFromTime t = m /\ DateFromTime t = 1.
Proof.
  intros Hm t. apply civil_MakeDay; [assumption | |].
  - unfold DaysInMonth.
    repeat match goal with
      | |- context [match ?x with _ => _ end] => destruct x
      end; lia.
  - unfold t. apply Day_MakeDate. unfold msPerDay. lia.
Qed.

Lemma WeekDay_range t : 0 <= WeekDay t <= 6.
Proof. unfold WeekDay. Z.div_mod_to_equations. lia. Qed.

End ESFacts.

(** ** Dates in a zone of constant offset *)

Module DateFacts.
Import ES ESFacts.

Section Fixed.
Variable offset : Z.
Local Abbreviation tz := (fixedZone offset).

Lemma LocalTime_midnightOf n : Date.LocalTime tz (midnightOf offset n) = MakeDate n 0.
Proof. unfold Date.LocalTime, midnightOf, tz, fixedZone. lia. Qed.

Lemma localDay_midnightOf n : localDay tz (midnightOf offset n) = n.
Proof.
  unfold localDay. rewrite LocalTime_midnightOf.
  apply Day_MakeDate. unfold msPerDay. lia.
Qed.

(** [d.setDate(d.getDate() + 1)] moves a local midnight to the next one. *)
Lemma setDate_next n :
  Date.setDate tz (midnightOf offset n) (Date.getDate tz (midnightOf offset n) + 1)
  = midnightOf offset (n + 1).
Proof.
  unfold Date.setDate, Date.getDate. cbv zeta.
  rewrite LocalTime_midnightOf, MakeDay_civil.
  rewrite Day_MakeDate, TimeWithinDay_MakeDate by (unfold msPerDay; lia).
  reflexivity.
Qed.

Lemma midnightOf_le a b : midnightOf offset a <= midnightOf offset b <-> a <= b.
Proof. unfold midnightOf, MakeDate, msPerDay. lia. Qed.

Lemma seqZ_one m : seqZ m 1 = [m].
Proof. unfold seqZ. cbn. reflexivity. Qed.

(** The loop of [generateCalendar] between two local midnights. *)
Lemma calendarLoop_fixed fuel a b :
  (Z.to_nat (b - a + 1) <= fuel)%nat ->
  calendarLoop tz fuel (midnightOf offset a) (midnightOf offset b)
  = Some (midnightOf offset <$> seqZ a (b - a + 1)).
Proof.
  revert a. induction fuel as [|fuel IH]; intros a Hf.
  - assert (b < a) by lia. cbn.
    destruct (Z.leb_spec (midnightOf offset a) (midnightOf offset b)) as [L|L].
    + apply (proj1 (midnightOf_le _ _)) in L. lia.
    + rewrite seqZ_nil by lia. reflexivity.
  - cbn [calendarLoop].
    destruct (Z.leb_spec (midnightOf offset a) (midnightOf offset b)) as [L|L].
    + apply (proj1 (midnightOf_le _ _)) in L.
      rewrite setDate_next, IH by lia.
      rewrite (seqZ_cons a (b - a + 1)) by lia. cbn.
      replace (Z.succ a) with (a + 1) by lia.
      replace (Z.pred (b - a + 1)) with (b - (a + 1) + 1) by lia. reflexivity.
    + assert (b < a).
      { destruct (Z_lt_le_dec b a) as [|G]; [assumption|].
        apply (proj2 (midnightOf_le _ _)) in G. lia. }
      rewrite seqZ_nil by lia. reflexivity.
Qed.

(** [new Date(y, m, d)] from the local components of [d]: local midnight of
    its local day, unless the year is one that the constructor reads as
    19xx. *)
Lemma localMidnight_fixed d :
  ~ (0 <= Date.getFullYear tz d <= 99) ->
  localMidnight tz d = midnightOf offset (localDay tz d).
Proof.
  intros Hy. unfold localMidnight, Date.ofComponents. cbv zeta.
  destruct (Z.leb_spec 0 (Date.getFullYear tz d));
    destruct (Z.leb_spec (Date.getFullYear tz d) 99); cbn [andb]; try lia.
  all: unfold Date.getFullYear, Date.getMonth, Date.getDate.
  all: rewrite <- (Z.add_0_r (DateFromTime _)), MakeDay_civil, Z.add_0_r.
  all: reflexivity.
Qed.

End Fixed.
End DateFacts.

Module KeyFacts.
Import ES ESFacts.

Lemma year4_all : forallb year4_ok (seqZ 1000 9000) = true.
Proof. vm_compute. reflexivity. Qed.

Lemma pad2_all : forallb pad2_ok (seqZ 0 100) = true.
Proof. vm_compute. reflexivity. Qed.

Lemma year4_digits y :
  1000 <= y <= 9999 ->
  exists a b c d a' b' c' d',
    JS.ToStringInt y = String a (String b (String c (String d EmptyString)))
    /\ Date.digit a = Some a' /\ Date.digit b = Some b'
    /\ Date.digit c = Some c' /\ Date.digit d = Some d'
    /\ 1000 * a' + 100 * b' + 10 * c' + d' = y.
Proof.
  intros Hy.
  assert (H : year4_ok y = true).
  { pose proof year4_all as A. rewrite forallb_forall in A. apply A.
    apply list_elem_of_In, elem_of_seqZ. lia. }
  unfold year4_ok in H.
  destruct (JS.ToStringInt y) as [|a [|b [|c [|d [|? ?]]]]]; try discriminate.
  destruct (Date.digit a) as [a'|] eqn:Da, (Date.digit b) as [b'|] eqn:Db,
    (Date.digit c) as [c'|] eqn:Dc, (Date.digit d) as [d'|] eqn:Dd;
    try discriminate.
  apply Z.eqb_eq in H.
  exists a, b, c, d, a', b', c', d'. repeat split; assumption || reflexivity.
Qed.

Lemma pad2_digits n :
  0 <= n <= 99 ->
  exists a b a' b',
    JS.padStart 2 "0" (JS.ToStringInt n) = String a (String b EmptyString)
    /\ Date.digit a = Some a' /\ Date.digit b = Some b' /\ 10 * a' + b' = n.
Proof.
  intros Hn.
  assert (H : pad2_ok n = true).
  { pose proof pad2_all as A. rewrite forallb_forall in A. apply A.
    apply list_elem_of_In, elem_of_seqZ. lia. }
  unfold pad2_ok in H.
  destruct (JS.padStart 2 "0" (JS.ToStringInt n)) as [|a [|b [|? ?]]]; try discriminate.
  destruct (Date.digit a) as [a'|] eqn:Da, (Date.digit b) as [b'|] eqn:Db;
    try discriminate.
  apply Z.eqb_eq in H.
  exists a, b, a', b'. repeat split; assumption || reflexivity.
Qed.

Lemma DaysInMonth_le y m : 28 <= DaysInMonth y m <= 31.
Proof.
  unfold DaysInMonth.
  repeat match goal with
    | |- context [match ?x with _ => _ end] => destruct x
    end; lia.
Qed.

(** [new Date(key)] for a key of a valid civil day with a four-digit year:
    midnight UTC of that day. *)
Lemma parse_keyOf y m d :
  1000 <= y <= 9999 -> validCivil y m d ->
  Date.parse (keyOf y m d) = Some (MakeDate (civilDay y m d) 0).
Proof.
  intros Hy [Hm Hd].
  pose proof (DaysInMonth_le y (m - 1)) as Hdm.
  destruct (year4_digits y Hy) as (a & b & c & e & a' & b' & c' & e' & Ey & Da & Db & Dc & De & Vy).
  destruct (pad2_digits m ltac:(lia)) as (f & g & f' & g' & Em & Df & Dg & Vm).
  destruct (pad2_digits d ltac:(lia)) as (h & i & h' & i' & Ed & Dh & Di & Vd).
  unfold keyOf. rewrite Ey, Em, Ed. cbv [append].
  unfold Date.parse. rewrite Da, Db, Dc, De, Df, Dg, Dh, Di. cbv zeta.
  rewrite Vy, Vm, Vd.
  replace (Date.isHyphen "-") with true by reflexivity. cbn [andb].
  destruct (Z.leb_spec 1 m); [|lia]. destruct (Z.leb_spec m 12); [|lia].
  destruct (Z.leb_spec 1 d); [|lia].
  destruct (Z.leb_spec d (DaysInMonth y (m - 1))); [|lia].
  reflexivity.
Qed.

End KeyFacts.

(** ** Keys identify local days *)

Module KeyInj.
Import ES ESFacts KeyFacts.

Lemma length_append s t :
  String.length (s +:+ t) = (String.length s + String.length t)%nat.
Proof.
  induction s as [|c s IH]; [reflexivity|].
  change (String c s +:+ t) with (String c (s +:+ t)). cbn [String.length].
  rewrite IH. reflexivity.
Qed.

Lemma append_inj_suffix s1 : forall s2 t1 t2,
  String.length t1 = String.length t2 ->
  s1 +:+ t1 = s2 +:+ t2 -> s1 = s2 /\ t1 = t2.
Proof.
  induction s1 as [|c s1 IH]; intros [|c' s2] t1 t2 Hl H.
  - split; [reflexivity | exact H].
  - change ("" +:+ t1) with t1 in H.
    apply (f_equal String.length) in H.
    change (String c' s2 +:+ t2) with (String c' (s2 +:+ t2)) in H.
    cbn [String.length] in H. rewrite length_append in H. lia.
  - change ("" +:+ t2) with t2 in H.
    apply (f_equal String.length) in H.
    change (String c s1 +:+ t1) with (String c (s1 +:+ t1)) in H.
    cbn [String.length] in H. rewrite length_append in H. lia.
  - change (String c s1 +:+ t1) with (String c (s1 +:+ t1)) in H.
    change (String c' s2 +:+ t2) with (String c' (s2 +:+ t2)) in H.
    injection H as -> H. destruct (IH _ _ _ Hl H) as [-> ->]. split; reflexivity.
Qed.

(** [keyOf] is injective on the components that [dateKey] can write. *)
Lemma keyOf_inj y m d y' m' d' :
  0 <= m <= 99 -> 0 <= d <= 99 -> 0 <= m' <= 99 -> 0 <= d' <= 99 ->
  keyOf y m d = keyOf y' m' d' -> y = y' /\ m = m' /\ d = d'.
Proof.
  intros Hm Hd Hm' Hd' H. unfold keyOf in H.
  destruct (pad2_digits m Hm) as (f & g & f' & g' & Em & Df & Dg & Vm).
  destruct (pad2_digits d Hd) as (h & i & h' & i' & Ed & Dh & Di & Vd).
  destruct (pad2_digits m' Hm') as (f0 & g0 & f0' & g0' & Em' & Df0 & Dg0 & Vm').
  destruct (pad2_digits d' Hd') as (h0 & i0 & h0' & i0' & Ed' & Dh0 & Di0 & Vd').
  rewrite Em, Ed, Em', Ed' in H.
  apply append_inj_suffix in H as [Hy Ht]; [|reflexivity].
  apply (inj JS.ToStringInt) in Hy.
  cbv [append] in Ht. injection Ht as -> -> -> ->.
  split; [exact Hy|]. split; congruence.
Qed.

Lemma dateKey_keyOf tz t :
  dateKey tz t
  = keyOf (Date.getFullYear tz t) (Date.getMonth tz t + 1) (Date.getDate tz t).
Proof. reflexivity. Qed.

(** Two dates with the same key lie on the same local day. *)
Lemma dateKey_localDay tz t t' :
  dateKey tz t = dateKey tz t' -> localDay tz t = localDay tz t'.
Proof.
  rewrite !dateKey_keyOf. intros H.
  unfold Date.getFullYear, Date.getMonth, Date.getDate in H.
  destruct (month_date_spec (Date.LocalTime tz t)) as (Hm & _ & Hd).
  destruct (month_date_spec (Date.LocalTime tz t')) as (Hm' & _ & Hd').
  pose proof (DaysInMonth_le (YearFromTime (Date.LocalTime tz t))
                (MonthFromTime (Date.LocalTime tz t))).
  pose proof (DaysInMonth_le (YearFromTime (Date.LocalTime tz t'))
                (MonthFromTime (Date.LocalTime tz t'))).
  apply keyOf_inj in H as (Ey & Em & Ed); try lia.
  pose proof (MakeDay_civil (Date.LocalTime tz t) 0) as R.
  pose proof (MakeDay_civil (Date.LocalTime tz t') 0) as R'.
  rewrite !Z.add_0_r in R, R'. unfold localDay.
  rewrite <- R, <- R', Ey, Ed. f_equal. lia.
Qed.

Lemma dateKey_getDay tz t t' :
  dateKey tz t = dateKey tz t' -> Date.getDay tz t = Date.getDay tz t'.
Proof.
  intros H. apply dateKey_localDay in H. unfold Date.getDay, WeekDay.
  unfold localDay in H. rewrite H. reflexivity.
Qed.

End KeyInj.

Module CalendarFacts.
Import ES ESFacts DateFacts KeyFacts.

Lemma civilDay_lower y m d :
  validCivil y m d -> DayFromYear y <= civilDay y m d < DayFromYear (y + 1).
Proof.
  intros [Hm Hd]. unfold civilDay. rewrite MakeDay_in_range by lia.
  pose proof (monthStart_bounds y (m - 1) d ltac:(lia) Hd).
  rewrite DayFromYear_succ. lia.
Qed.

(** The key of a date whose local day is the civil day [y]-[m]-[d]. *)
Lemma dateKey_civil tz y m d t :
  validCivil y m d -> localDay tz t = civilDay y m d -> dateKey tz t = keyOf y m d.
Proof.
  intros [Hm Hd] Ht. unfold localDay, civilDay in Ht.
  destruct (civil_MakeDay y (m - 1) d _ ltac:(lia) Hd Ht) as (EY & EM & ED).
  unfold dateKey, Date.getFullYear, Date.getMonth, Date.getDate, keyOf.
  rewrite EY, EM, ED. replace (m - 1 + 1) with m by lia. reflexivity.
Qed.

Lemma keyOf_nonempty y m d : keyOf y m d <> "".
Proof.
  unfold keyOf. destruct (JS.ToStringInt y); discriminate.
Qed.

Section Fixed.
Variable offset : Z.
Local Abbreviation tz := (fixedZone offset).

Lemma localDay_utcMidnight n : localDay tz (MakeDate n 0) = n + dayShift offset.
Proof.
  unfold localDay, Date.LocalTime, fixedZone, Day, MakeDate, dayShift, msPerDay.
  Z.div_mod_to_equations. lia.
Qed.

Lemma localMidnight_parsed y m d :
  1000 <= y -> validCivil y m d -> - msPerDay <= offset ->
  localMidnight tz (MakeDate (civilDay y m d) 0)
  = midnightOf offset (civilDay y m d + dayShift offset).
Proof.
  intros Hy Hv Ho. rewrite localMidnight_fixed, localDay_utcMidnight; [reflexivity|].
  unfold Date.getFullYear, YearFromTime.
  change (Day (Date.LocalTime tz (MakeDate (civilDay y m d) 0)))
    with (localDay tz (MakeDate (civilDay y m d) 0)).
  rewrite localDay_utcMidnight.
  pose proof (civilDay_lower y m d Hv) as [L _].
  pose proof (DayFromYear_le 1000 y Hy) as L'.
  assert (Hs : -1 <= dayShift offset).
  { unfold dayShift, msPerDay in *. Z.div_mod_to_equations. lia. }
  assert (H999 : DayFromYear 999 <= civilDay y m d + dayShift offset).
  { assert (DayFromYear 999 + 365 = DayFromYear 1000) by reflexivity. lia. }
  apply YearFromDay_largest in H999. lia.
Qed.

Lemma dayShift_east : 0 <= offset < msPerDay -> dayShift offset = 0.
Proof. unfold dayShift, msPerDay. intros H. Z.div_mod_to_equations. lia. Qed.

Lemma dayShift_west : - msPerDay <= offset < 0 -> dayShift offset = -1.
Proof. unfold dayShift, msPerDay. intros H. Z.div_mod_to_equations. lia. Qed.

(** Consecutive local midnights have pairwise distinct keys. *)
Lemma midnights_distinct_keys a n :
  NoDup (dateKey tz <$> (midnightOf offset <$> seqZ a n)).
Proof.
  apply NoDup_fmap_2_strong.
  - intros x y Hx Hy Hk. apply KeyInj.dateKey_localDay in Hk.
    apply list_elem_of_fmap in Hx as (i & -> & _).
    apply list_elem_of_fmap in Hy as (j & -> & _).
    rewrite !localDay_midnightOf in Hk. congruence.
  - apply NoDup_fmap_2_strong; [|apply NoDup_seqZ].
    intros i j _ _ H. unfold midnightOf, MakeDate, msPerDay in H. lia.
Qed.

(** What [generateCalendar] does on two keys of valid civil days with
    four-digit years, in a zone of constant offset. *)
Lemma generateCalendar_fixed fuel st y1 m1 d1 y2 m2 d2 :
  - msPerDay <= offset ->
  1000 <= y1 <= 9999 -> validCivil y1 m1 d1 ->
  1000 <= y2 <= 9999 -> validCivil y2 m2 d2 ->
  startDate st = keyOf y1 m1 d1 -> endDate st = keyOf y2 m2 d2 ->
  let a := civilDay y1 m1 d1 in
  let b := civilDay y2 m2 d2 in
  generateCalendar tz fuel st =
    if b <? a then Some (st, [Alert "종료일이 시작일보다 빠를 수 없어요"])
    else if b - a + 1 >? 400 then Some (st, [Alert "기간이 너무 깁니다 (최대 400일)"])
    else (fun dates => (setCalendar st dates, []))
           <$> calendarLoop tz fuel (midnightOf offset (a + dayShift offset))
                 (midnightOf offset (b + dayShift offset)).
Proof.
  intros Ho Hy1 Hv1 Hy2 Hv2 Es Ee a b. unfold generateCalendar.
  rewrite Es, Ee.
  rewrite !bool_decide_eq_false_2 by apply keyOf_nonempty. cbn [orb].
  rewrite !parse_keyOf by assumption.
  rewrite !localMidnight_parsed by (assumption || lia).
  fold a b. unfold Date.getTime.
  replace (midnightOf offset (b + dayShift offset) <? midnightOf offset (a + dayShift offset))
    with (b <? a).
  2:{ unfold midnightOf, MakeDate, msPerDay.
      destruct (Z.ltb_spec b a), (Z.ltb_spec ((b + dayShift offset) * 86400000 + 0 - offset)
        ((a + dayShift offset) * 86400000 + 0 - offset)); lia || reflexivity. }
  destruct (Z.ltb_spec b a); [reflexivity|].
  replace ((midnightOf offset (b + dayShift offset) - midnightOf offset (a + dayShift offset))
           / (24 * 60 * 60 * 1000) + 1) with (b - a + 1).
  2:{ unfold midnightOf, MakeDate, msPerDay. Z.div_mod_to_equations. lia. }
  unfold maxSpan.
  destruct (b - a + 1 >? 400); [reflexivity|].
  destruct (calendarLoop _ _ _ _); reflexivity.
Qed.

End Fixed.
End CalendarFacts.

(** ** Numbers within 2^53 *)

Module NumberFacts.

Lemma roundInt_safe z : Z.abs z <= 2 ^ 53 -> JS.roundInt z = z.
Proof.
  intros H. unfold JS.roundInt.
  destruct (Z.leb_spec (Z.log2 (Z.abs z) - 52) 0) as [_|He]; [reflexivity|].
  assert (Ha : 0 < Z.abs z).
  { destruct (Z.eq_dec (Z.abs z) 0) as [E|E]; [rewrite E in He; cbn in He; lia | lia]. }
  pose proof (Z.log2_spec _ Ha) as [Hlo _].
  assert (Hp : 2 ^ 53 <= 2 ^ Z.log2 (Z.abs z)) by (apply Z.pow_le_mono_r; lia).
  assert (E : z = 2 ^ 53 \/ z = - 2 ^ 53) by lia.
  destruct E as [-> | ->]; vm_compute; reflexivity.
Qed.

Lemma toNumber_safe z : Z.abs z <= 2 ^ 53 -> JS.toNumber z = JS.Fin z.
Proof.
  intros H. unfold JS.toNumber. rewrite roundInt_safe by assumption.
  assert (B : 2 ^ 53 < 2 ^ 1024) by (vm_compute; reflexivity).
  destruct (Z.leb_spec (2 ^ 1024) z); [lia|].
  destruct (Z.leb_spec z (- 2 ^ 1024)); [lia|]. reflexivity.
Qed.

Lemma add_safe a b :
  Z.abs (a + b) <= 2 ^ 53 -> JS.add (JS.Fin a) (JS.Fin b) = JS.Fin (a + b).
Proof. apply toNumber_safe. Qed.

Lemma sub_safe a b :
  Z.abs (a - b) <= 2 ^ 53 -> JS.sub (JS.Fin a) (JS.Fin b) = JS.Fin (a - b).
Proof. intros H. unfold JS.sub. cbn [JS.neg]. apply add_safe. exact H. Qed.

Lemma ToString_safe z : Z.abs z <= 2 ^ 53 -> JS.ToString (JS.Fin z) = pretty z.
Proof.
  intros H. unfold JS.ToString, JS.positiveToString.
  destruct (Z.ltb_spec z 0) as [Hn|Hn].
  - destruct (Z.leb_spec (- z) (2 ^ 53)); [|lia].
    destruct z as [|p|p]; [lia|lia|]. reflexivity.
  - destruct (Z.leb_spec z (2 ^ 53)); [reflexivity|lia].
Qed.

(** Rounding keeps the sign. *)
Lemma roundInt_nonneg z : 0 <= z -> 0 <= JS.roundInt z.
Proof.
  intros H. unfold JS.roundInt.
  destruct (Z.leb_spec (Z.log2 (Z.abs z) - 52) 0) as [_|He]; [exact H|].
  assert (Hu : 0 < 2 ^ (Z.log2 (Z.abs z) - 52)) by (apply Z.pow_pos_nonneg; lia).
  assert (Hq : 0 <= Z.abs z / 2 ^ (Z.log2 (Z.abs z) - 52))
    by (apply Z.div_pos; lia).
  apply Z.mul_nonneg_nonneg; [lia|].
  apply Z.mul_nonneg_nonneg; [|lia].
  destruct (_ || _); lia.
Qed.

Lemma toNumber_nonneg z :
  0 <= z -> JS.isNaN (JS.toNumber z) = false /\ JS.geb (JS.toNumber z) (JS.Fin 0) = true.
Proof.
  intros H. pose proof (roundInt_nonneg z H) as R. unfold JS.toNumber.
  destruct (2 ^ 1024 <=? JS.roundInt z); [split; reflexivity|].
  destruct (Z.leb_spec (JS.roundInt z) (- 2 ^ 1024)) as [L|L].
  - exfalso. assert (0 < 2 ^ 1024) by (apply Z.pow_pos_nonneg; lia). lia.
  - split; [reflexivity|]. cbn. apply Z.leb_le. exact R.
Qed.

Lemma advanced_safe p s c k :
  Pattern.startNum p = JS.Fin s -> Pattern.countPerDay p = JS.Fin c ->
  0 <= s -> 0 <= c -> s + c * Z.of_nat k <= 2 ^ 53 ->
  advanced p k = JS.Fin (s + c * Z.of_nat k).
Proof.
  intros Es Ec Hs Hc. unfold advanced. induction k as [|k IH]; intros Hb.
  - cbn. rewrite Es. f_equal. lia.
  - rewrite Nat.iter_succ, IH by nia. rewrite Ec, add_safe by nia.
    f_equal. lia.
Qed.

Lemma displayText_safe p c cur :
  Pattern.countPerDay p = JS.Fin c -> 0 <= c -> 0 <= cur -> cur + c <= 2 ^ 53 ->
  displayText p (JS.Fin cur) = Spec.line p cur.
Proof.
  intros Ec Hc Hcur Hb. unfold displayText, Spec.line, Spec.countPerDay, Spec.decimal.
  rewrite Ec. cbn [JS.eqb JS.intValue].
  destruct (Z.eqb_spec c 1) as [E|E].
  - rewrite bool_decide_eq_true_2 by assumption.
    rewrite ToString_safe by lia. reflexivity.
  - rewrite bool_decide_eq_false_2 by assumption. cbv zeta.
    rewrite add_safe, sub_safe by lia. rewrite !ToString_safe by lia. reflexivity.
Qed.

End NumberFacts.

(** ** Pattern resolution *)

Module ResolveFacts.

Lemma shouldApply_fires p wd : shouldApply p wd = Spec.fires p wd.
Proof.
  unfold shouldApply, Spec.fires. f_equal.
  destruct (Pattern.days p); reflexivity.
Qed.

Lemma putLines_length key lines plan :
  (if (length lines =? 0)%nat then plan else <[key := JS.join JS.LF lines]> plan)
  = putLines key lines plan.
Proof. destruct lines; reflexivity. Qed.

(** *** One day *)

Section OneDay.
Variable weekday : Z.

(** The lines already collected are only extended, and do not influence the
    counters. *)
Lemma patternStep_acc ps : forall c ls,
  foldl (patternStep weekday) (c, ls) ps
  = ((foldl (patternStep weekday) (c, []) ps).1,
     ls ++ (foldl (patternStep weekday) (c, []) ps).2).
Proof.
  induction ps as [|p ps IH]; intros c ls; cbn [foldl].
  - cbn. rewrite app_nil_r. reflexivity.
  - unfold patternStep at 2 4 6. destruct (shouldApply p weekday).
    + rewrite IH. rewrite (IH _ ([] ++ _)). cbn [fst snd].
      rewrite app_nil_l, <- app_assoc. reflexivity.
    + apply IH.
Qed.

Lemma patternStep_cons p ps c :
  foldl (patternStep weekday) (c, []) (p :: ps)
  = if shouldApply p weekday then
      let c1 := <[Pattern.id p := JS.add (getCounter c (Pattern.id p))
                                         (Pattern.countPerDay p)]> c in
      ((foldl (patternStep weekday) (c1, []) ps).1,
       displayText p (getCounter c (Pattern.id p))
         :: (foldl (patternStep weekday) (c1, []) ps).2)
    else foldl (patternStep weekday) (c, []) ps.
Proof.
  cbn [foldl]. unfold patternStep at 2. destruct (shouldApply p weekday).
  - cbv zeta. rewrite patternStep_acc. reflexivity.
  - reflexivity.
Qed.

(** One line per firing pattern, in store order, each the text of that
    pattern at some counter. *)
Lemma patternStep_shape ps : forall c,
  Forall2 (fun p l => exists cur, l = displayText p cur)
          (firing weekday ps) (foldl (patternStep weekday) (c, []) ps).2.
Proof.
  induction ps as [|p ps IH]; intros c.
  - constructor.
  - rewrite patternStep_cons. unfold firing. rewrite filter_cons.
    destruct (shouldApply p weekday) eqn:E.
    + rewrite decide_True by reflexivity. cbn. constructor; [eauto | apply IH].
    + rewrite decide_False by discriminate. apply IH.
Qed.

(** An id that is set stays set. *)
Lemma patternStep_dom ps : forall c i,
  is_Some (c !! i) -> is_Some ((foldl (patternStep weekday) (c, []) ps).1 !! i).
Proof.
  induction ps as [|p ps IH]; intros c i Hi; [exact Hi|].
  rewrite patternStep_cons. destruct (shouldApply p weekday); [|auto].
  cbn. apply IH. rewrite lookup_insert_is_Some. 
  destruct (decide (Pattern.id p = i)); auto.
Qed.

Lemma patternStep_other ps : forall c i,
  i ∉ map Pattern.id ps -> (foldl (patternStep weekday) (c, []) ps).1 !! i = c !! i.
Proof.
  induction ps as [|p ps IH]; intros c i Hi; [reflexivity|].
  rewrite patternStep_cons. cbn [map] in Hi. rewrite not_elem_of_cons in Hi.
  destruct Hi as [Hne Hi].
  destruct (shouldApply p weekday); [|auto].
  cbn. rewrite IH by assumption. apply lookup_insert_ne. congruence.
Qed.

(** With pairwise distinct ids every pattern reads the counter it had at the
    start of the day, and only the firing ones advance. *)
Lemma patternStep_distinct ps : forall c,
  NoDup (map Pattern.id ps) ->
  (foldl (patternStep weekday) (c, []) ps).2
  = map (fun p => displayText p (getCounter c (Pattern.id p))) (firing weekday ps)
  /\ forall p, p ∈ ps ->
       getCounter (foldl (patternStep weekday) (c, []) ps).1 (Pattern.id p)
       = if shouldApply p weekday
         then JS.add (getCounter c (Pattern.id p)) (Pattern.countPerDay p)
         else getCounter c (Pattern.id p).
Proof.
  induction ps as [|p ps IH]; intros c Hnd.
  - split; [reflexivity|]. intros p Hp. inversion Hp.
  - cbn [map] in Hnd. apply NoDup_cons in Hnd as [Hp Hnd].
    rewrite patternStep_cons. unfold firing. rewrite filter_cons.
    destruct (shouldApply p weekday) eqn:E.
    + rewrite decide_True by reflexivity. cbv zeta. cbn [fst snd map].
      set (c1 := <[Pattern.id p := _]> c).
      destruct (IH c1 Hnd) as [IH1 IH2]. split.
      * rewrite IH1. f_equal. apply map_ext_in. intros q Hq.
        apply list_elem_of_In, list_elem_of_filter in Hq as [_ Hq].
        unfold getCounter, c1. rewrite lookup_insert_ne; [reflexivity|].
        intros Heq. apply Hp. rewrite Heq. apply list_elem_of_fmap_2. exact Hq.
      * intros q Hq. apply elem_of_cons in Hq as [-> | Hq].
        -- unfold getCounter at 1. rewrite patternStep_other by assumption.
           unfold c1. rewrite lookup_insert_eq, E. reflexivity.
        -- rewrite IH2 by assumption.
           assert (G : getCounter c1 (Pattern.id q) = getCounter c (Pattern.id q)).
           { unfold getCounter, c1. rewrite lookup_insert_ne; [reflexivity|].
             intros Heq. apply Hp. rewrite Heq. apply list_elem_of_fmap_2. exact Hq. }
           rewrite G. reflexivity.
    + rewrite decide_False by discriminate.
      destruct (IH c Hnd) as [IH1 IH2]. split; [exact IH1|].
      intros q Hq. apply elem_of_cons in Hq as [-> | Hq].
      * unfold getCounter at 1. rewrite patternStep_other by assumption.
        rewrite E. reflexivity.
      * apply IH2. exact Hq.
Qed.

End OneDay.
(** *** The counters before the first day *)

Lemma initCounters_other ps : forall (c : gmap Z JS.Number) i,
  i ∉ map Pattern.id ps ->
  foldl (fun c p => <[Pattern.id p := Pattern.startNum p]> c) c ps !! i = c !! i.
Proof.
  induction ps as [|p ps IH]; intros c i Hi; [reflexivity|].
  cbn [map] in Hi. rewrite not_elem_of_cons in Hi. destruct Hi as [Hne Hi].
  cbn [foldl]. rewrite IH by assumption. apply lookup_insert_ne. congruence.
Qed.

(** Every id of the store is set, so [counters.get(p.id)] is never
    [undefined]. *)
Lemma initCounters_lookup ps p :
  p ∈ ps -> is_Some (initCounters ps !! Pattern.id p).
Proof.
  unfold initCounters. generalize (∅ : gmap Z JS.Number). revert p.
  induction ps as [|q ps IH]; intros p c Hp; [inversion Hp|].
  cbn [foldl]. apply elem_of_cons in Hp as [-> | Hp]; [|auto].
  destruct (decide (Pattern.id q ∈ map Pattern.id ps)) as [Hin|Hout].
  - apply list_elem_of_fmap in Hin as (q' & Heq & Hq'). rewrite Heq. auto.
  - rewrite initCounters_other by assumption. rewrite lookup_insert_eq. eauto.
Qed.

Lemma initCounters_distinct ps p :
  NoDup (map Pattern.id ps) -> p ∈ ps ->
  getCounter (initCounters ps) (Pattern.id p) = Pattern.startNum p.
Proof.
  unfold initCounters, getCounter. generalize (∅ : gmap Z JS.Number). revert p.
  induction ps as [|q ps IH]; intros p c Hnd Hp; [inversion Hp|].
  cbn [map] in Hnd. apply NoDup_cons in Hnd as [Hq Hnd]. cbn [foldl].
  apply elem_of_cons in Hp as [-> | Hp]; [|auto].
  rewrite initCounters_other by assumption. rewrite lookup_insert_eq. reflexivity.
Qed.

(** *** The whole calendar *)

Section Calendar.
Variable tz : TimeZone.
Variable ps : list Pattern.t.

Lemma counterAt_nil p : counterAt tz p [] = Pattern.startNum p.
Proof. reflexivity. Qed.

Lemma firedOn_snoc p before d :
  firedOn tz p (before ++ [d])
  = if shouldApply p (Date.getDay tz d) then S (firedOn tz p before)
    else firedOn tz p before.
Proof.
  unfold firedOn. rewrite filter_app, length_app, filter_cons, filter_nil.
  destruct (shouldApply p (Date.getDay tz d)) eqn:E.
  - rewrite decide_True by reflexivity. cbn [length]. lia.
  - rewrite decide_False by discriminate. cbn [length]. lia.
Qed.

Lemma counterAt_snoc p before d :
  counterAt tz p (before ++ [d])
  = if shouldApply p (Date.getDay tz d)
    then JS.add (counterAt tz p before) (Pattern.countPerDay p)
    else counterAt tz p before.
Proof.
  unfold counterAt. rewrite firedOn_snoc.
  destruct (shouldApply p (Date.getDay tz d)); reflexivity.
Qed.

Lemma counterAfter_nil p : Spec.counterAfter tz p [] = Spec.startNumber p.
Proof. unfold Spec.counterAfter. cbn. lia. Qed.

Lemma counterAfter_snoc p before d :
  Spec.counterAfter tz p (before ++ [d])
  = Spec.counterAfter tz p before
    + if Spec.fires p (Date.getDay tz d) then Spec.countPerDay p else 0.
Proof.
  unfold Spec.counterAfter. rewrite filter_app, length_app.
  rewrite filter_cons, filter_nil.
  destruct (Spec.fires p (Date.getDay tz d)) eqn:E.
  - rewrite decide_True by reflexivity. cbn [length]. lia.
  - rewrite decide_False by discriminate. cbn [length]. lia.
Qed.

Lemma counterAfter_firedOn p before :
  Spec.counterAfter tz p before
  = Spec.startNumber p + Spec.countPerDay p * Z.of_nat (firedOn tz p before).
Proof.
  unfold Spec.counterAfter, firedOn. do 4 f_equal. apply list_filter_iff.
  intros x. rewrite shouldApply_fires. reflexivity.
Qed.

Lemma dayStep_unfold c plan d :
  dayStep tz ps (c, plan) d
  = ((foldl (patternStep (Date.getDay tz d)) (c, []) ps).1,
     putLines (dateKey tz d) (foldl (patternStep (Date.getDay tz d)) (c, []) ps).2 plan).
Proof.
  unfold dayStep.
  destruct (foldl (patternStep (Date.getDay tz d)) (c, []) ps) as [c' lines].
  cbn [fst snd]. rewrite putLines_length. reflexivity.
Qed.

(** With pairwise distinct ids the code writes the plan of [linesOn]. *)
Lemma resolve_closed_from ds : forall before c plan,
  NoDup (map Pattern.id ps) ->
  (forall p, p ∈ ps -> getCounter c (Pattern.id p) = counterAt tz p before) ->
  (foldl (dayStep tz ps) (c, plan) ds).2 = closedWalk tz ps before plan ds.
Proof.
  unfold closedWalk.
  induction ds as [|d ds IH]; intros before c plan Hnd Hc; [reflexivity|].
  cbn [foldl walkWith]. rewrite dayStep_unfold.
  destruct (patternStep_distinct (Date.getDay tz d) ps c Hnd) as [Hl Hn].
  rewrite Hl.
  replace (map _ (firing (Date.getDay tz d) ps)) with (linesOn tz ps before d).
  2:{ unfold linesOn. apply map_ext_in. intros p Hp.
      apply list_elem_of_In, list_elem_of_filter in Hp as [_ Hp].
      rewrite Hc by assumption. reflexivity. }
  apply IH; [assumption|].
  intros p Hp. rewrite Hn, Hc, counterAt_snoc by assumption. reflexivity.
Qed.

Lemma resolve_closed cal :
  NoDup (map Pattern.id ps) -> resolve tz cal ps = closedWalk tz ps [] ∅ cal.
Proof.
  intros Hnd. unfold resolve. apply resolve_closed_from; [assumption|].
  intros p Hp. rewrite counterAt_nil. apply initCounters_distinct; assumption.
Qed.

End Calendar.

(** *** The algorithm of the specification *)

Lemma spec_day weekday (g : Pattern.t -> Z) ps :
  Spec.day weekday ps (map g ps)
  = (map (fun p => Spec.line p (g p))
         (filter (fun p => Spec.fires p weekday = true) ps),
     map (fun p => g p + if Spec.fires p weekday then Spec.countPerDay p else 0) ps).
Proof.
  induction ps as [|p ps IH]; [reflexivity|].
  cbn [map Spec.day]. rewrite IH. rewrite filter_cons.
  destruct (Spec.fires p weekday) eqn:E.
  - rewrite decide_True by reflexivity. reflexivity.
  - rewrite decide_False by discriminate. rewrite Z.add_0_r. reflexivity.
Qed.

(** The algorithm of the specification writes the plan of [Spec.linesOn]. *)
Lemma spec_closed_from tz ps ds : forall before plan,
  Spec.walk tz ps (map (fun p => Spec.counterAfter tz p before) ps) plan ds
  = walkWith tz (Spec.linesOn tz ps) before plan ds.
Proof.
  induction ds as [|d ds IH]; intros before plan; [reflexivity|].
  cbn [Spec.walk walkWith]. rewrite spec_day.
  replace (map (fun p => Spec.counterAfter tz p before + _) ps)
    with (map (fun p => Spec.counterAfter tz p (before ++ [d])) ps).
  2:{ apply map_ext. intros p. apply counterAfter_snoc. }
  rewrite <- IH. reflexivity.
Qed.

Lemma spec_closed tz cal ps :
  Spec.resolve tz cal ps = walkWith tz (Spec.linesOn tz ps) [] ∅ cal.
Proof.
  unfold Spec.resolve. rewrite <- spec_closed_from. f_equal.
  apply map_ext. intros p. symmetry. apply counterAfter_nil.
Qed.

(** Two families of lines that agree on every day of the walk give the
    same plan. *)
Lemma walkWith_ext tz (L1 L2 : list Z -> Z -> list string) ds : forall before plan,
  (forall pre d post, ds = pre ++ d :: post -> L1 (before ++ pre) d = L2 (before ++ pre) d) ->
  walkWith tz L1 before plan ds = walkWith tz L2 before plan ds.
Proof.
  induction ds as [|d ds IH]; intros before plan H; [reflexivity|].
  cbn [walkWith].
  pose proof (H [] d ds eq_refl) as H0. rewrite app_nil_r in H0. rewrite H0.
  apply IH. intros pre x post E. rewrite <- !app_assoc.
  apply (H (d :: pre) x post). rewrite E. reflexivity.
Qed.

(** While the numbers stay within 2^53 the code writes the lines of the
    specification. *)
Lemma linesOn_safe tz ps before d n :
  Forall (safeNumbers n) ps -> (length before <= n)%nat ->
  linesOn tz ps before d = Spec.linesOn tz ps before d.
Proof.
  intros Hs Hn. unfold linesOn, Spec.linesOn, firing.
  erewrite (list_filter_iff _ (fun p => Spec.fires p (Date.getDay tz d) = true));
    [|intros p; rewrite shouldApply_fires; reflexivity].
  apply map_ext_in. intros p Hp.
  apply list_elem_of_In, list_elem_of_filter in Hp as [_ Hp].
  rewrite Forall_forall in Hs. destruct (Hs p Hp) as (s & c & Es & Ec & H0 & H1 & Hb).
  assert (Hk : (firedOn tz p before <= n)%nat).
  { unfold firedOn. etransitivity; [apply length_filter | exact Hn]. }
  unfold counterAt.
  rewrite (NumberFacts.advanced_safe p s c) by (assumption || nia).
  rewrite counterAfter_firedOn. unfold Spec.startNumber, Spec.countPerDay.
  rewrite Es, Ec. cbn [JS.intValue].
  apply (NumberFacts.displayText_safe p c); [assumption|lia|nia|nia].
Qed.

Lemma closedWalk_safe tz ps cal :
  Forall (safeNumbers (length cal)) ps ->
  closedWalk tz ps [] ∅ cal = walkWith tz (Spec.linesOn tz ps) [] ∅ cal.
Proof.
  intros Hs. unfold closedWalk. apply walkWith_ext.
  intros pre d post E. cbn [app]. apply (linesOn_safe tz ps pre d (length cal) Hs).
  rewrite E, length_app. lia.
Qed.

End ResolveFacts.

(** ** The plan map, key by key *)

Module PlanFacts.
Import ResolveFacts KeyInj.

Lemma putLines_lookup_ne key lines (plan : gmap string string) k :
  key <> k -> putLines key lines plan !! k = plan !! k.
Proof.
  intros Hne. destruct lines; [reflexivity|]. cbn. apply lookup_insert_ne. exact Hne.
Qed.

Lemma putLines_lookup_eq key lines (plan : gmap string string) :
  putLines key lines plan !! key
  = match lines with [] => plan !! key | _ => Some (JS.join JS.LF lines) end.
Proof. destruct lines; [reflexivity|]. cbn. apply lookup_insert_eq. Qed.

Lemma displayText_nonempty p cur : displayText p cur <> "".
Proof.
  unfold displayText.
  destruct (JS.eqb (Pattern.countPerDay p) 1), (Pattern.subjectName p); discriminate.
Qed.

Lemma join_nonempty sep l rest : l <> "" -> JS.join sep (l :: rest) <> "".
Proof.
  intros Hl. cbn [JS.join]. destruct rest; [exact Hl|].
  destruct l; [congruence | discriminate].
Qed.

Lemma firing_nonempty weekday ps :
  firing weekday ps <> [] <-> exists p, p ∈ ps /\ shouldApply p weekday = true.
Proof.
  unfold firing. split.
  - intros H. destruct (filter _ ps) as [|p l] eqn:E; [congruence|].
    assert (Hin : p ∈ filter (fun p => shouldApply p weekday = true) ps)
      by (rewrite E; left).
    apply list_elem_of_filter in Hin. exists p. tauto.
  - intros (p & Hp & Hf) E.
    assert (Hin : p ∈ filter (fun p => shouldApply p weekday = true) ps)
      by (apply list_elem_of_filter; auto).
    rewrite E in Hin. inversion Hin.
Qed.

Section Plan.
Variable tz : TimeZone.
Variable ps : list Pattern.t.

(** What one more day adds to the plan. *)
Lemma resolve_snoc cal d :
  exists lines,
    Forall2 (fun p l => exists cur, l = displayText p cur)
            (firing (Date.getDay tz d) ps) lines
    /\ resolve tz (cal ++ [d]) ps = putLines (dateKey tz d) lines (resolve tz cal ps).
Proof.
  unfold resolve. rewrite foldl_snoc.
  destruct (foldl (dayStep tz ps) (initCounters ps, ∅) cal) as [c plan].
  rewrite dayStep_unfold. cbn [fst snd].
  eexists. split; [apply patternStep_shape | reflexivity].
Qed.

(** The keys of the plan are the keys of the days on which a pattern
    fires. *)
Lemma resolve_is_Some cal k :
  is_Some (resolve tz cal ps !! k)
  <-> exists d p, d ∈ cal /\ dateKey tz d = k /\ p ∈ ps
                  /\ shouldApply p (Date.getDay tz d) = true.
Proof.
  induction cal as [|d cal IH] using rev_ind.
  - unfold resolve. cbn. rewrite lookup_empty. split.
    + intros [? ?]. discriminate.
    + intros (d & p & Hd & _). inversion Hd.
  - destruct (resolve_snoc cal d) as (lines & Hshape & ->).
    assert (Hfire : lines <> [] <-> firing (Date.getDay tz d) ps <> []).
    { apply Forall2_length in Hshape.
      destruct lines, (firing (Date.getDay tz d) ps); cbn in Hshape;
        split; congruence. }
    rewrite firing_nonempty in Hfire.
    destruct (decide (dateKey tz d = k)) as [<- | Hne].
    + rewrite putLines_lookup_eq. split.
      * intros Hs. destruct lines as [|l lines].
        -- apply IH in Hs as (d' & p & Hd' & Hk & Hp).
           exists d', p. rewrite elem_of_app. auto.
        -- destruct Hfire as [Hfire _]. destruct Hfire as (p & Hp & Hf); [discriminate|].
           exists d, p. rewrite elem_of_app, list_elem_of_singleton. auto.
      * intros (d' & p & Hd' & Hk & Hp & Hf).
        destruct lines as [|l lines]; [|eauto].
        apply IH. apply elem_of_app in Hd' as [Hd' | Hd'].
        -- exists d', p. auto.
        -- apply list_elem_of_singleton in Hd' as ->.
           destruct Hfire as [_ Hfire]. exfalso. apply Hfire; eauto.
    + rewrite putLines_lookup_ne by assumption. rewrite IH. split.
      * intros (d' & p & Hd' & Hk & Hp). exists d', p.
        rewrite elem_of_app. auto.
      * intros (d' & p & Hd' & Hk & Hp). exists d', p.
        apply elem_of_app in Hd' as [Hd' | Hd']; [auto|].
        apply list_elem_of_singleton in Hd' as ->. contradiction.
Qed.

(** Every value of the plan is the joined lines of a day with that key. *)
Lemma resolve_Some cal k v :
  resolve tz cal ps !! k = Some v ->
  v <> ""
  /\ exists d lines,
       d ∈ cal /\ dateKey tz d = k
       /\ Forall2 (fun p l => exists cur, l = displayText p cur)
                  (firing (Date.getDay tz d) ps) lines
       /\ v = JS.join JS.LF lines.
Proof.
  induction cal as [|d cal IH] using rev_ind.
  - unfold resolve. cbn. rewrite lookup_empty. discriminate.
  - destruct (resolve_snoc cal d) as (lines & Hshape & ->).
    destruct (decide (dateKey tz d = k)) as [<- | Hne].
    + rewrite putLines_lookup_eq. destruct lines as [|l lines].
      * intros H. destruct (IH H) as (Hv & d' & lines' & Hd' & Hrest).
        split; [exact Hv|]. exists d', lines'. rewrite elem_of_app. tauto.
      * intros [= <-]. split.
        -- apply join_nonempty. inversion Hshape as [|p ? ? ? [cur ->]]; subst.
           apply displayText_nonempty.
        -- exists d, (l :: lines). rewrite elem_of_app, list_elem_of_singleton. auto.
    + rewrite putLines_lookup_ne by assumption. intros H.
      destruct (IH H) as (Hv & d' & lines' & Hd' & Hrest).
      split; [exact Hv|]. exists d', lines'. rewrite elem_of_app. tauto.
Qed.

Lemma walkWith_snoc L ds d : forall before plan,
  walkWith tz L before plan (ds ++ [d])
  = putLines (dateKey tz d) (L (before ++ ds) d) (walkWith tz L before plan ds).
Proof.
  induction ds as [|d' ds IH]; intros before plan.
  - cbn. rewrite app_nil_r. reflexivity.
  - cbn [app walkWith]. rewrite IH, <- app_assoc. reflexivity.
Qed.

Lemma closedWalk_snoc ds d before plan :
  closedWalk tz ps before plan (ds ++ [d])
  = putLines (dateKey tz d) (linesOn tz ps (before ++ ds) d)
      (closedWalk tz ps before plan ds).
Proof. apply walkWith_snoc. Qed.

(** With pairwise distinct ids one more day adds the lines of [linesOn]. *)
Lemma resolve_snoc_distinct cal d :
  NoDup (map Pattern.id ps) ->
  resolve tz (cal ++ [d]) ps
  = putLines (dateKey tz d) (linesOn tz ps cal d) (resolve tz cal ps).
Proof.
  intros Hnd. rewrite !resolve_closed by assumption. apply closedWalk_snoc.
Qed.

End Plan.

Lemma NoDup_single_id p : NoDup (map Pattern.id [p]).
Proof. cbn. apply NoDup_singleton. Qed.

Lemma linesOn_single tz p before d :
  linesOn tz [p] before d
  = if shouldApply p (Date.getDay tz d)
    then [displayText p (counterAt tz p before)] else [].
Proof.
  unfold linesOn, firing. rewrite filter_cons, filter_nil.
  destruct (shouldApply p (Date.getDay tz d)).
  - rewrite decide_True by reflexivity. reflexivity.
  - rewrite decide_False by discriminate. reflexivity.
Qed.

(** The lines of a day are the lines of its patterns taken one by one. *)
Lemma linesOn_merge tz ps before d :
  linesOn tz ps before d
  = omap id (map (fun p => if shouldApply p (Date.getDay tz d)
                           then Some (displayText p (counterAt tz p before))
                           else None) ps).
Proof.
  unfold linesOn, firing. induction ps as [|p ps IH]; [reflexivity|].
  rewrite filter_cons. cbn [map].
  destruct (shouldApply p (Date.getDay tz d)).
  - rewrite decide_True by reflexivity. cbn. f_equal. exact IH.
  - rewrite decide_False by discriminate. cbn. exact IH.
Qed.

Lemma mergeLines_none {A} (l : list A) :
  Spec.mergeLines (map (fun _ => None) l) = None.
Proof.
  unfold Spec.mergeLines.
  replace (omap id (map (fun _ : A => @None string) l)) with (@nil string);
    [reflexivity|].
  induction l; [reflexivity | assumption].
Qed.

(** A pattern alone has no entry under the key of a day on which it does
    not fire. *)
Lemma resolve_single_quiet tz cal p d :
  shouldApply p (Date.getDay tz d) = false ->
  resolve tz cal [p] !! dateKey tz d = None.
Proof.
  intros Hq. apply eq_None_not_Some. intros Hs.
  apply resolve_is_Some in Hs as (d' & p' & _ & Hk & Hp' & Hf).
  apply list_elem_of_singleton in Hp' as ->.
  apply dateKey_getDay in Hk. rewrite Hk in Hf. congruence.
Qed.

(** No entry under a key that no day of the calendar has. *)
Lemma resolve_foreign_key tz cal ps k :
  k ∉ (dateKey tz <$> cal) -> resolve tz cal ps !! k = None.
Proof.
  intros Hk. apply eq_None_not_Some. intros Hs.
  apply resolve_is_Some in Hs as (d & p & Hd & Hkey & _).
  apply Hk. apply list_elem_of_fmap. exists d. split; [symmetry; exact Hkey | exact Hd].
Qed.

(** With pairwise distinct ids and one key per day, the entry of a day is
    made of the lines of that day, whatever days follow. *)
Lemma resolve_lookup_middle tz pre post d ps :
  NoDup (map Pattern.id ps) ->
  NoDup (dateKey tz <$> (pre ++ d :: post)) ->
  resolve tz (pre ++ d :: post) ps !! dateKey tz d
  = match linesOn tz ps pre d with
    | [] => None
    | lines => Some (JS.join JS.LF lines)
    end.
Proof.
  intros Hids Hkeys.
  induction post as [|x post IH] using rev_ind.
  - rewrite (resolve_snoc_distinct tz ps pre d Hids).
    rewrite putLines_lookup_eq.
    destruct (linesOn tz ps pre d); [|reflexivity].
    apply resolve_foreign_key.
    rewrite fmap_app in Hkeys. apply NoDup_app in Hkeys as (_ & Hdis & _).
    intros Hin. apply (Hdis _ Hin). cbn. left.
  - replace (pre ++ d :: post ++ [x]) with ((pre ++ d :: post) ++ [x]) in *
      by (rewrite <- app_assoc; reflexivity).
    rewrite (resolve_snoc_distinct tz ps _ x Hids).
    rewrite fmap_app in Hkeys. apply NoDup_app in Hkeys as (Hk1 & Hdis & _).
    rewrite putLines_lookup_ne; [apply IH; exact Hk1|].
    intros E. apply (Hdis (dateKey tz d)).
    + apply list_elem_of_fmap. exists d. split; [reflexivity|].
      apply elem_of_app. right. left.
    + rewrite <- E. cbn. left.
Qed.

(** If moreover the numbers stay within 2^53, it is the entry that the
    specification describes. *)
Lemma resolve_entry_safe tz pre post d ps :
  NoDup (map Pattern.id ps) ->
  NoDup (dateKey tz <$> (pre ++ d :: post)) ->
  Forall (safeNumbers (length (pre ++ d :: post))) ps ->
  resolve tz (pre ++ d :: post) ps !! dateKey tz d
  = Spec.entry (Spec.linesOn tz ps pre d).
Proof.
  intros Hids Hkeys Hs. rewrite resolve_lookup_middle by assumption.
  rewrite (linesOn_safe tz ps pre d _ Hs) by (rewrite length_app; lia).
  destruct (Spec.linesOn tz ps pre d); reflexivity.
Qed.

(** A pattern that fires on a day for the first time writes the line of its
    start number. *)
Lemma first_line_is_startNumber tz ps pre d p :
  p ∈ ps -> Spec.fires p (Date.getDay tz d) = true ->
  (forall x, x ∈ pre -> Spec.fires p (Date.getDay tz x) = false) ->
  Spec.line p (Spec.startNumber p) ∈ Spec.linesOn tz ps pre d.
Proof.
  intros Hp Hf Hq. unfold Spec.linesOn.
  apply list_elem_of_fmap. exists p. split.
  - f_equal. unfold Spec.counterAfter.
    replace (filter _ pre) with (@nil Z); [cbn; lia|].
    symmetry. induction pre as [|x pre IH]; [reflexivity|].
    rewrite filter_cons_False.
    + apply IH. intros y Hy. apply Hq. right. exact Hy.
    + rewrite (Hq x) by left. discriminate.
  - apply list_elem_of_filter. split; assumption.
Qed.

End PlanFacts.

(* ===================================================================== *)
(** * The claims *)

(** ** Pattern resolution (C1, C4, C5, C10) *)

(** C1, as stated, fails when two patterns of the store share an id: the
    counters are a map from id to number, so the second start number
    replaces the first and both patterns advance one counter. On one day,
    with [A] from 1 and [B] from 10 under one id, the code writes
    "A 10", "B 11"; the algorithm of the specification writes "A 1",
    "B 10". *)
Lemma applyAllPatterns_shared_id :
  calendar twinsPlanner <> []
  /\ plans (applyAllPatterns Seoul twinsPlanner).1 !! "2025-01-06"
     = Some ("A 10" +:+ JS.LF +:+ "B 11")
  /\ Spec.resolve Seoul (calendar twinsPlanner) (patterns twinsPlanner) !! "2025-01-06"
     = Some ("A 1" +:+ JS.LF +:+ "B 10")
  /\ applyAllPatterns Seoul twinsPlanner
     <> (setPlans twinsPlanner
           (Spec.resolve Seoul (calendar twinsPlanner) (patterns twinsPlanner)), []).
Proof.
  split; [discriminate|].
  assert (H1 : plans (applyAllPatterns Seoul twinsPlanner).1 !! "2025-01-06"
               = Some ("A 10" +:+ JS.LF +:+ "B 11"))
    by (vm_compute; reflexivity).
  assert (H2 : Spec.resolve Seoul (calendar twinsPlanner) (patterns twinsPlanner)
               !! "2025-01-06" = Some ("A 1" +:+ JS.LF +:+ "B 10"))
    by (vm_compute; reflexivity).
  split; [exact H1|]. split; [exact H2|].
  intros H. rewrite H in H1. cbn [fst plans setPlans] in H1.
  rewrite H2 in H1.
  apply (f_equal (fun o => bool_decide (o = Some ("A 1" +:+ JS.LF +:+ "B 10"))))
    in H1.
  vm_compute in H1. discriminate H1.
Qed.

(** Such a store arises when two patterns are committed in one millisecond:
    the id of a new pattern is [Date.now()]. *)
Example same_millisecond_same_id :
  Pattern.id <$> patterns (addOrUpdatePattern 1700000000000
                             (addOrUpdatePattern 1700000000000 (initialState 0)))
  = [1700000000000; 1700000000000].
Proof. reflexivity. Qed.

(** It also fails beyond 2^53, where the sums of the code are rounded: a
    pattern from 2^53, one a day, writes 9007199254740992 on both days of a
    calendar of two days, the algorithm of the specification writes
    9007199254740993 on the second. *)
Example counters_stop_at_2_53 :
  let p := Pattern.mk 1 "X" "" (2 ^ 53) 1 [] in
  let cal := midnightOf (9 * ES.msPerHour) <$> seqZ 20094 2 in
  resolve Seoul cal [p]
  = {[ "2025-01-06" := "X 9007199254740992"; "2025-01-07" := "X 9007199254740992" ]}
  /\ Spec.resolve Seoul cal [p]
     = {[ "2025-01-06" := "X 9007199254740992"; "2025-01-07" := "X 9007199254740993" ]}.
Proof. split; vm_compute; reflexivity. Qed.

(** C1 (amended: the ids of the store are pairwise distinct and the numbers
    stay within 2^53). For every day sequence and every pattern sequence
    with pairwise distinct ids whose counters cannot pass 2^53 on that
    calendar, [applyAllPatterns] on a non-empty calendar stores exactly the
    plan of the specified algorithm ([Spec.resolve]): one counter per
    pattern, started at the pattern's start number; days in order and,
    within a day, patterns in store order; a pattern fires iff its weekday
    set is empty or contains the weekday of the day; a firing pattern writes
    "subject counter unit" when its count per day is 1 and
    "subject counter-(counter+count-1) unit" otherwise, and then advances
    its counter by its count per day; a pattern that does not fire keeps its
    counter; the lines of a day are joined by line feeds. *)
Theorem applyAllPatterns_implements_spec (tz : TimeZone) (st : State) :
  calendar st <> [] ->
  NoDup (map Pattern.id (patterns st)) ->
  Forall (safeNumbers (length (calendar st))) (patterns st) ->
  applyAllPatterns tz st
  = (setPlans st (Spec.resolve tz (calendar st) (patterns st)), []).
Proof.
  intros Hcal Hnd Hs. unfold applyAllPatterns.
  destruct (calendar st) as [|d cal] eqn:E; [congruence|]. cbn [length Nat.eqb].
  rewrite ResolveFacts.resolve_closed by assumption.
  rewrite ResolveFacts.closedWalk_safe by assumption.
  rewrite ResolveFacts.spec_closed. reflexivity.
Qed.

Lemma applyAllPatterns_implements_spec_witness :
  let st := plannerWith "2025-01-06" "2025-01-13" mondayToMonday [mondayPattern] in
  applyAllPatterns Seoul st
  = (setPlans st (Spec.resolve Seoul (calendar st) (patterns st)), []).
Proof.
  apply applyAllPatterns_implements_spec.
  - vm_compute. discriminate.
  - apply NoDup_singleton.
  - repeat constructor. exists 1, 2.
    repeat split; try reflexivity; try lia; vm_compute; discriminate.
Defined.

(** The example of C1: a Monday-only pattern, two a day from 1, over two
    consecutive Mondays writes "X 1-2" and "X 3-4" and nothing in between. *)
Example monday_only_two_mondays :
  resolve Seoul mondayToMonday [mondayPattern]
  = {[ "2025-01-06" := "X 1-2"; "2025-01-13" := "X 3-4" ]}
  /\ Date.getDay Seoul <$> mondayToMonday = [1; 2; 3; 4; 5; 6; 0; 1].
Proof. split; vm_compute; reflexivity. Qed.

(** The closed form behind "continuous numbering": with pairwise distinct
    ids, the plan is written day by day from [linesOn], where the counter of
    a pattern on a day is its start number plus its count per day for every
    earlier day on which it fired. *)
Lemma resolve_continuous_numbering (tz : TimeZone) cal ps :
  NoDup (map Pattern.id ps) -> resolve tz cal ps = closedWalk tz ps [] ∅ cal.
Proof. apply ResolveFacts.resolve_closed. Qed.

(** C4. After [applyAllPatterns] on a non-empty calendar no effect is
    performed and the plan map is a function of the calendar and the
    patterns alone (whatever the previous map held, manual edits included);
    a key is present iff it is the key of a day on which at least one
    pattern fires, that is, a pattern whose weekday set is empty or holds
    the weekday of the day; its value is never empty and is the list, joined
    by line feeds, of one line per firing pattern of such a day, in store
    order.  With pairwise distinct ids, one key per day and numbers within
    2^53, the entry of every day is exactly the lines of the specification
    for that day, each pattern at its start number plus its count per day
    for every earlier day on which it fired. *)
Theorem applyAllPatterns_replaces_plans (tz : TimeZone) (st : State) :
  calendar st <> [] ->
  let st' := (applyAllPatterns tz st).1 in
  (applyAllPatterns tz st).2 = []
  /\ (forall old, plans (applyAllPatterns tz (setPlans st old)).1 = plans st')
  /\ (forall k,
       (is_Some (plans st' !! k)
        <-> exists d p, d ∈ calendar st /\ dateKey tz d = k /\ p ∈ patterns st
                        /\ Spec.fires p (Date.getDay tz d) = true)
       /\ forall v, plans st' !! k = Some v ->
            v <> ""
            /\ exists d lines,
                 d ∈ calendar st /\ dateKey tz d = k
                 /\ Forall2 (fun p l => exists cur, l = displayText p cur)
                      (filter (fun p => Spec.fires p (Date.getDay tz d) = true)
                              (patterns st)) lines
                 /\ v = JS.join JS.LF lines)
  /\ (NoDup (map Pattern.id (patterns st)) ->
      NoDup (dateKey tz <$> calendar st) ->
      Forall (safeNumbers (length (calendar st))) (patterns st) ->
      forall pre d post, calendar st = pre ++ d :: post ->
        plans st' !! dateKey tz d
        = Spec.entry (Spec.linesOn tz (patterns st) pre d)).
Proof.
  intros Hcal.
  assert (R : forall s, calendar s = calendar st ->
            applyAllPatterns tz s
            = (setPlans s (resolve tz (calendar st) (patterns s)), [])).
  { intros s Es. unfold applyAllPatterns. rewrite Es.
    destruct (calendar st) as [|d0 cal]; [congruence|]. reflexivity. }
  cbv zeta. rewrite (R st eq_refl). cbn [fst snd plans setPlans].
  split; [reflexivity|].
  split; [intros old; rewrite (R (setPlans st old) eq_refl); reflexivity|].
  split.
  - intros k. split.
    + rewrite PlanFacts.resolve_is_Some. split.
      * intros (d & p & Hd & Hk & Hp & Hf). exists d, p.
        rewrite <- ResolveFacts.shouldApply_fires. auto.
      * intros (d & p & Hd & Hk & Hp & Hf). exists d, p.
        rewrite ResolveFacts.shouldApply_fires. auto.
    + intros v Hv. apply PlanFacts.resolve_Some in Hv as (Hne & d & lines & Hd & Hk & Hl & ->).
      split; [exact Hne|]. exists d, lines. split; [exact Hd|]. split; [exact Hk|].
      split; [|reflexivity].
      replace (filter (fun p => Spec.fires p (Date.getDay tz d) = true) (patterns st))
        with (firing (Date.getDay tz d) (patterns st)); [exact Hl|].
      unfold firing. apply list_filter_iff. intros p.
      rewrite ResolveFacts.shouldApply_fires. reflexivity.
  - intros Hids Hkeys Hs pre d post Ecal. rewrite Ecal in *.
    apply PlanFacts.resolve_entry_safe; assumption.
Qed.

Lemma applyAllPatterns_replaces_plans_witness :
  let st := editPlan "2025-01-07" "manual"
              (plannerWith "2025-01-06" "2025-01-13" mondayToMonday [mondayPattern]) in
  calendar st <> []
  /\ (applyAllPatterns Seoul st).2 = []
  /\ (forall old,
       plans (applyAllPatterns Seoul (setPlans st old)).1
       = plans (applyAllPatterns Seoul st).1)
  /\ plans (applyAllPatterns Seoul st).1 !! "2025-01-13" = Some "X 3-4".
Proof.
  cbv zeta.
  assert (H : calendar (editPlan "2025-01-07" "manual"
                (plannerWith "2025-01-06" "2025-01-13" mondayToMonday [mondayPattern]))
              <> []) by (vm_compute; discriminate).
  split; [exact H|].
  split; [exact (proj1 (applyAllPatterns_replaces_plans Seoul _ H))|].
  split; [exact (proj1 (proj2 (applyAllPatterns_replaces_plans Seoul _ H)))|].
  pose proof (proj2 (proj2 (proj2 (applyAllPatterns_replaces_plans Seoul _ H)))) as P.
  cbv zeta in P.
  specialize (P (PlanFacts.NoDup_single_id mondayPattern)
                (CalendarFacts.midnights_distinct_keys (9 * ES.msPerHour) 20094 8)).
  assert (S1 : Forall (safeNumbers 8) [mondayPattern]).
  { repeat constructor. exists 1, 2.
    repeat split; try reflexivity; try lia; vm_compute; discriminate. }
  specialize (P S1 (midnightOf (9 * ES.msPerHour) <$> seqZ 20094 7)
                (midnightOf (9 * ES.msPerHour) 20101) [] eq_refl).
  etransitivity; [exact P|]. vm_compute. reflexivity.
Defined.

(** A manual edit on a day without firing pattern is gone after the run. *)
Example manual_edit_discarded :
  let st := editPlan "2025-01-07" "manual"
              (plannerWith "2025-01-06" "2025-01-13" mondayToMonday [mondayPattern]) in
  plans st !! "2025-01-07" = Some "manual"
  /\ plans (applyAllPatterns Seoul st).1 !! "2025-01-07" = None.
Proof. split; vm_compute; reflexivity. Qed.

(** With keys that occur once, as in a generated calendar, the entry of a
    day is the merge of that very day's lines. *)
Lemma resolve_day_entry (tz : TimeZone) cal ps d :
  NoDup (dateKey tz <$> cal) -> d ∈ cal ->
  exists lines,
    Forall2 (fun p l => exists cur, l = displayText p cur)
            (firing (Date.getDay tz d) ps) lines
    /\ resolve tz cal ps !! dateKey tz d
       = match lines with [] => None | _ => Some (JS.join JS.LF lines) end.
Proof.
  induction cal as [|d' cal IH] using rev_ind; intros Hnd Hd; [inversion Hd|].
  rewrite fmap_app in Hnd. apply NoDup_app in Hnd as (Hnd & Hdisj & _).
  destruct (PlanFacts.resolve_snoc tz ps cal d') as (lines & Hshape & ->).
  apply elem_of_app in Hd as [Hd | Hd].
  - destruct (IH Hnd Hd) as (lines' & Hshape' & Hl).
    exists lines'. split; [exact Hshape'|].
    rewrite PlanFacts.putLines_lookup_ne; [exact Hl|].
    intros Heq. apply (Hdisj (dateKey tz d)).
    + apply list_elem_of_fmap_2. exact Hd.
    + rewrite <- Heq. cbn. left.
  - apply list_elem_of_singleton in Hd as ->.
    exists lines. split; [exact Hshape|].
    rewrite PlanFacts.putLines_lookup_eq. destruct lines; [|reflexivity].
    apply eq_None_not_Some. intros Hs.
    apply PlanFacts.resolve_is_Some in Hs as (d & p & Hd & Hk & _).
    apply (Hdisj (dateKey tz d')).
    + rewrite <- Hk. apply list_elem_of_fmap_2. exact Hd.
    + cbn. left.
Qed.

(** C5. [applyAllPatterns] keeps no counter between runs: the counters
    are set from the start numbers at the beginning of every run. Running
    it again on its own result gives the same state and the same plan map,
    and two states with the same calendar and the same patterns get the same
    plan map, whatever they held before.  In the second run, as in the
    first, the numbers start again at the start numbers: with pairwise
    distinct ids, one key per day and numbers within 2^53, the entry of
    every day holds each firing pattern at its start number plus its count
    per day for every earlier day of this calendar on which it fired, so the
    first line of a pattern carries its start number. *)
Theorem applyAllPatterns_idempotent (tz : TimeZone) (st : State) :
  calendar st <> [] ->
  let once := applyAllPatterns tz st in
  let twice := applyAllPatterns tz once.1 in
  twice = once
  /\ (forall st2,
       calendar st2 = calendar st -> patterns st2 = patterns st ->
       plans (applyAllPatterns tz st2).1 = plans once.1)
  /\ (NoDup (map Pattern.id (patterns st)) ->
      NoDup (dateKey tz <$> calendar st) ->
      Forall (safeNumbers (length (calendar st))) (patterns st) ->
      forall pre d post, calendar st = pre ++ d :: post ->
        plans twice.1 !! dateKey tz d
        = Spec.entry (Spec.linesOn tz (patterns st) pre d)
        /\ forall p, p ∈ patterns st ->
             Spec.fires p (Date.getDay tz d) = true ->
             (forall x, x ∈ pre -> Spec.fires p (Date.getDay tz x) = false) ->
             exists lines,
               plans twice.1 !! dateKey tz d = Some (JS.join JS.LF lines)
               /\ Spec.line p (Spec.startNumber p) ∈ lines).
Proof.
  intros Hne once twice.
  assert (E1 : once = (setPlans st (resolve tz (calendar st) (patterns st)), [])).
  { unfold once, applyAllPatterns.
    destruct (calendar st) as [|d cal]; [congruence|]. reflexivity. }
  assert (E2 : twice = once).
  { unfold twice. rewrite E1. cbn [fst]. unfold applyAllPatterns.
    cbn [calendar setPlans patterns].
    destruct (calendar st) as [|d cal]; [congruence|]. reflexivity. }
  split; [exact E2|]. split.
  - intros st2 Hc Hp. rewrite E1. unfold applyAllPatterns. rewrite Hc, Hp.
    destruct (calendar st) as [|d cal]; [congruence|]. reflexivity.
  - intros Hids Hkeys Hs pre d post Ecal. rewrite E2, E1. cbn [fst plans setPlans].
    assert (P : resolve tz (calendar st) (patterns st) !! dateKey tz d
                = Spec.entry (Spec.linesOn tz (patterns st) pre d)).
    { rewrite Ecal in *. apply PlanFacts.resolve_entry_safe; assumption. }
    split; [exact P|]. intros p Hp Hf Hq.
    pose proof (PlanFacts.first_line_is_startNumber tz (patterns st) pre d p Hp Hf Hq)
      as Hin.
    exists (Spec.linesOn tz (patterns st) pre d). split; [|exact Hin].
    rewrite P. unfold Spec.entry.
    destruct (Spec.linesOn tz (patterns st) pre d); [inversion Hin | reflexivity].
Qed.

Lemma applyAllPatterns_idempotent_witness :
  let st := plannerWith "2025-01-06" "2025-01-13" mondayToMonday [mondayPattern] in
  calendar st <> []
  /\ applyAllPatterns Seoul (applyAllPatterns Seoul st).1 = applyAllPatterns Seoul st
  /\ plans (applyAllPatterns Seoul (applyAllPatterns Seoul st).1).1 !! "2025-01-06"
     = Some "X 1-2".
Proof.
  cbv zeta.
  assert (H : calendar (plannerWith "2025-01-06" "2025-01-13" mondayToMonday
                          [mondayPattern]) <> []) by (vm_compute; discriminate).
  split; [exact H|].
  split; [exact (proj1 (applyAllPatterns_idempotent Seoul _ H))|].
  pose proof (proj2 (proj2 (applyAllPatterns_idempotent Seoul _ H))) as P.
  cbv zeta in P.
  specialize (P (PlanFacts.NoDup_single_id mondayPattern)
                (CalendarFacts.midnights_distinct_keys (9 * ES.msPerHour) 20094 8)).
  assert (S1 : Forall (safeNumbers 8) [mondayPattern]).
  { repeat constructor. exists 1, 2.
    repeat split; try reflexivity; try lia; vm_compute; discriminate. }
  specialize (P S1 [] (midnightOf (9 * ES.msPerHour) 20094)
                (map (midnightOf (9 * ES.msPerHour)) (seqZ 20095 7)) eq_refl).
  etransitivity; [exact (proj1 P)|]. vm_compute. reflexivity.
Defined.

(** C10, as stated, fails for two patterns under one id: together they
    write "A 10", "B 11" on the day, alone they write "A 1" and "B 10". *)
Lemma resolve_shared_id_interferes :
  resolve Seoul (calendar twinsPlanner) twins !! "2025-01-06"
  <> Spec.mergeLines
       (map (fun p => resolve Seoul (calendar twinsPlanner) [p] !! "2025-01-06") twins).
Proof.
  intros H.
  apply (f_equal (fun o => bool_decide (o = Some ("A 10" +:+ JS.LF +:+ "B 11"))))
    in H.
  vm_compute in H. discriminate H.
Qed.

(** C10 (amended: the ids of the store are pairwise distinct). For every day
    sequence and every store with pairwise distinct ids, the plan is, key by
    key, the merge in store order of the plans that each pattern gets when
    it is resolved alone: a pattern fires on the same days and writes the
    same lines alone or among the others. *)
Theorem resolve_noninterference (tz : TimeZone) cal ps k :
  NoDup (map Pattern.id ps) ->
  resolve tz cal ps !! k
  = Spec.mergeLines (map (fun p => resolve tz cal [p] !! k) ps).
Proof.
  intros Hnd. induction cal as [|d cal IH] using rev_ind.
  - unfold resolve at 1. cbn [foldl snd]. rewrite lookup_empty.
    erewrite map_ext; [symmetry; apply PlanFacts.mergeLines_none|].
    intros p. unfold resolve. cbn. apply lookup_empty.
  - rewrite PlanFacts.resolve_snoc_distinct by assumption.
    erewrite (map_ext (fun p => resolve tz (cal ++ [d]) [p] !! k)).
    2:{ intros p. rewrite PlanFacts.resolve_snoc_distinct by apply PlanFacts.NoDup_single_id.
        reflexivity. }
    destruct (decide (dateKey tz d = k)) as [<- | Hne].
    + erewrite map_ext_in.
      2:{ intros p _. rewrite PlanFacts.putLines_lookup_eq, PlanFacts.linesOn_single.
          instantiate (1 := fun p => if shouldApply p (Date.getDay tz d)
            then Some (displayText p (counterAt tz p cal)) else None).
          cbv beta. destruct (shouldApply p (Date.getDay tz d)) eqn:E.
          - reflexivity.
          - apply PlanFacts.resolve_single_quiet. exact E. }
      unfold Spec.mergeLines. rewrite <- PlanFacts.linesOn_merge, PlanFacts.putLines_lookup_eq.
      destruct (linesOn tz ps cal d) eqn:El; [|reflexivity].
      apply eq_None_not_Some. intros Hs.
      apply PlanFacts.resolve_is_Some in Hs as (d' & p & _ & Hk & Hp & Hf).
      apply KeyInj.dateKey_getDay in Hk. rewrite Hk in Hf.
      assert (Hin : p ∈ firing (Date.getDay tz d) ps)
        by (apply list_elem_of_filter; auto).
      unfold linesOn in El. apply map_eq_nil in El. rewrite El in Hin.
      inversion Hin.
    + rewrite PlanFacts.putLines_lookup_ne by assumption. rewrite IH. f_equal.
      apply map_ext. intros p. rewrite PlanFacts.putLines_lookup_ne by assumption.
      reflexivity.
Qed.

Lemma resolve_noninterference_witness :
  let ps := [mondayPattern; Pattern.mk 2 "Y" "p" 5 1 []] in
  NoDup (map Pattern.id ps)
  /\ resolve Seoul mondayToMonday ps !! "2025-01-13"
     = Spec.mergeLines (map (fun p => resolve Seoul mondayToMonday [p] !! "2025-01-13") ps).
Proof.
  cbv zeta.
  assert (H : NoDup (map Pattern.id [mondayPattern; Pattern.mk 2 "Y" "p" 5 1 []])).
  { apply (bool_decide_unpack _). vm_compute. exact I. }
  split; [exact H|]. exact (resolve_noninterference Seoul _ _ _ H).
Defined.

(** Day by day: the lines of a day are those that its patterns write when
    each is resolved alone, in store order. *)
Lemma linesOn_noninterference (tz : TimeZone) ps before d :
  linesOn tz ps before d = concat (map (fun p => linesOn tz [p] before d) ps).
Proof.
  rewrite PlanFacts.linesOn_merge. induction ps as [|p ps IH]; [reflexivity|].
  cbn [map concat]. rewrite PlanFacts.linesOn_single, <- IH.
  destruct (shouldApply p (Date.getDay tz d)); reflexivity.
Qed.

Example two_patterns_one_day :
  resolve Seoul mondayToMonday [mondayPattern; Pattern.mk 2 "Y" "p" 5 1 []]
    !! "2025-01-13"
  = Some ("X 3-4" +:+ JS.LF +:+ "Y 12p").
Proof. vm_compute. reflexivity. Qed.

(** ** Grid (C6) *)

(** C6. For every non-empty day sequence, [gridDates] returns as [leading]
    the weekday of the first day and as [trailing]
    (7 - (leading + dayCount) mod 7) mod 7; both lie in 0..6 and
    leading + dayCount + trailing is a multiple of 7. The export computes the
    same two numbers and lays out that many blank cells before and after the
    day cells. *)
Theorem gridDates_full_weeks (tz : TimeZone) (st : State) first rest :
  calendar st = first :: rest ->
  let n := Z.of_nat (length (calendar st)) in
  let g := gridDates tz (calendar st) in
  leading g = Date.getDay tz first
  /\ trailing g = Spec.trailingBlanks (leading g) n
  /\ 0 <= leading g <= 6 /\ 0 <= trailing g <= 6
  /\ (leading g + n + trailing g) mod 7 = 0
  /\ cells (gridHTML tz st first (List.last (calendar st) first))
     = map HeaderCell weekdaysLocal
       ++ replicate (Z.to_nat (leading g)) BlankCell
       ++ map (dayCell tz st) (calendar st)
       ++ replicate (Z.to_nat (trailing g)) BlankCell.
Proof.
  intros E. cbv zeta. rewrite E. cbn [gridDates leading trailing].
  pose proof (ESFacts.WeekDay_range (Date.LocalTime tz first)) as Hw.
  fold (Date.getDay tz first) in Hw.
  set (l := Date.getDay tz first) in *.
  set (n := Z.of_nat (length (first :: rest))).
  assert (Hn : 0 <= n) by (unfold n; lia).
  unfold JS.rem, Spec.trailingBlanks.
  rewrite (Z.rem_mod_nonneg (l + n) 7) by lia.
  assert (Hm : 0 <= (l + n) mod 7 < 7) by (apply Z.mod_pos_bound; lia).
  rewrite (Z.rem_mod_nonneg (7 - (l + n) mod 7) 7) by lia.
  split; [reflexivity|]. split; [reflexivity|]. split; [lia|].
  split; [Z.div_mod_to_equations; lia|].
  split; [Z.div_mod_to_equations; lia|].
  unfold gridHTML. cbn [cells]. rewrite E. fold l. fold n.
  unfold JS.rem. rewrite (Z.rem_mod_nonneg (l + n) 7) by lia.
  rewrite (Z.rem_mod_nonneg (7 - (l + n) mod 7) 7) by lia.
  reflexivity.
Qed.

Lemma gridDates_full_weeks_witness :
  let st := plannerWith "2025-01-06" "2025-01-13" mondayToMonday [] in
  let g := gridDates Seoul (calendar st) in
  leading g = 1 /\ trailing g = 5 /\ (leading g + 8 + trailing g) mod 7 = 0.
Proof.
  cbv zeta.
  assert (E : calendar (plannerWith "2025-01-06" "2025-01-13" mondayToMonday [])
              = midnightOf (9 * ES.msPerHour) 20094
                :: map (midnightOf (9 * ES.msPerHour)) (seqZ 20095 7))
    by (vm_compute; reflexivity).
  pose proof (gridDates_full_weeks Seoul _ _ _ E) as (Hl & Ht & _ & _ & Hm & _).
  split; [rewrite Hl; vm_compute; reflexivity|].
  split; [rewrite Ht, Hl; vm_compute; reflexivity|].
  exact Hm.
Defined.

(** 0 is Sunday: 2025-01-05 was a Sunday, 1970-01-01 a Thursday. *)
Example getDay_sunday :
  Date.getDay Seoul (midnightOf (9 * ES.msPerHour) (civilDay 2025 1 5)) = 0
  /\ Date.getDay Seoul (midnightOf (9 * ES.msPerHour) (civilDay 1970 1 1)) = 4.
Proof. split; vm_compute; reflexivity. Qed.

(** ** Calendar generation (C2, C3) *)

Section FixedZoneCalendar.
Import ES.
Variable offset : Z.
Variables (st : State) (y1 m1 d1 y2 m2 d2 : Z).
Hypothesis offset_range : - msPerDay <= offset < msPerDay.
Hypothesis start_year : 1000 <= y1 <= 9999.
Hypothesis start_valid : validCivil y1 m1 d1.
Hypothesis end_year : 1000 <= y2 <= 9999.
Hypothesis end_valid : validCivil y2 m2 d2.
Hypothesis start_key : startDate st = keyOf y1 m1 d1.
Hypothesis end_key : endDate st = keyOf y2 m2 d2.

Local Abbreviation tz := (fixedZone offset).
Local Abbreviation a := (civilDay y1 m1 d1).
Local Abbreviation b := (civilDay y2 m2 d2).

(** In a zone of constant offset, a range of at most 400 days gives one
    local midnight per day, in order, for the days from [a + dayShift] to
    [b + dayShift]: the chosen days themselves east of Greenwich
    ([dayShift = 0]), the days before them west of it ([dayShift = -1]). *)
Lemma generateCalendar_fixed_ok fuel :
  a <= b -> b - a + 1 <= 400 -> (400 <= fuel)%nat ->
  generateCalendar tz fuel st
  = Some (setCalendar st (midnightOf offset <$> seqZ (a + dayShift offset) (b - a + 1)),
          []).
Proof.
  intros Hab Hspan Hfuel.
  rewrite (CalendarFacts.generateCalendar_fixed offset fuel st y1 m1 d1 y2 m2 d2)
    by (assumption || lia).
  destruct (Z.ltb_spec b a); [lia|].
  destruct (Z.gtb_spec (b - a + 1) 400); [lia|].
  rewrite DateFacts.calendarLoop_fixed by lia.
  replace (b + dayShift offset - (a + dayShift offset) + 1) with (b - a + 1) by lia.
  reflexivity.
Qed.

(** X6. In a zone of constant offset the generation fails exactly when
    the end precedes the start or the range has more than 400 days, and then
    nothing changes; otherwise it stores a calendar and raises no alert. *)
Lemma generateCalendar_fixed_fails fuel :
  (400 <= fuel)%nat ->
  (b < a \/ 400 < b - a + 1 <->
   exists msg, generateCalendar tz fuel st = Some (st, [Alert msg]))
  /\ (~ (b < a \/ 400 < b - a + 1) <->
      exists cal, generateCalendar tz fuel st = Some (setCalendar st cal, [])).
Proof.
  intros Hfuel.
  rewrite (CalendarFacts.generateCalendar_fixed offset fuel st y1 m1 d1 y2 m2 d2)
    by (assumption || lia).
  destruct (Z.ltb_spec b a).
  { split; split.
    - intros _. eauto.
    - intros _. left. assumption.
    - intros Hn. exfalso. apply Hn. left. assumption.
    - intros (cal & Heq). discriminate Heq. }
  destruct (Z.gtb_spec (b - a + 1) 400).
  { split; split.
    - intros _. eauto.
    - intros _. right. assumption.
    - intros Hn. exfalso. apply Hn. right. assumption.
    - intros (cal & Heq). discriminate Heq. }
  rewrite DateFacts.calendarLoop_fixed by lia. cbn [fmap option_fmap option_map].
  split; split.
  - lia.
  - intros (msg & Heq). discriminate Heq.
  - intros _. eauto.
  - intros _. lia.
Qed.

(** East of Greenwich the calendar is the chosen range: as many entries as
    days, one local midnight per day in ascending order, the first under
    the start key and the last under the end key. *)
Lemma generateCalendar_east fuel :
  0 <= offset -> a <= b -> b - a + 1 <= 400 -> (400 <= fuel)%nat ->
  exists cal,
    generateCalendar tz fuel st = Some (setCalendar st cal, [])
    /\ Z.of_nat (length cal) = b - a + 1
    /\ localDay tz <$> cal = seqZ a (b - a + 1)
    /\ (forall i j x y, cal !! i = Some x -> cal !! j = Some y ->
                        (i < j)%nat -> x < y)
    /\ dateKey tz <$> cal !! 0%nat = Some (startDate st)
    /\ dateKey tz <$> last cal = Some (endDate st).
Proof.
  intros Ho Hab Hspan Hfuel.
  assert (Hs : dayShift offset = 0).
  { unfold dayShift, msPerDay in *. Z.div_mod_to_equations. lia. }
  exists (midnightOf offset <$> seqZ a (b - a + 1)).
  split. { rewrite generateCalendar_fixed_ok, Hs, Z.add_0_r by assumption. reflexivity. }
  split. { rewrite length_fmap, length_seqZ. lia. }
  split.
  { rewrite <- list_fmap_compose. rewrite <- (list_fmap_id (seqZ a (b - a + 1))) at 2.
    apply list_fmap_ext. intros i x _. apply DateFacts.localDay_midnightOf. }
  split.
  { intros i j x y Hi Hj Hij.
    rewrite list_lookup_fmap in Hi, Hj.
    destruct (seqZ a (b - a + 1) !! i) as [x'|] eqn:Ei; [|discriminate].
    destruct (seqZ a (b - a + 1) !! j) as [y'|] eqn:Ej; [|discriminate].
    apply lookup_seqZ in Ei as [-> _]. apply lookup_seqZ in Ej as [-> _].
    injection Hi as <-. injection Hj as <-.
    unfold midnightOf, MakeDate, msPerDay. lia. }
  split.
  { rewrite list_lookup_fmap.
    rewrite (proj2 (lookup_seqZ a (b - a + 1) 0 a)) by lia. cbn.
    rewrite start_key. f_equal. apply CalendarFacts.dateKey_civil; [assumption|].
    apply DateFacts.localDay_midnightOf. }
  { rewrite fmap_last.
    rewrite (seqZ_app a (b - a) 1) by lia.
    rewrite DateFacts.seqZ_one. replace (a + (b - a)) with b by lia.
    rewrite last_snoc. cbn.
    rewrite end_key. f_equal. apply CalendarFacts.dateKey_civil; [assumption|].
    apply DateFacts.localDay_midnightOf. }
Qed.

End FixedZoneCalendar.

(** C2 is violated in every zone west of Greenwich. In America/Bogota
    (UTC-5 all year) with start = end = 2025-01-15, [new Date("2025-01-15")]
    is midnight UTC, which is 19:00 of the 14th local time; the calendar
    built from its local components holds the single day 2025-01-14, a day
    outside the interval [start, end]. *)
Theorem generateCalendar_west_of_greenwich :
  let st := plannerWith "2025-01-15" "2025-01-15" [] [] in
  startDate st = keyOf 2025 1 15 /\ endDate st = keyOf 2025 1 15
  /\ exists cal,
       generateCalendar Bogota 400 st = Some (setCalendar st cal, [])
       /\ dateKey Bogota <$> cal = ["2025-01-14"]
       /\ localDay Bogota <$> cal = [civilDay 2025 1 15 - 1].
Proof.
  cbv zeta. split; [reflexivity|]. split; [reflexivity|].
  exists [midnightOf (-5 * ES.msPerHour) (civilDay 2025 1 14)].
  split; [vm_compute; reflexivity|]. split; vm_compute; reflexivity.
Qed.

(** C3 is violated where summer time begins inside the range. In
    Europe/Berlin the range 2025-03-01 .. 2026-04-05 has 401 days, but its
    two local midnights are 400 days less one hour apart; the code divides
    the milliseconds by 24 hours and rounds down, counts 400 days, raises no
    alert and stores a calendar of 401 days. *)
Theorem generateCalendar_summer_time_401 :
  let st := plannerWith "2025-03-01" "2026-04-05" [] [] in
  startDate st = keyOf 2025 3 1 /\ endDate st = keyOf 2026 4 5
  /\ civilDay 2026 4 5 - civilDay 2025 3 1 + 1 = 401
  /\ exists cal,
       generateCalendar Berlin 500 st = Some (setCalendar st cal, [])
       /\ length cal = 401%nat
       /\ dateKey Berlin <$> cal !! 0%nat = Some "2025-03-01"
       /\ dateKey Berlin <$> last cal = Some "2026-04-05".
Proof.
  cbv zeta. split; [reflexivity|]. split; [reflexivity|].
  split; [reflexivity|].
  exists berlin401.
  split; [vm_compute; reflexivity|].
  split; [vm_compute; reflexivity|].
  split; vm_compute; reflexivity.
Qed.

(** The loop itself steps by calendar days: over the night in which Berlin
    loses an hour the entries are 23 hours apart and still one per day. *)
Example generateCalendar_across_summer_time :
  let st := plannerWith "2025-03-29" "2025-03-31" [] [] in
  exists cal,
    generateCalendar Berlin 400 st = Some (setCalendar st cal, [])
    /\ dateKey Berlin <$> cal = ["2025-03-29"; "2025-03-30"; "2025-03-31"]
    /\ cal = [1743202800000; 1743202800000 + 24 * ES.msPerHour;
              1743202800000 + 47 * ES.msPerHour].
Proof.
  cbv zeta. eexists. split; [vm_compute; reflexivity|].
  split; vm_compute; reflexivity.
Qed.

(** The other validation failures of C3 hold in every zone. *)
Lemma generateCalendar_missing (tz : TimeZone) fuel st :
  startDate st = "" \/ endDate st = "" ->
  generateCalendar tz fuel st = Some (st, [Alert "날짜를 선택해주세요"; Focus]).
Proof.
  intros H. unfold generateCalendar.
  destruct H as [-> | ->]; [reflexivity|].
  rewrite orb_true_r. reflexivity.
Qed.

Lemma applyAllPatterns_empty (tz : TimeZone) st :
  calendar st = [] ->
  applyAllPatterns tz st = (st, [Alert "먼저 캘린더를 생성해주세요"]).
Proof. intros H. unfold applyAllPatterns. rewrite H. reflexivity. Qed.

Lemma exportToPDF_empty (tz : TimeZone) R st w :
  calendar st = [] ->
  exportToPDF tz R st w
  = mkWorld (body w) (created w) (effects w ++ [Alert "먼저 캘린더를 생성해주세요"]).
Proof. intros H. unfold exportToPDF. rewrite H. reflexivity. Qed.

(** ** Export (C7, C9) *)

Section ExportRun.
Variable tz : TimeZone.
Variable R : Renderer.
Variables (st : State) (w : World) (first : Z) (rest : list Z).
Hypothesis calendar_nonempty : calendar st = first :: rest.

Lemma exportToPDF_unfold :
  exportToPDF tz R st w
  = let node := pdfContainer tz st w first in
    let w1 := mkWorld (body w ++ [node]) (S (created w)) (effects w) in
    match html2canvas R node with
    | inr err => perform (Alert exportFailed) (perform (ConsoleError err) w1)
    | inl canvas =>
        let w2 := removeChild node w1 in
        match assemblePdf R canvas (pdfFileName tz st first) with
        | inr err => perform (Alert exportFailed) (perform (ConsoleError err) w2)
        | inl _ => perform (Download (pdfFileName tz st first)) w2
        end
    end.
Proof.
  unfold exportToPDF. pose proof calendar_nonempty as E.
  destruct (calendar st) as [|f r]; [discriminate|]. injection E as -> ->.
  unfold tryCatch, exportBody, bind, createElement, act, liftResult, ret, throw.
  cbv zeta. fold (pdfContainer tz st w first). fold (pdfFileName tz st first).
  cbn [appendChild body created effects].
  destruct (html2canvas R (pdfContainer tz st w first)) as [canvas|err];
    [|reflexivity].
  destruct (assemblePdf R canvas (pdfFileName tz st first)) as [[]|err];
    reflexivity.
Qed.

(** When the rasterization throws, the container stays in the body. *)
Lemma exportToPDF_rasterization_throws err :
  html2canvas R (pdfContainer tz st w first) = inr err ->
  body (exportToPDF tz R st w) = body w ++ [pdfContainer tz st w first]
  /\ effects (exportToPDF tz R st w)
     = effects w ++ [ConsoleError err; Alert exportFailed].
Proof.
  intros H. rewrite exportToPDF_unfold. cbv zeta. rewrite H.
  cbn [perform body effects]. rewrite <- app_assoc. split; reflexivity.
Qed.

Lemma removeChild_fresh :
  freshIds w ->
  filter (fun m => nodeId m <> nodeId (pdfContainer tz st w first))
         (body w ++ [pdfContainer tz st w first])
  = body w.
Proof.
  intros Hf. rewrite filter_app, filter_cons, filter_nil.
  rewrite decide_False by (intros H; apply H; reflexivity).
  rewrite app_nil_r. unfold freshIds in Hf. cbn [pdfContainer nodeId].
  induction Hf as [|m l Hm Hl IH]; [reflexivity|].
  rewrite filter_cons, decide_True by lia. f_equal. exact IH.
Qed.

(** When the rasterization returns, the container is removed, whether the
    assembly of the document then throws or not. *)
Lemma exportToPDF_rasterization_returns canvas :
  freshIds w ->
  html2canvas R (pdfContainer tz st w first) = inl canvas ->
  body (exportToPDF tz R st w) = body w
  /\ effects (exportToPDF tz R st w)
     = effects w
       ++ match assemblePdf R canvas (pdfFileName tz st first) with
          | inl _ => [Download (pdfFileName tz st first)]
          | inr err => [ConsoleError err; Alert exportFailed]
          end.
Proof.
  intros Hf H. rewrite exportToPDF_unfold. cbv zeta. rewrite H.
  destruct (assemblePdf R canvas (pdfFileName tz st first)) as [[]|err];
    cbn [perform removeChild body effects]; rewrite removeChild_fresh by assumption;
    rewrite <- ?app_assoc; split; reflexivity.
Qed.

End ExportRun.

(** C7 is violated on the failure path of the rasterization: the container
    is appended before [await html2canvas] and removed only after it, and the
    [catch] block does not remove it. With a rasterizer that throws, the
    export of a one-day calendar ends with the container still in the body;
    when rasterization succeeds the container is gone, also if the assembly
    of the document throws afterwards. *)
Theorem exportToPDF_leaves_container :
  nodeId <$> body (exportToPDF Seoul failingCanvas oneDayPlanner emptyWorld) = [0%nat]
  /\ effects (exportToPDF Seoul failingCanvas oneDayPlanner emptyWorld)
     = [ConsoleError "SecurityError"; Alert exportFailed]
  /\ body (exportToPDF Seoul workingRenderer oneDayPlanner emptyWorld) = []
  /\ body (exportToPDF Seoul failingPdf oneDayPlanner emptyWorld) = [].
Proof. repeat split; vm_compute; reflexivity. Qed.

(** C9 is violated for plan text with an ampersand. The export replaces
    "<", ">" and the newline and leaves "&" (and the quotes) as they are,
    although [escHTML] of the same file replaces all five characters: the
    stored texts "<" and "&lt;" are both exported as "&lt;", so the cell
    for the stored text "&lt;" shows "<". *)
Theorem exportPlanText_keeps_ampersand :
  let cellText s := exportPlanText {[ "2025-01-06" := s ]} "2025-01-06" in
  cellText "&lt;" = "&lt;"
  /\ cellText "<" = "&lt;"
  /\ escapedPlanText "&lt;" = "&amp;lt;"
  /\ cellText "&lt;" <> escapedPlanText "&lt;".
Proof.
  cbv zeta. split; [vm_compute; reflexivity|]. split; [vm_compute; reflexivity|].
  split; [vm_compute; reflexivity|].
  intros H. apply (f_equal (fun s => bool_decide (s = "&lt;"))) in H.
  vm_compute in H. discriminate H.
Qed.

Module ExportText.

Lemma append_assoc (s t u : string) : (s +:+ t) +:+ u = s +:+ (t +:+ u).
Proof.
  induction s as [|c s IH]; [reflexivity|].
  change (String c s +:+ t) with (String c (s +:+ t)).
  change (String c (s +:+ t) +:+ u) with (String c ((s +:+ t) +:+ u)).
  rewrite IH. reflexivity.
Qed.

Lemma replaceAll_app c by_ s t :
  JS.replaceAll c by_ (s +:+ t) = JS.replaceAll c by_ s +:+ JS.replaceAll c by_ t.
Proof.
  induction s as [|a s IH]; [reflexivity|].
  change (String a s +:+ t) with (String a (s +:+ t)). cbn [JS.replaceAll].
  rewrite IH, append_assoc. reflexivity.
Qed.

Lemma replace_chain_plain s :
  plainText s = true ->
  JS.replaceAll "010" "<br>" (JS.replaceAll ">" "&gt;" (JS.replaceAll "<" "&lt;" s))
  = escapedPlanText s.
Proof.
  intros Hp. unfold escapedPlanText, escHTML.
  induction s as [|c s IH]; [reflexivity|].
  cbn [plainText] in Hp. apply andb_true_iff in Hp as [Hc Hp].
  apply negb_true_iff in Hc. apply orb_false_iff in Hc as [Hc Hq'].
  apply orb_false_iff in Hc as [Ha Hq].
  cbn [JS.replaceAll JS.replaceClass]. rewrite !replaceAll_app, IH by assumption.
  f_equal. unfold isHtmlSpecial, htmlEntity. rewrite Ha, Hq, Hq'.
  destruct (Ascii.eqb c "<") eqn:Elt.
  { apply Ascii.eqb_eq in Elt as ->. reflexivity. }
  cbn [JS.replaceAll orb].
  destruct (Ascii.eqb c ">") eqn:Egt.
  { apply Ascii.eqb_eq in Egt as ->. reflexivity. }
  reflexivity.
Qed.

(** On text without ampersand and quotes the export does embed the text as
    [escHTML] would, with newlines as line breaks. *)
Lemma exportPlanText_plain (plans : gmap string string) key s :
  plans !! key = Some s -> plainText s = true ->
  exportPlanText plans key = escapedPlanText s.
Proof.
  intros Hk Hp. unfold exportPlanText. rewrite Hk. apply replace_chain_plain.
  exact Hp.
Qed.

End ExportText.

(** The date label of a day cell: the day of the month alone in "day" mode,
    month/day in "month-day" mode (the second half of C9). *)
Lemma dayCell_label (tz : TimeZone) st date :
  dayCell tz st date
  = DayCell (Date.getDay tz date =? 0)
      match dateFormat st with
      | FmtDay => JS.ToStringInt (Date.getDate tz date)
      | FmtMonthDay =>
          JS.ToStringInt (Date.getMonth tz date + 1) +:+ "/"
          +:+ JS.ToStringInt (Date.getDate tz date)
      end
      (exportPlanText (plans st) (dateKey tz date)).
Proof. unfold dayCell, dateDisplay. destruct (dateFormat st); reflexivity. Qed.

(** ** The pattern store (C8) *)

(** C8 is violated. The commit stores the dialog's pattern as it is; the
    count per day is only put right when the count field loses focus.  A
    dialog whose count field was emptied, saved without leaving the field,
    puts a pattern with a count per day of 0 into the store; such a pattern
    writes a range that ends before it starts and never advances. *)
Theorem addOrUpdatePattern_stores_zero :
  emptiedCount = countPerDay_onChange "" (initialState 0)
  /\ JS.geb (Pattern.countPerDay (editingPattern emptiedCount)) 0 = true
  /\ Pattern.countPerDay <$> patterns (addOrUpdatePattern 1700000000000 emptiedCount)
     = [JS.Fin 0]
  /\ ~ Forall (fun p => JS.geb (Pattern.countPerDay p) 1 = true)
         (patterns (addOrUpdatePattern 1700000000000 emptiedCount))
  /\ resolve Seoul mondayToMonday
       (patterns (addOrUpdatePattern 1700000000000 emptiedCount))
     = (fun _ : string => "민법 1-0강") <$> resolve Seoul mondayToMonday [initialPattern 0]
  /\ size (resolve Seoul mondayToMonday [initialPattern 0]) = 8%nat.
Proof.
  split; [reflexivity|]. split; [reflexivity|]. split; [reflexivity|].
  split.
  - intros H. apply Forall_cons in H as [H _]. vm_compute in H. discriminate H.
  - split; vm_compute; reflexivity.
Qed.

Module StoreFacts.

Lemma findIndex_Some {A} (f : A -> bool) l i :
  findIndex f l = Some i -> (i < length l)%nat.
Proof.
  revert i. induction l as [|x l IH]; intros i; cbn [findIndex]; [discriminate|].
  destruct (f x).
  - intros [= <-]. cbn. lia.
  - destruct (findIndex f l) as [j|]; [|discriminate].
    intros [= <-]. cbn. specialize (IH j eq_refl). lia.
Qed.

(** The commit stores the editing pattern with its count unchanged, in
    place of the pattern of the same id or at the end under the id [now]. *)
Lemma addOrUpdatePattern_patterns now st :
  (exists i, (i < length (patterns st))%nat
             /\ patterns (addOrUpdatePattern now st)
                = <[i := editingPattern st]> (patterns st))
  \/ patterns (addOrUpdatePattern now st)
     = patterns st ++ [Pattern.withId (editingPattern st) now].
Proof.
  unfold addOrUpdatePattern. cbn [patterns setShowPatternModal setPatterns].
  destruct (findIndex _ (patterns st)) as [i|] eqn:E; [left|right; reflexivity].
  exists i. split; [|reflexivity]. eapply findIndex_Some. exact E.
Qed.

Lemma findIndex_lookup {A} (f : A -> bool) l i :
  findIndex f l = Some i -> exists x, l !! i = Some x /\ f x = true.
Proof.
  revert i. induction l as [|x l IH]; intros i; cbn [findIndex]; [discriminate|].
  destruct (f x) eqn:E.
  - intros [= <-]. eauto.
  - destruct (findIndex f l) as [j|]; [|discriminate].
    intros [= <-]. apply IH. reflexivity.
Qed.

(** The ids of the store stay pairwise distinct as long as [Date.now()]
    never returns an id that is already in the store. *)
Lemma addOrUpdatePattern_distinct_ids now st :
  NoDup (map Pattern.id (patterns st)) ->
  now ∉ map Pattern.id (patterns st) ->
  NoDup (map Pattern.id (patterns (addOrUpdatePattern now st))).
Proof.
  intros Hnd Hnow. unfold addOrUpdatePattern.
  cbn [patterns setShowPatternModal setPatterns].
  destruct (findIndex _ (patterns st)) as [i|] eqn:E.
  - apply findIndex_lookup in E as (q & Hq & Hid). apply Z.eqb_eq in Hid.
    replace (map Pattern.id (<[i := editingPattern st]> (patterns st)))
      with (map Pattern.id (patterns st)); [exact Hnd|].
    change (Pattern.id <$> patterns st
            = Pattern.id <$> <[i := editingPattern st]> (patterns st)).
    rewrite list_fmap_insert. symmetry. apply list_insert_id.
    rewrite list_lookup_fmap, Hq. cbn. f_equal. exact Hid.
  - rewrite map_app. cbn [map Pattern.withId Pattern.id].
    apply NoDup_app. split; [exact Hnd|]. split; [|apply NoDup_singleton].
    intros x Hx Hx'. apply list_elem_of_singleton in Hx'. subst x. contradiction.
Qed.

Lemma removePattern_distinct_ids i st :
  NoDup (map Pattern.id (patterns st)) ->
  NoDup (map Pattern.id (patterns (removePattern i st))).
Proof.
  unfold removePattern. cbn [patterns setPatterns].
  induction (patterns st) as [|p ps IH]; intros Hnd; [constructor|].
  cbn [map] in Hnd. apply NoDup_cons in Hnd as [Hp Hnd].
  rewrite filter_cons. destruct (decide (Pattern.id p <> i)); [|auto].
  cbn [map]. apply NoDup_cons. split; [|auto].
  intros Hin. apply Hp. apply list_elem_of_fmap in Hin as (q & Hq & Hin).
  apply list_elem_of_filter in Hin as [_ Hin].
  rewrite Hq. apply list_elem_of_fmap_2. exact Hin.
Qed.

End StoreFacts.

(* ===================================================================== *)
(** * Further properties of the component *)

(** ** Keys and dates *)

Module MoreDateFacts.
Import ES ESFacts.

Lemma civil_of_localDay tz a b :
  localDay tz a = localDay tz b ->
  Date.getFullYear tz a = Date.getFullYear tz b
  /\ Date.getMonth tz a = Date.getMonth tz b
  /\ Date.getDate tz a = Date.getDate tz b
  /\ Date.getDay tz a = Date.getDay tz b.
Proof.
  unfold localDay, Date.getFullYear, Date.getMonth, Date.getDate, Date.getDay,
    WeekDay, DateFromTime, MonthFromTime, DayWithinYear, InLeapYear, YearFromTime.
  intros ->. repeat split; reflexivity.
Qed.

Lemma getFullYear_localDay tz d : Date.getFullYear tz d = YearFromDay (localDay tz d).
Proof. reflexivity. Qed.

Lemma localDay_civilDay tz d :
  localDay tz d
  = civilDay (Date.getFullYear tz d) (Date.getMonth tz d + 1) (Date.getDate tz d).
Proof.
  unfold civilDay, localDay, Date.getFullYear, Date.getMonth, Date.getDate.
  replace (MonthFromTime (Date.LocalTime tz d) + 1 - 1)
    with (MonthFromTime (Date.LocalTime tz d)) by lia.
  pose proof (MakeDay_civil (Date.LocalTime tz d) 0) as H.
  rewrite !Z.add_0_r in H. symmetry. exact H.
Qed.

Lemma validCivil_of_date tz d :
  validCivil (Date.getFullYear tz d) (Date.getMonth tz d + 1) (Date.getDate tz d).
Proof.
  unfold validCivil, Date.getFullYear, Date.getMonth, Date.getDate.
  destruct (month_date_spec (Date.LocalTime tz d)) as (Hm & _ & Hd).
  replace (MonthFromTime (Date.LocalTime tz d) + 1 - 1)
    with (MonthFromTime (Date.LocalTime tz d)) by lia.
  split; [lia | exact Hd].
Qed.

Lemma dateKey_of_localDay tz a b :
  localDay tz a = localDay tz b -> dateKey tz a = dateKey tz b.
Proof.
  intros H. apply civil_of_localDay in H as (Hy & Hm & Hd & _).
  unfold dateKey. rewrite Hy, Hm, Hd. reflexivity.
Qed.

End MoreDateFacts.

(** X1. Two dates get the same key exactly when they lie on the same local
    calendar day, whatever the time of day and whatever the zone; dates with
    the same key also have the same weekday. *)
Theorem dateKey_same_local_day (tz : TimeZone) (a b : Z) :
  (dateKey tz a = dateKey tz b <-> localDay tz a = localDay tz b)
  /\ (dateKey tz a = dateKey tz b <-> 
      Date.getFullYear tz a = Date.getFullYear tz b
      /\ Date.getMonth tz a = Date.getMonth tz b
      /\ Date.getDate tz a = Date.getDate tz b).
Proof.
  assert (H1 : dateKey tz a = dateKey tz b -> localDay tz a = localDay tz b)
    by apply KeyInj.dateKey_localDay.
  assert (H2 : localDay tz a = localDay tz b -> dateKey tz a = dateKey tz b)
    by apply MoreDateFacts.dateKey_of_localDay.
  split; [split; assumption|]. split.
  - intros H. apply H1, MoreDateFacts.civil_of_localDay in H. tauto.
  - intros (Hy & Hm & Hd). unfold dateKey. rewrite Hy, Hm, Hd. reflexivity.
Qed.

(** X2. A key read back by [new Date(key)] is midnight UTC of the calendar
    day the key was written for, in every zone, as long as the local year
    has four digits; the key then has ten characters. *)
Theorem dateKey_parse_round_trip (tz : TimeZone) (d : Z) :
  1000 <= Date.getFullYear tz d <= 9999 ->
  Date.parse (dateKey tz d) = Some (ES.MakeDate (localDay tz d) 0)
  /\ String.length (dateKey tz d) = 10%nat.
Proof.
  intros Hy. rewrite KeyInj.dateKey_keyOf.
  pose proof (MoreDateFacts.validCivil_of_date tz d) as Hv.
  split.
  - rewrite KeyFacts.parse_keyOf by assumption.
    rewrite <- MoreDateFacts.localDay_civilDay. reflexivity.
  - destruct Hv as [Hm Hd].
    pose proof (KeyFacts.DaysInMonth_le (Date.getFullYear tz d) (Date.getMonth tz d + 1 - 1)).
    destruct (KeyFacts.year4_digits _ Hy) as (a & b & c & e & ? & ? & ? & ? & Ey & _).
    destruct (KeyFacts.pad2_digits (Date.getMonth tz d + 1) ltac:(lia))
      as (f & g & ? & ? & Em & _).
    destruct (KeyFacts.pad2_digits (Date.getDate tz d) ltac:(lia))
      as (h & i & ? & ? & Ed & _).
    unfold keyOf. rewrite Ey, Em, Ed. reflexivity.
Qed.

Lemma dateKey_parse_round_trip_witness :
  1000 <= Date.getFullYear Bogota 1736830800000 <= 9999
  /\ Date.parse (dateKey Bogota 1736830800000)
     = Some (ES.MakeDate (localDay Bogota 1736830800000) 0).
Proof.
  assert (H : 1000 <= Date.getFullYear Bogota 1736830800000 <= 9999)
    by (vm_compute; split; discriminate).
  split; [exact H|]. exact (proj1 (dateKey_parse_round_trip Bogota _ H)).
Defined.

(** ** The calendar *)

Module MoreCalendarFacts.
Import ES ESFacts.

Lemma todayAt00_fixed offset now :
  todayAt00 (fixedZone offset) now
  = midnightOf offset (localDay (fixedZone offset) now).
Proof. reflexivity. Qed.

Lemma midnightOf_inj offset a b : midnightOf offset a = midnightOf offset b -> a = b.
Proof. unfold midnightOf, MakeDate, msPerDay. lia. Qed.

Lemma getDay_midnightOf offset n :
  Date.getDay (fixedZone offset) (midnightOf offset n) = (n + 4) mod 7.
Proof.
  unfold Date.getDay, WeekDay.
  change (Day (Date.LocalTime (fixedZone offset) (midnightOf offset n)))
    with (localDay (fixedZone offset) (midnightOf offset n)).
  rewrite DateFacts.localDay_midnightOf. reflexivity.
Qed.

End MoreCalendarFacts.

(** X4. Whatever the zone and the range, generating a calendar never touches
    the plans, the patterns, the chosen dates, the name or the dialog; when
    it alerts, the calendar is untouched too. *)
Theorem generateCalendar_frame (tz : TimeZone) fuel st st' eff :
  generateCalendar tz fuel st = Some (st', eff) ->
  st' = setCalendar st (calendar st')
  /\ (eff <> [] -> st' = st /\ exists msg rest, eff = Alert msg :: rest).
Proof.
  unfold generateCalendar. intros H.
  destruct (bool_decide (startDate st = "") || bool_decide (endDate st = "")).
  { injection H as <- <-. split; [destruct st; reflexivity|]. eauto. }
  destruct (Date.parse (startDate st)) as [start|];
    [destruct (Date.parse (endDate st)) as [end_|]|].
  - cbv zeta in H.
    destruct (localMidnight tz end_ <? localMidnight tz start).
    { injection H as <- <-. split; [destruct st; reflexivity|]. eauto. }
    destruct (_ >? maxSpan).
    { injection H as <- <-. split; [destruct st; reflexivity|]. eauto. }
    destruct (calendarLoop tz fuel _ _) as [dates|]; [|discriminate].
    cbn in H. injection H as <- <-. split; [reflexivity|]. congruence.
  - injection H as <- <-. split; [reflexivity|]. congruence.
  - injection H as <- <-. split; [reflexivity|]. congruence.
Qed.

Lemma generateCalendar_frame_witness :
  let st := editPlan "2025-01-07" "memo"
              (plannerWith "2025-01-06" "2025-01-13" [] [mondayPattern]) in
  exists st', generateCalendar Seoul 400 st = Some (st', [])
              /\ st' = setCalendar st (calendar st').
Proof.
  cbv zeta.
  exists (setCalendar (editPlan "2025-01-07" "memo"
            (plannerWith "2025-01-06" "2025-01-13" [] [mondayPattern])) mondayToMonday).
  assert (H : generateCalendar Seoul 400 (editPlan "2025-01-07" "memo"
                (plannerWith "2025-01-06" "2025-01-13" [] [mondayPattern]))
              = Some (setCalendar (editPlan "2025-01-07" "memo"
                  (plannerWith "2025-01-06" "2025-01-13" [] [mondayPattern]))
                  mondayToMonday, []))
    by (vm_compute; reflexivity).
  split; [exact H|]. exact (proj1 (generateCalendar_frame Seoul _ _ _ _ H)).
Defined.

(** X5. In a zone of constant offset, east or west of Greenwich, every
    calendar that the handler stores for a range of valid four-digit-year
    keys holds local midnights of consecutive days, under pairwise distinct
    keys. *)
Theorem generated_calendar_wellformed offset fuel st st' y1 m1 d1 y2 m2 d2 :
  - ES.msPerDay <= offset < ES.msPerDay ->
  1000 <= y1 <= 9999 -> validCivil y1 m1 d1 ->
  1000 <= y2 <= 9999 -> validCivil y2 m2 d2 ->
  startDate st = keyOf y1 m1 d1 -> endDate st = keyOf y2 m2 d2 ->
  (400 <= fuel)%nat ->
  generateCalendar (fixedZone offset) fuel st = Some (st', []) ->
  let tz := fixedZone offset in
  NoDup (dateKey tz <$> calendar st')
  /\ Forall (fun d => ES.TimeWithinDay (Date.LocalTime tz d) = 0) (calendar st')
  /\ exists a, localDay tz <$> calendar st'
               = seqZ a (Z.of_nat (length (calendar st'))).
Proof.
  intros Ho Hy1 Hv1 Hy2 Hv2 Es Ee Hfuel H tz.
  rewrite (CalendarFacts.generateCalendar_fixed offset fuel st y1 m1 d1 y2 m2 d2)
    in H by (assumption || lia).
  destruct (civilDay y2 m2 d2 <? civilDay y1 m1 d1); [discriminate H|].
  destruct (Z.gtb_spec (civilDay y2 m2 d2 - civilDay y1 m1 d1 + 1) 400);
    [discriminate H|].
  rewrite DateFacts.calendarLoop_fixed in H by lia.
  cbn in H. injection H as <-. cbn [calendar setCalendar].
  set (a := civilDay y1 m1 d1 + dayShift offset).
  set (n := civilDay y2 m2 d2 + dayShift offset - a + 1).
  split; [apply CalendarFacts.midnights_distinct_keys|]. split.
  - apply Forall_fmap, Forall_forall. intros x _. unfold compose, tz.
    rewrite DateFacts.LocalTime_midnightOf.
    apply ESFacts.TimeWithinDay_MakeDate. unfold ES.msPerDay. lia.
  - exists a. rewrite length_fmap, length_seqZ.
    rewrite <- list_fmap_compose.
    replace (Z.of_nat (Z.to_nat n)) with (Z.max 0 n) by lia.
    destruct (Z.max_spec 0 n) as [[Hn ->] | [Hn ->]].
    + rewrite <- (list_fmap_id (seqZ a n)) at 2.
      apply list_fmap_ext. intros i x _. apply DateFacts.localDay_midnightOf.
    + rewrite !seqZ_nil by lia. reflexivity.
Qed.

Lemma generated_calendar_wellformed_witness :
  let st := plannerWith "2025-01-15" "2025-01-20" [] [] in
  exists st', generateCalendar Bogota 400 st = Some (st', [])
              /\ NoDup (dateKey Bogota <$> calendar st').
Proof.
  cbv zeta.
  assert (Ho : - ES.msPerDay <= -5 * ES.msPerHour < ES.msPerDay)
    by (unfold ES.msPerDay, ES.msPerHour; lia).
  assert (Hv1 : validCivil 2025 1 15) by (vm_compute; repeat split; discriminate).
  assert (Hv2 : validCivil 2025 1 20) by (vm_compute; repeat split; discriminate).
  assert (Es : startDate (plannerWith "2025-01-15" "2025-01-20" [] []) = keyOf 2025 1 15)
    by (vm_compute; reflexivity).
  assert (Ee : endDate (plannerWith "2025-01-15" "2025-01-20" [] []) = keyOf 2025 1 20)
    by (vm_compute; reflexivity).
  assert (H : generateCalendar Bogota 400 (plannerWith "2025-01-15" "2025-01-20" [] [])
              = Some (setCalendar (plannerWith "2025-01-15" "2025-01-20" [] [])
                        (midnightOf (-5 * ES.msPerHour) <$> seqZ 20102 6), []))
    by (vm_compute; reflexivity).
  exists (setCalendar (plannerWith "2025-01-15" "2025-01-20" [] [])
            (midnightOf (-5 * ES.msPerHour) <$> seqZ 20102 6)).
  split; [exact H|].
  exact (proj1 (generated_calendar_wellformed (-5 * ES.msPerHour) 400
                  (plannerWith "2025-01-15" "2025-01-20" [] [])
                  (setCalendar (plannerWith "2025-01-15" "2025-01-20" [] [])
                     (midnightOf (-5 * ES.msPerHour) <$> seqZ 20102 6))
                  2025 1 15 2025 1 20 Ho ltac:(lia) Hv1 ltac:(lia) Hv2 Es Ee
                  ltac:(lia) H)).
Defined.

(** X9. In a zone of constant offset a cell that holds a local midnight is
    marked "today" exactly when it is the cell of today's local date, so at
    most one cell of a calendar is marked. *)
Theorem isToday_exactly_today (offset now n : Z) :
  isToday (fixedZone offset) now (midnightOf offset n) = true
  <-> n = localDay (fixedZone offset) now.
Proof.
  unfold isToday, isSameDay, Date.getTime.
  rewrite MoreCalendarFacts.todayAt00_fixed, Z.eqb_eq. split.
  - apply MoreCalendarFacts.midnightOf_inj.
  - intros ->. reflexivity.
Qed.

(** X10. The grid puts every day into the column of its weekday: in a
    calendar of consecutive local midnights the cell of the i-th day, which
    comes after [leading] blank cells, falls into column
    (leading + i) mod 7, and that is the day's weekday; the weekday of the
    next day is the next one, modulo 7. *)
Theorem grid_column_is_weekday (offset a n : Z) (i : nat) (d : Z) :
  let tz := fixedZone offset in
  let cal := midnightOf offset <$> seqZ a n in
  cal !! i = Some d ->
  (leading (gridDates tz cal) + Z.of_nat i) mod 7 = Date.getDay tz d
  /\ Date.getDay tz (midnightOf offset (localDay tz d + 1))
     = (Date.getDay tz d + 1) mod 7.
Proof.
  intros tz cal Hi. unfold cal in *.
  rewrite list_lookup_fmap in Hi.
  destruct (seqZ a n !! i) as [x|] eqn:Ex; [|discriminate]. injection Hi as <-.
  apply lookup_seqZ in Ex as [-> Hlt].
  assert (L : leading (gridDates tz (midnightOf offset <$> seqZ a n))
              = Date.getDay tz (midnightOf offset a)).
  { rewrite (seqZ_cons a n) by lia. reflexivity. }
  rewrite L. unfold tz. rewrite DateFacts.localDay_midnightOf.
  rewrite !MoreCalendarFacts.getDay_midnightOf.
  split; Z.div_mod_to_equations; lia.
Qed.

Lemma grid_column_is_weekday_witness :
  (leading (gridDates Seoul mondayToMonday) + 6) mod 7
  = Date.getDay Seoul (midnightOf (9 * ES.msPerHour) 20100).
Proof.
  assert (H : (midnightOf (9 * ES.msPerHour) <$> seqZ 20094 8) !! 6%nat
              = Some (midnightOf (9 * ES.msPerHour) 20100))
    by (vm_compute; reflexivity).
  exact (proj1 (grid_column_is_weekday (9 * ES.msPerHour) 20094 8 6 _ H)).
Defined.

(** X3. A key read back with [new Date] names the same day east of
    Greenwich and the day before west of it: in a zone of constant offset
    the key of the parsed date is the key itself exactly when the offset is
    not negative. *)
Theorem key_parse_round_trip (offset y m d : Z) :
  - ES.msPerDay <= offset < ES.msPerDay ->
  1000 <= y <= 9999 -> validCivil y m d ->
  let tz := fixedZone offset in
  exists t, Date.parse (keyOf y m d) = Some t
            /\ localDay tz t = civilDay y m d + dayShift offset
            /\ (dateKey tz t = keyOf y m d <-> 0 <= offset).
Proof.
  intros Ho Hy Hv tz. exists (ES.MakeDate (civilDay y m d) 0).
  split; [apply KeyFacts.parse_keyOf; assumption|].
  pose proof (CalendarFacts.localDay_utcMidnight offset (civilDay y m d)) as L.
  split; [exact L|]. split.
  - intros K.
    destruct (Z.le_gt_cases 0 offset) as [|Hneg]; [assumption|exfalso].
    rewrite <- (CalendarFacts.dateKey_civil tz y m d (midnightOf offset (civilDay y m d)))
      in K by (assumption || apply DateFacts.localDay_midnightOf).
    apply KeyInj.dateKey_localDay in K.
    unfold tz in K. rewrite L, DateFacts.localDay_midnightOf in K.
    rewrite CalendarFacts.dayShift_west in K by lia. lia.
  - intros Hpos. apply CalendarFacts.dateKey_civil; [assumption|].
    unfold tz. rewrite L, CalendarFacts.dayShift_east by lia. lia.
Qed.

Lemma key_parse_round_trip_witness :
  exists t, Date.parse (keyOf 2025 1 15) = Some t
            /\ localDay Bogota t = civilDay 2025 1 15 + dayShift (-5 * ES.msPerHour).
Proof.
  assert (Ho : - ES.msPerDay <= -5 * ES.msPerHour < ES.msPerDay)
    by (unfold ES.msPerDay, ES.msPerHour; lia).
  assert (Hv : validCivil 2025 1 15) by (vm_compute; repeat split; discriminate).
  destruct (key_parse_round_trip (-5 * ES.msPerHour) 2025 1 15 Ho ltac:(lia) Hv)
    as (t & P & L & _).
  exists t. split; [exact P | exact L].
Defined.

(** ** The date picker *)

(** X7. Picking a range and generating: when the picker hands over two
    dates of four-digit years, at most 400 days apart, the calendar made
    from the stored keys holds one local midnight for each day from the
    first picked day to the last in a zone east of Greenwich, and for the
    days one earlier in a zone west of it ([dayShift] is 0 or -1). *)
Theorem picked_range_generates (offset : Z) (fuel : nat) (st : State) (f t : Z) :
  let tz := fixedZone offset in
  - ES.msPerDay <= offset < ES.msPerDay ->
  1000 <= Date.getFullYear tz f <= 9999 ->
  1000 <= Date.getFullYear tz t <= 9999 ->
  localDay tz f <= localDay tz t ->
  localDay tz t - localDay tz f + 1 <= 400 ->
  (400 <= fuel)%nat ->
  let st' := pickerState (onSelect tz (Some (Some f, Some t)) (mkPicker st false)) in
  startDate st' = dateKey tz f /\ endDate st' = dateKey tz t
  /\ generateCalendar tz fuel st'
     = Some (setCalendar st'
               (midnightOf offset
                  <$> seqZ (localDay tz f + dayShift offset)
                        (localDay tz t - localDay tz f + 1)), []).
Proof.
  intros tz Ho Hf Ht Hle Hspan Hfuel st'.
  split; [reflexivity|]. split; [reflexivity|].
  pose proof (MoreDateFacts.localDay_civilDay tz f) as Ef.
  pose proof (MoreDateFacts.localDay_civilDay tz t) as Et.
  rewrite Ef, Et in *.
  apply (generateCalendar_fixed_ok offset st'
           (Date.getFullYear tz f) (Date.getMonth tz f + 1) (Date.getDate tz f)
           (Date.getFullYear tz t) (Date.getMonth tz t + 1) (Date.getDate tz t));
    try assumption; try reflexivity; try apply MoreDateFacts.validCivil_of_date.
Qed.

Lemma picked_range_generates_witness :
  let st' := pickerState (onSelect Seoul
               (Some (Some (midnightOf (9 * ES.msPerHour) 20094),
                      Some (midnightOf (9 * ES.msPerHour) 20101)))
               (mkPicker (plannerWith "" "" [] []) false)) in
  startDate st' = "2025-01-06" /\ endDate st' = "2025-01-13"
  /\ generateCalendar Seoul 400 st' = Some (setCalendar st' mondayToMonday, []).
Proof.
  cbv zeta.
  assert (Ho : - ES.msPerDay <= 9 * ES.msPerHour < ES.msPerDay)
    by (unfold ES.msPerDay, ES.msPerHour; lia).
  assert (Hf : 1000 <= Date.getFullYear Seoul (midnightOf (9 * ES.msPerHour) 20094) <= 9999)
    by (vm_compute; split; discriminate).
  assert (Ht : 1000 <= Date.getFullYear Seoul (midnightOf (9 * ES.msPerHour) 20101) <= 9999)
    by (vm_compute; split; discriminate).
  assert (Hle : localDay Seoul (midnightOf (9 * ES.msPerHour) 20094)
                <= localDay Seoul (midnightOf (9 * ES.msPerHour) 20101))
    by (vm_compute; discriminate).
  assert (Hspan : localDay Seoul (midnightOf (9 * ES.msPerHour) 20101)
                  - localDay Seoul (midnightOf (9 * ES.msPerHour) 20094) + 1 <= 400)
    by (vm_compute; discriminate).
  destruct (picked_range_generates (9 * ES.msPerHour) 400 (plannerWith "" "" [] [])
              _ _ Ho Hf Ht Hle Hspan ltac:(lia)) as (S & E & G).
  split; [vm_compute; reflexivity|]. split; [vm_compute; reflexivity|].
  etransitivity; [exact G|]. vm_compute. reflexivity.
Defined.

(** X8. A second click on the start day clears the whole range: the
    selection that the picker reports for the same click is ignored, the ref
    is reset, nothing else of the state changes, and generating a calendar
    afterwards only asks for the dates.  A click on any other day leaves
    the state to [onSelect]. *)
Theorem reclick_start_clears (tz : TimeZone) (day : Z) (p : Picker) range fuel :
  startDate (pickerState p) <> "" ->
  let p' := onSelect tz range (onDayClick tz day p) in
  (dateKey tz day = startDate (pickerState p) ->
      pickerState p' = clearRange (pickerState p)
      /\ skipSelect p' = false
      /\ generateCalendar tz fuel (pickerState p')
         = Some (pickerState p', [Alert "날짜를 선택해주세요"; Focus]))
  /\ (dateKey tz day <> startDate (pickerState p) ->
      p' = onSelect tz range p).
Proof.
  intros Hs p'. unfold p', onDayClick. split.
  - intros K. rewrite K.
    rewrite (bool_decide_eq_false_2 _ Hs), bool_decide_eq_true_2 by reflexivity.
    cbn. repeat split.
  - intros K. rewrite (bool_decide_eq_false_2 _ K), andb_false_r. reflexivity.
Qed.

Lemma reclick_start_clears_witness :
  let p := mkPicker (plannerWith "2025-01-06" "2025-01-13" mondayToMonday []) false in
  let day := midnightOf (9 * ES.msPerHour) 20094 in
  pickerState (onSelect Seoul (Some (Some day, None)) (onDayClick Seoul day p))
  = clearRange (pickerState p).
Proof.
  cbv zeta.
  assert (Hs : startDate (pickerState
                 (mkPicker (plannerWith "2025-01-06" "2025-01-13" mondayToMonday []) false))
               <> "") by discriminate.
  assert (K : dateKey Seoul (midnightOf (9 * ES.msPerHour) 20094)
              = startDate (pickerState
                  (mkPicker (plannerWith "2025-01-06" "2025-01-13" mondayToMonday []) false)))
    by (vm_compute; reflexivity).
  exact (proj1 (proj1 (reclick_start_clears Seoul _ _
                         (Some (Some (midnightOf (9 * ES.msPerHour) 20094), None)) 400%nat Hs)
                  K)).
Defined.

(** ** The text area of a day *)

(** X11. Typing into the cell of one day changes what that cell (and any
    date object of the same local day) shows and leaves every other day's
    cell as it was, in every zone. *)
Theorem editPlan_only_that_cell (tz : TimeZone) (st : State) (d d' : Z) (v : string) :
  cellValue tz (editPlan (dateKey tz d) v st) d'
  = (if bool_decide (localDay tz d' = localDay tz d) then v else cellValue tz st d').
Proof.
  unfold cellValue, editPlan. cbn [plans setPlans].
  - destruct (bool_decide_reflect (localDay tz d' = localDay tz d)) as [E|E].
    + apply MoreDateFacts.dateKey_of_localDay in E.
      rewrite E, lookup_insert_eq. reflexivity.
    + rewrite lookup_insert_ne; [reflexivity|].
      intros K. apply E. symmetry. apply KeyInj.dateKey_localDay. exact K.
Qed.

(** ** The pattern store *)

Module MoreStoreFacts.

Lemma findIndex_None {A} (f : A -> bool) l :
  findIndex f l = None <-> Forall (fun x => f x = false) l.
Proof.
  induction l as [|x l IH]; cbn [findIndex].
  - split; [constructor | reflexivity].
  - destruct (f x) eqn:E.
    + split; [discriminate|]. intros H. inversion H; congruence.
    + destruct (findIndex f l) as [j|]; cbn.
      * split; [discriminate|]. intros H. inversion H; subst.
        apply IH in H3. discriminate.
      * split; [|reflexivity]. intros _. constructor; [assumption|].
        apply IH. reflexivity.
Qed.

(** With pairwise distinct ids, the index found for an id is the index of
    the one pattern that carries it. *)
Lemma findIndex_id (ps : list Pattern.t) i q :
  NoDup (map Pattern.id ps) -> ps !! i = Some q ->
  findIndex (fun p => Pattern.id p =? Pattern.id q) ps = Some i.
Proof.
  revert i. induction ps as [|p ps IH]; intros i Hnd Hi; [discriminate|].
  cbn [map] in Hnd. apply NoDup_cons in Hnd as [Hp Hnd].
  cbn [findIndex]. destruct i as [|i]; cbn in Hi.
  - injection Hi as ->. rewrite Z.eqb_refl. reflexivity.
  - destruct (Z.eqb_spec (Pattern.id p) (Pattern.id q)) as [E|E].
    + exfalso. apply Hp. rewrite E.
      apply list_elem_of_fmap. exists q. split; [reflexivity|].
      eapply list_elem_of_lookup_2. exact Hi.
    + rewrite (IH i Hnd Hi). reflexivity.
Qed.

Lemma findIndex_absent (ps : list Pattern.t) (i : Z) :
  i ∉ map Pattern.id ps ->
  findIndex (fun p => Pattern.id p =? i) ps = None.
Proof.
  intros H. apply findIndex_None, Forall_forall. intros p Hp.
  apply Z.eqb_neq. intros E. apply H. subst i.
  apply list_elem_of_fmap. exists p. split; [reflexivity | assumption].
Qed.

End MoreStoreFacts.

(** X12. Saving the dialog: when a pattern of the store carries the id of
    the dialog's pattern, that entry and only that entry is replaced, in
    place, and the ids of the store are as before; when none does, the
    dialog's pattern is appended under the id [Date.now()].  The dialog is
    closed, and it keeps its own id: a second save of a new pattern appends
    a second entry. *)
Theorem addOrUpdatePattern_replaces_or_appends (now : Z) (st : State) :
  NoDup (map Pattern.id (patterns st)) ->
  let e := editingPattern st in
  let st' := addOrUpdatePattern now st in
  showPatternModal st' = false
  /\ editingPattern st' = e
  /\ (forall i q, patterns st !! i = Some q -> Pattern.id q = Pattern.id e ->
        patterns st' = <[i := e]> (patterns st)
        /\ map Pattern.id (patterns st') = map Pattern.id (patterns st))
  /\ (Pattern.id e ∉ map Pattern.id (patterns st) ->
        patterns st' = patterns st ++ [Pattern.withId e now]
        /\ forall now', now' <> Pattern.id e -> now <> Pattern.id e ->
             patterns (addOrUpdatePattern now' st')
             = patterns st ++ [Pattern.withId e now; Pattern.withId e now']).
Proof.
  intros Hnd e st'. split; [reflexivity|]. split; [reflexivity|]. split.
  - intros i q Hi Hid.
    assert (P : patterns st' = <[i := e]> (patterns st)).
    { unfold st', addOrUpdatePattern. cbn [patterns setShowPatternModal setPatterns].
      fold e. rewrite <- Hid.
      rewrite (MoreStoreFacts.findIndex_id _ i q Hnd Hi). reflexivity. }
    split; [exact P|]. rewrite P.
    change (map Pattern.id) with (fmap (M := list) Pattern.id).
    rewrite list_fmap_insert, <- Hid. apply list_insert_id.
    rewrite list_lookup_fmap, Hi. reflexivity.
  - intros Hfresh.
    assert (P : patterns st' = patterns st ++ [Pattern.withId e now]).
    { unfold st', addOrUpdatePattern. cbn [patterns setShowPatternModal setPatterns].
      fold e. rewrite (MoreStoreFacts.findIndex_absent _ _ Hfresh). reflexivity. }
    split; [exact P|]. intros now' Hn' Hn.
    unfold addOrUpdatePattern at 1. cbn [patterns setShowPatternModal setPatterns].
    change (editingPattern st') with e. rewrite P.
    rewrite MoreStoreFacts.findIndex_absent; [rewrite <- app_assoc; reflexivity|].
    rewrite map_app. cbn [map Pattern.id Pattern.withId].
    intros H. apply elem_of_app in H as [H|H]; [exact (Hfresh H)|].
    apply list_elem_of_singleton in H. congruence.
Qed.

Lemma addOrUpdatePattern_replaces_or_appends_witness :
  patterns (addOrUpdatePattern 1700000000001 (addOrUpdatePattern 1700000000000
              (initialState 1600000000000)))
  = [Pattern.withId (initialPattern 1600000000000) 1700000000000;
     Pattern.withId (initialPattern 1600000000000) 1700000000001].
Proof.
  assert (Hnd : NoDup (map Pattern.id (patterns (initialState 1600000000000))))
    by constructor.
  assert (Hfresh : Pattern.id (editingPattern (initialState 1600000000000))
                   ∉ map Pattern.id (patterns (initialState 1600000000000)))
    by (apply not_elem_of_nil).
  exact (proj2 (proj2 (proj2 (proj2
           (addOrUpdatePattern_replaces_or_appends 1700000000000 _ Hnd))) Hfresh)
           1700000000001 ltac:(discriminate) ltac:(discriminate)).
Defined.

(** X13. Opening a stored pattern with its edit button and saving it
    unchanged leaves the store as it was. *)
Theorem edit_then_save_is_identity (now : Z) (st : State) (p : Pattern.t) :
  NoDup (map Pattern.id (patterns st)) ->
  p ∈ patterns st ->
  patterns (addOrUpdatePattern now (editPattern p st)) = patterns st.
Proof.
  intros Hnd Hp. apply list_elem_of_lookup_1 in Hp as (i & Hi).
  unfold addOrUpdatePattern, editPattern.
  cbn [patterns editingPattern setShowPatternModal setPatterns setEditingPattern].
  rewrite (MoreStoreFacts.findIndex_id _ i p Hnd Hi).
  apply list_insert_id. exact Hi.
Qed.

Lemma edit_then_save_is_identity_witness :
  patterns (addOrUpdatePattern 1700000000000
              (editPattern mondayPattern (plannerWith "" "" [] [mondayPattern])))
  = [mondayPattern].
Proof.
  apply (edit_then_save_is_identity 1700000000000
           (plannerWith "" "" [] [mondayPattern]) mondayPattern).
  - repeat constructor. apply not_elem_of_nil.
  - apply list_elem_of_singleton. reflexivity.
Defined.

(** X14. The "add pattern" button opens the dialog without resetting it:
    after a pattern was edited and saved, a pattern entered through that
    button and saved takes the place of the edited one instead of being
    added; the store keeps its length and loses the edited pattern. *)
Theorem add_after_edit_overwrites (now now' : Z) (st : State) (p : Pattern.t)
        (subject : string) :
  NoDup (map Pattern.id (patterns st)) ->
  p ∈ patterns st ->
  Pattern.subjectName p <> subject ->
  let st1 := addOrUpdatePattern now (editPattern p st) in
  let st2 := subjectName_onChange subject (openPatternModal st1) in
  let st3 := addOrUpdatePattern now' st2 in
  length (patterns st3) = length (patterns st)
  /\ withSubjectName p subject ∈ patterns st3
  /\ p ∉ patterns st3.
Proof.
  intros Hnd Hp Hs st1 st2 st3.
  apply list_elem_of_lookup_1 in Hp as (i & Hi).
  assert (P1 : patterns st1 = patterns st).
  { unfold st1, addOrUpdatePattern, editPattern.
    cbn [patterns editingPattern setShowPatternModal setPatterns setEditingPattern].
    rewrite (MoreStoreFacts.findIndex_id _ i p Hnd Hi).
    apply list_insert_id. exact Hi. }
  assert (P3 : patterns st3 = <[i := withSubjectName p subject]> (patterns st)).
  { unfold st3, addOrUpdatePattern at 1.
    cbn [patterns editingPattern setShowPatternModal setPatterns setEditingPattern].
    change (patterns st2) with (patterns st1).
    change (editingPattern st2) with (withSubjectName p subject).
    rewrite P1.
    change (Pattern.id (withSubjectName p subject)) with (Pattern.id p).
    rewrite (MoreStoreFacts.findIndex_id _ i p Hnd Hi). reflexivity. }
  rewrite P3. split; [apply length_insert|]. split.
  - eapply list_elem_of_lookup_2. apply list_lookup_insert_eq.
    eapply lookup_lt_Some. exact Hi.
  - intros H. apply list_elem_of_lookup_1 in H as (j & Hj).
    destruct (decide (i = j)) as [<-|Hij].
    + rewrite list_lookup_insert_eq in Hj by (eapply lookup_lt_Some; exact Hi).
      injection Hj as Hj. apply Hs. rewrite <- Hj. reflexivity.
    + rewrite list_lookup_insert_ne in Hj by assumption.
      apply Hij. eapply NoDup_lookup; [exact Hnd| |].
      * rewrite list_lookup_fmap, Hi. reflexivity.
      * change (map Pattern.id) with (fmap (M := list) Pattern.id).
        rewrite list_lookup_fmap, Hj. reflexivity.
Qed.

Lemma add_after_edit_overwrites_witness :
  let st := plannerWith "" "" [] [mondayPattern] in
  let st1 := addOrUpdatePattern 1700000000000 (editPattern mondayPattern st) in
  let st2 := subjectName_onChange "another subject" (openPatternModal st1) in
  length (patterns (addOrUpdatePattern 1700000000001 st2)) = 1%nat.
Proof.
  cbv zeta.
  refine (proj1 (add_after_edit_overwrites 1700000000000 1700000000001
                   (plannerWith "" "" [] [mondayPattern]) mondayPattern
                   "another subject" _ _ _)).
  - repeat constructor. apply not_elem_of_nil.
  - apply list_elem_of_singleton. reflexivity.
  - intros H. apply (f_equal (fun s => bool_decide (s = "another subject"))) in H.
    vm_compute in H. discriminate H.
Defined.

(** X15. Deleting by id removes every pattern of that id and nothing else:
    the other patterns stay, in their order; an id that is not in the store
    changes nothing; with distinct ids exactly one pattern goes. *)
Theorem removePattern_spec (i : Z) (st : State) :
  let ps := patterns st in
  let ps' := patterns (removePattern i st) in
  (forall p, p ∈ ps' <-> p ∈ ps /\ Pattern.id p <> i)
  /\ sublist ps' ps
  /\ (i ∉ map Pattern.id ps -> ps' = ps)
  /\ (NoDup (map Pattern.id ps) -> i ∈ map Pattern.id ps ->
      S (length ps') = length ps).
Proof.
  intros ps ps'. unfold ps', removePattern. cbn [patterns setPatterns]. fold ps.
  clearbody ps. clear ps' st. split; [|split; [|split]].
  - intros p. rewrite list_elem_of_filter. tauto.
  - apply sublist_filter.
  - induction ps as [|p ps IH]; intros H; [reflexivity|].
    cbn [map] in H. apply not_elem_of_cons in H as [H1 H2].
    rewrite filter_cons_True by congruence. f_equal. auto.
  - induction ps as [|p ps IH]; intros Hnd Hin; cbn [map] in *.
    + apply elem_of_nil in Hin. contradiction.
    + apply NoDup_cons in Hnd as [Hp Hnd].
      destruct (decide (Pattern.id p = i)) as [E|E].
      * rewrite filter_cons_False by (intros H; apply H; exact E).
        cbn [length]. f_equal. f_equal.
        clear IH Hin Hnd. subst i.
        induction ps as [|q ps IH]; [reflexivity|].
        cbn [map] in Hp. apply not_elem_of_cons in Hp as [Hq Hp].
        rewrite filter_cons_True by congruence. f_equal. auto.
      * rewrite filter_cons_True by assumption. cbn [length]. f_equal.
        apply IH; [assumption|].
        apply elem_of_cons in Hin as [Hin|Hin]; [congruence | assumption].
Qed.

(** ** The pattern dialog *)

Module DialogFacts.

Lemma digit_char c d :
  Date.digit c = Some d ->
  0 <= d <= 9 /\ isWhite c = false
  /\ Ascii.eqb c "-"%char = false /\ Ascii.eqb c "+"%char = false.
Proof.
  destruct c as [[] [] [] [] [] [] [] []]; vm_compute; intros [= <-];
    repeat split; discriminate.
Qed.

Lemma digit_pretty_N_char x :
  (x < 10)%N -> Date.digit (pretty_N_char x) = Some (Z.of_N x).
Proof.
  intros H. do 10 (destruct x as [|x] using N.peano_ind;
    [reflexivity | rewrite <- N.add_1_r in H; try lia]);
    lia.
Qed.

(** The digits that [pretty] writes for a positive number, read back. *)
Lemma digitsValue_pretty_N_go (x : N) :
  (0 < x)%N ->
  (exists k, forall acc s,
     digitsValue acc (pretty_N_go x s)
     = digitsValue (Some (default 0 acc * k + Z.of_N x)) s)
  /\ (forall s, exists c rest d,
        pretty_N_go x s = String c rest /\ Date.digit c = Some d).
Proof.
  induction x as [x IH] using (well_founded_induction N.lt_wf_0). intros Hx.
  assert (Hm : (x `mod` 10 < 10)%N) by (apply N.mod_lt; lia).
  pose proof (digit_pretty_N_char _ Hm) as Hd.
  pose proof (N.div_mod x 10 ltac:(lia)) as Hdm.
  destruct (N.eq_dec (x `div` 10)%N 0%N) as [E0|E0].
  - split.
    + exists 10. intros acc s. rewrite pretty_N_go_step, E0, pretty_N_go_0 by assumption.
      cbn [digitsValue]. rewrite Hd. f_equal. f_equal.
      rewrite E0, N.mul_0_r, N.add_0_l in Hdm. rewrite <- Hdm. lia.
    + intros s. rewrite pretty_N_go_step, E0, pretty_N_go_0 by assumption. eauto.
  - assert (Hlt : (x `div` 10 < x)%N) by (apply N.div_lt; lia).
    destruct (IH _ Hlt ltac:(lia)) as [(k & Hk) Hc]. split.
    + exists (10 * k). intros acc s. rewrite pretty_N_go_step, Hk by assumption.
      cbn [digitsValue]. rewrite Hd. cbn [default]. f_equal. f_equal.
      clear - Hdm. set (q := (x `div` 10)%N) in *. set (r := (x `mod` 10)%N) in *.
      clearbody q r. unfold id. generalize (default 0 acc). intros a. nia.
    + intros s. rewrite pretty_N_go_step by assumption. apply Hc.
Qed.

(** The decimal numeral of an integer that is not negative is read as the
    Number nearest to it. *)
Lemma parseInt_decimal (n : Z) :
  0 <= n -> parseInt (JS.ToStringInt n) = JS.toNumber n.
Proof.
  intros Hn. destruct n as [|p|p]; [reflexivity| |lia].
  unfold JS.ToStringInt, pretty, pretty_Z, pretty, pretty_positive, pretty, pretty_N.
  destruct (decide (N.pos p = 0%N)) as [E|_]; [discriminate E|].
  destruct (digitsValue_pretty_N_go (N.pos p) ltac:(lia)) as [(k & Hk) Hc].
  destruct (Hc "") as (c & rest & d & Es & Hd).
  destruct (digit_char c d Hd) as (_ & Hw & Hm & Hp).
  unfold parseInt. rewrite Es. cbn [skipWhite]. rewrite Hw, Hm, Hp.
  rewrite <- Es, Hk. cbn [digitsValue default numberOfDigits]. f_equal; lia.
Qed.

Lemma blur_at_least_one (x : JS.Number) :
  JS.geb x 0 = true -> JS.geb (if JS.eqb x 0 then JS.Fin 1 else x) 1 = true.
Proof.
  destruct x as [z| | |]; cbn; try discriminate; try reflexivity.
  intros H. apply Z.leb_le in H.
  destruct (Z.eqb_spec z 0); cbn; [reflexivity | apply Z.leb_le; lia].
Qed.

Lemma ToString_nonempty (n : Z) : JS.ToStringInt n <> "".
Proof.
  intros H. apply (f_equal String.length) in H.
  assert (L : forall x s, (String.length s <= String.length (pretty_N_go x s))%nat).
  { intros x. induction x as [x IH] using (well_founded_induction N.lt_wf_0).
    intros s. destruct (N.eq_dec x 0%N) as [->|Hx]; [rewrite pretty_N_go_0; lia|].
    rewrite pretty_N_go_step by lia.
    etransitivity; [|apply IH; apply N.div_lt; lia]. cbn. lia. }
  assert (P : forall p, (1 <= String.length (pretty_N_go (N.pos p) ""))%nat).
  { intros p. rewrite pretty_N_go_step by lia.
    etransitivity; [|apply L]. cbn. lia. }
  destruct n as [|p|p]; [discriminate H| |].
  - specialize (P p). cbn in H. unfold pretty, pretty_positive, pretty, pretty_N in H.
    destruct (decide (N.pos p = 0%N)); [discriminate|]. lia.
  - discriminate H.
Qed.

End DialogFacts.

(** X17. What is typed into a number field is what the dialog holds, as a
    Number: the decimal numeral of an integer n with 0 <= n < 10^20 stores
    the Number nearest to n, in the start-number field and in the count
    field alike.  Up to 2^53 that is n itself; the field then shows the
    numeral again for n >= 1 and nothing for 0, and after the field is left
    it holds max(1, n). *)
Theorem typed_number_is_stored (n : Z) (st : State) :
  0 <= n < 10 ^ 20 ->
  let s1 := startNum_onChange (JS.ToStringInt n) st in
  let s2 := countPerDay_onChange (JS.ToStringInt n) st in
  Pattern.startNum (editingPattern s1) = JS.toNumber n
  /\ Pattern.countPerDay (editingPattern s2) = JS.toNumber n
  /\ (n <= 2 ^ 53 ->
      JS.toNumber n = JS.Fin n
      /\ startNum_value s1 = (if n =? 0 then "" else JS.ToStringInt n)
      /\ countPerDay_value s2 = (if n =? 0 then "" else JS.ToStringInt n)
      /\ Pattern.startNum (editingPattern (startNum_onBlur s1)) = JS.Fin (Z.max 1 n)
      /\ Pattern.countPerDay (editingPattern (countPerDay_onBlur s2))
         = JS.Fin (Z.max 1 n)).
Proof.
  intros [Hn _] s1 s2.
  destruct (NumberFacts.toNumber_nonneg n Hn) as [Hnan Hge].
  assert (E1 : s1 = setEditingPattern st (withStartNum (editingPattern st) (JS.toNumber n))).
  { unfold s1, startNum_onChange.
    rewrite (bool_decide_eq_false_2 _ (DialogFacts.ToString_nonempty n)).
    rewrite DialogFacts.parseInt_decimal by assumption. cbv zeta.
    rewrite Hnan, Hge. reflexivity. }
  assert (E2 : s2 = setEditingPattern st
                      (Pattern.withCountPerDay (editingPattern st) (JS.toNumber n))).
  { unfold s2, countPerDay_onChange.
    rewrite (bool_decide_eq_false_2 _ (DialogFacts.ToString_nonempty n)).
    rewrite DialogFacts.parseInt_decimal by assumption. cbv zeta.
    rewrite Hnan, Hge. reflexivity. }
  rewrite E1, E2. split; [reflexivity|]. split; [reflexivity|].
  intros Hb. rewrite NumberFacts.toNumber_safe by lia.
  unfold startNum_value, countPerDay_value, startNum_onBlur, countPerDay_onBlur.
  cbn [editingPattern setEditingPattern Pattern.startNum Pattern.countPerDay
       withStartNum Pattern.withCountPerDay JS.eqb].
  split; [reflexivity|].
  destruct (Z.eqb_spec n 0) as [E|E].
  - repeat split; cbn; f_equal; lia.
  - rewrite NumberFacts.ToString_safe by lia.
    split; [reflexivity|]. split; [reflexivity|].
    split; cbn; f_equal; lia.
Qed.

Lemma typed_number_is_stored_witness :
  Pattern.startNum (editingPattern (startNum_onChange "9007199254740993" (initialState 0)))
  = JS.Fin 9007199254740992
  /\ Pattern.countPerDay (editingPattern (countPerDay_onChange "25" (initialState 0)))
     = JS.Fin 25.
Proof.
  split.
  - etransitivity;
      [exact (proj1 (typed_number_is_stored 9007199254740993 (initialState 0)
                       ltac:(lia)))|].
    vm_compute. reflexivity.
  - etransitivity;
      [exact (proj1 (proj2 (typed_number_is_stored 25 (initialState 0) ltac:(lia))))|].
    vm_compute. reflexivity.
Defined.

(** X18. Whatever text arrives, a number field changes at most its own
    number of the dialog's pattern and never stores NaN or a negative
    number; after the field is left the number is at least 1.  Feeding a
    field the text it shows changes nothing, as long as the number it holds
    is an integer up to 2^53. *)
Theorem number_fields_invariant (val : string) (st : State) :
  JS.geb (Pattern.startNum (editingPattern st)) 0 = true ->
  JS.geb (Pattern.countPerDay (editingPattern st)) 0 = true ->
  (exists x, JS.geb x 0 = true
     /\ startNum_onChange val st
        = setEditingPattern st (withStartNum (editingPattern st) x)
     /\ JS.geb (Pattern.startNum
                  (editingPattern (startNum_onBlur (startNum_onChange val st)))) 1
        = true)
  /\ (exists x, JS.geb x 0 = true
     /\ countPerDay_onChange val st
        = setEditingPattern st (Pattern.withCountPerDay (editingPattern st) x)
     /\ JS.geb (Pattern.countPerDay
                  (editingPattern (countPerDay_onBlur (countPerDay_onChange val st)))) 1
        = true)
  /\ (forall s, Pattern.startNum (editingPattern st) = JS.Fin s -> s <= 2 ^ 53 ->
        startNum_onChange (startNum_value st) st = st)
  /\ (forall c, Pattern.countPerDay (editingPattern st) = JS.Fin c -> c <= 2 ^ 53 ->
        countPerDay_onChange (countPerDay_value st) st = st).
Proof.
  intros H1 H2.
  assert (I1 : st = setEditingPattern st
                      (withStartNum (editingPattern st) (Pattern.startNum (editingPattern st))))
    by (destruct st as [? ? ? ? ? ? ? ? []]; reflexivity).
  assert (I2 : st = setEditingPattern st
                      (Pattern.withCountPerDay (editingPattern st)
                         (Pattern.countPerDay (editingPattern st))))
    by (destruct st as [? ? ? ? ? ? ? ? []]; reflexivity).
  assert (B1 : forall x, JS.geb x 0 = true ->
            JS.geb (Pattern.startNum (editingPattern (startNum_onBlur
                      (setEditingPattern st (withStartNum (editingPattern st) x))))) 1
            = true).
  { intros x Hx. unfold startNum_onBlur.
    cbn [editingPattern setEditingPattern Pattern.startNum withStartNum].
    pose proof (DialogFacts.blur_at_least_one x Hx) as B.
    destruct (JS.eqb x 0); exact B. }
  assert (B2 : forall x, JS.geb x 0 = true ->
            JS.geb (Pattern.countPerDay (editingPattern (countPerDay_onBlur
                      (setEditingPattern st (Pattern.withCountPerDay (editingPattern st) x))))) 1
            = true).
  { intros x Hx. unfold countPerDay_onBlur.
    cbn [editingPattern setEditingPattern Pattern.countPerDay Pattern.withCountPerDay].
    pose proof (DialogFacts.blur_at_least_one x Hx) as B.
    destruct (JS.eqb x 0); exact B. }
  split; [|split; [|split]].
  - unfold startNum_onChange.
    destruct (bool_decide (val = ""));
      [exists (JS.Fin 0); split; [reflexivity|split; [reflexivity|apply B1; reflexivity]]|].
    cbv zeta. destruct (JS.isNaN (parseInt val)); cbn [negb andb];
      [|destruct (JS.geb (parseInt val) 0) eqn:G;
         [exists (parseInt val);
          split; [exact G|split; [reflexivity|apply B1; exact G]]|]];
      (exists (Pattern.startNum (editingPattern st));
       split; [assumption|split; [exact I1|rewrite I1; apply B1; assumption]]).
  - unfold countPerDay_onChange.
    destruct (bool_decide (val = ""));
      [exists (JS.Fin 0); split; [reflexivity|split; [reflexivity|apply B2; reflexivity]]|].
    cbv zeta. destruct (JS.isNaN (parseInt val)); cbn [negb andb];
      [|destruct (JS.geb (parseInt val) 0) eqn:G;
         [exists (parseInt val);
          split; [exact G|split; [reflexivity|apply B2; exact G]]|]];
      (exists (Pattern.countPerDay (editingPattern st));
       split; [assumption|split; [exact I2|rewrite I2; apply B2; assumption]]).
  - intros s Es Hs. rewrite Es in H1. cbn in H1. apply Z.leb_le in H1.
    unfold startNum_value. rewrite Es. cbn [JS.eqb].
    destruct (Z.eqb_spec s 0) as [E|E].
    + unfold startNum_onChange. rewrite bool_decide_eq_true_2 by reflexivity.
      etransitivity; [|symmetry; exact I1]. rewrite Es, E. reflexivity.
    + rewrite NumberFacts.ToString_safe by lia.
      change (pretty s) with (JS.ToStringInt s).
      unfold startNum_onChange.
      rewrite (bool_decide_eq_false_2 _ (DialogFacts.ToString_nonempty _)).
      rewrite DialogFacts.parseInt_decimal by assumption. cbv zeta.
      rewrite NumberFacts.toNumber_safe by lia. cbn [JS.isNaN negb andb JS.geb].
      destruct (Z.leb_spec 0 s); [|lia].
      etransitivity; [|symmetry; exact I1]. rewrite Es. reflexivity.
  - intros c Ec Hc. rewrite Ec in H2. cbn in H2. apply Z.leb_le in H2.
    unfold countPerDay_value. rewrite Ec. cbn [JS.eqb].
    destruct (Z.eqb_spec c 0) as [E|E].
    + unfold countPerDay_onChange. rewrite bool_decide_eq_true_2 by reflexivity.
      etransitivity; [|symmetry; exact I2]. rewrite Ec, E. reflexivity.
    + rewrite NumberFacts.ToString_safe by lia.
      change (pretty c) with (JS.ToStringInt c).
      unfold countPerDay_onChange.
      rewrite (bool_decide_eq_false_2 _ (DialogFacts.ToString_nonempty _)).
      rewrite DialogFacts.parseInt_decimal by assumption. cbv zeta.
      rewrite NumberFacts.toNumber_safe by lia. cbn [JS.isNaN negb andb JS.geb].
      destruct (Z.leb_spec 0 c); [|lia].
      etransitivity; [|symmetry; exact I2]. rewrite Ec. reflexivity.
Qed.

Lemma number_fields_invariant_witness :
  startNum_onChange (startNum_value (initialState 0)) (initialState 0) = initialState 0.
Proof.
  refine (proj1 (proj2 (proj2 (number_fields_invariant "-3" (initialState 0)
                                 eq_refl eq_refl))) 1 eq_refl _).
  vm_compute. discriminate.
Defined.

(** Beyond 2^53 the field need not read its own text back: a stored 10^21
    is shown as "1e+21", of which [parseInt] reads the 1; and a numeral of
    four hundred digits is stored as Infinity. *)
Example exponent_text_read_back :
  let st := startNum_onChange "1000000000000000000000" (initialState 0) in
  Pattern.startNum (editingPattern st) = JS.Fin (10 ^ 21)
  /\ startNum_value st = "1e+21"
  /\ Pattern.startNum (editingPattern (startNum_onChange (startNum_value st) st))
     = JS.Fin 1.
Proof. repeat split; vm_compute; reflexivity. Qed.

Example long_numeral_is_Infinity :
  let st := countPerDay_onChange (String "1" (JS.zeros 400)) (initialState 0) in
  Pattern.countPerDay (editingPattern st) = JS.PosInf
  /\ countPerDay_value st = "Infinity"
  /\ countPerDay_onChange (countPerDay_value st) st = st.
Proof. repeat split; vm_compute; reflexivity. Qed.

(** X19. A weekday chip switches its own day and no other: after a click the
    day is chosen exactly when it was not, every other day is chosen as
    before, and no day is listed twice.  Switching the only chosen day off
    leaves the empty list, which stands for every weekday; clicking a chip
    twice brings back the same days for the resolution. *)
Theorem toggleDay_spec (i : Z) (st : State) :
  let ds := Pattern.days (editingPattern st) in
  let ds' := Pattern.days (editingPattern (toggleDay i st)) in
  (i ∈ ds' <-> i ∉ ds)
  /\ (forall j, j <> i -> (j ∈ ds' <-> j ∈ ds))
  /\ (NoDup ds -> NoDup ds')
  /\ (ds = [i] -> forall w, shouldApply (editingPattern (toggleDay i st)) w = true)
  /\ (forall w, shouldApply (editingPattern (toggleDay i (toggleDay i st))) w
               = shouldApply (editingPattern st) w).
Proof.
  intros ds ds'.
  assert (E : ds' = if bool_decide (i ∈ ds) then filter (fun d => d ≠ i) ds else ds ++ [i])
    by reflexivity.
  assert (M : forall j, j ∈ ds' <-> (if bool_decide (i ∈ ds) then j ∈ ds /\ j <> i
                                      else j ∈ ds \/ j = i)).
  { intros j. rewrite E. destruct (bool_decide (i ∈ ds)).
    - rewrite list_elem_of_filter. tauto.
    - rewrite elem_of_app, list_elem_of_singleton. tauto. }
  split; [|split; [|split; [|split]]].
  - rewrite M. destruct (bool_decide_reflect (i ∈ ds)); tauto.
  - intros j Hj. rewrite M. destruct (bool_decide_reflect (i ∈ ds)); tauto.
  - intros Hnd. rewrite E. destruct (bool_decide_reflect (i ∈ ds)) as [Hi|Hi].
    + apply NoDup_filter. exact Hnd.
    + apply NoDup_app. split; [exact Hnd|]. split; [|apply NoDup_singleton].
      intros x Hx Hx'. apply list_elem_of_singleton in Hx'. congruence.
  - intros Hds w. unfold shouldApply. fold ds'. rewrite E, Hds.
    rewrite bool_decide_eq_true_2 by (apply list_elem_of_singleton; reflexivity).
    rewrite filter_cons_False by (intros H; apply H; reflexivity).
    reflexivity.
  - intros w.
    set (ds2 := Pattern.days (editingPattern (toggleDay i (toggleDay i st)))).
    assert (M2 : forall j, j ∈ ds2 <-> j ∈ ds).
    { intros j. unfold ds2, toggleDay at 1.
      cbn [editingPattern setEditingPattern Pattern.days withDays]. fold ds'.
      destruct (bool_decide_reflect (i ∈ ds')) as [Hi|Hi].
      - rewrite list_elem_of_filter, M.
        rewrite M in Hi. destruct (bool_decide_reflect (i ∈ ds)) as [Hd|Hd]; [tauto|].
        split; [intros [? [?|?]]; [assumption|contradiction]|].
        intros Hj. split; [congruence | tauto].
      - rewrite elem_of_app, list_elem_of_singleton, M.
        rewrite M in Hi. destruct (bool_decide_reflect (i ∈ ds)) as [Hd|Hd]; [|tauto].
        split; [intros [[? ?]| ->]; assumption|].
        intros Hj. destruct (decide (j = i)); tauto. }
    unfold shouldApply. fold ds2 ds.
    assert (N : forall (l : list Z), (length l =? 0)%nat = bool_decide (l = [])).
    { intros [|? ?]; reflexivity. }
    destruct (bool_decide_reflect (w ∈ ds2)) as [H|H];
      destruct (bool_decide_reflect (w ∈ ds)) as [H'|H'];
      try (apply M2 in H; contradiction); try (apply M2 in H'; contradiction).
    + rewrite !orb_true_r. reflexivity.
    + rewrite !orb_false_r.
      destruct ds2 as [|a l], ds as [|b l']; try reflexivity; exfalso.
      * assert (X : b ∈ @nil Z) by (apply M2; left). apply elem_of_nil in X. exact X.
      * assert (X : a ∈ @nil Z) by (apply M2; left). apply elem_of_nil in X. exact X.
Qed.

(** ** The list of patterns *)

Module RenderFacts.

Lemma sortDays_Permutation ds : sortDays ds ≡ₚ ds.
Proof. apply merge_sort_Permutation. Qed.

Lemma sortOrder_total : Total sortOrder.
Proof. intros a b. apply (total String.le). Qed.

Lemma shouldApply_afterRender p w : shouldApply (afterRender p) w = shouldApply p w.
Proof.
  unfold shouldApply, afterRender. cbn [Pattern.days withDays].
  pose proof (sortDays_Permutation (Pattern.days p)) as P.
  rewrite (Permutation_length P). f_equal.
  apply bool_decide_ext. rewrite P. reflexivity.
Qed.

Lemma patternStep_afterRender w acc p :
  patternStep w acc (afterRender p) = patternStep w acc p.
Proof.
  unfold patternStep. destruct acc as [counters lines].
  rewrite shouldApply_afterRender. reflexivity.
Qed.

Lemma foldl_fmap_ext {A B} (f : B -> A -> B) (g : A -> A) (l : list A) :
  (forall b a, f b (g a) = f b a) -> forall b, foldl f b (g <$> l) = foldl f b l.
Proof.
  intros H. induction l as [|a l IH]; intros b; [reflexivity|].
  cbn [fmap list_fmap foldl]. rewrite H. apply IH.
Qed.

Lemma foldl_ext_fun {A B} (f f' : B -> A -> B) (l : list A) :
  (forall b a, f b a = f' b a) -> forall b, foldl f b l = foldl f' b l.
Proof.
  intros H. induction l as [|a l IH]; intros b; [reflexivity|].
  cbn [foldl]. rewrite H. apply IH.
Qed.

Lemma digit_order a b :
  0 <= a <= 9 -> 0 <= b <= 9 -> sortOrder a b -> a <= b.
Proof.
  intros Ha Hb.
  assert (T : forallb (fun x => forallb (fun y =>
                implb (String.leb (JS.ToStringInt x) (JS.ToStringInt y)) (x <=? y))
                (seqZ 0 10)) (seqZ 0 10) = true) by (vm_compute; reflexivity).
  rewrite forallb_forall in T.
  specialize (T a ltac:(apply list_elem_of_In, elem_of_seqZ; lia)).
  rewrite forallb_forall in T.
  specialize (T b ltac:(apply list_elem_of_In, elem_of_seqZ; lia)).
  unfold sortOrder, String.le. intros H. apply Is_true_true in H.
  rewrite H in T. cbn in T. apply Z.leb_le. exact T.
Qed.

Lemma Sorted_weaken {A} (R R' : A -> A -> Prop) (P : A -> Prop) l :
  (forall x y, P x -> P y -> R x y -> R' x y) ->
  Forall P l -> Sorted R l -> Sorted R' l.
Proof.
  intros H HP HS. induction HS as [|x l HS IH Hd]; [constructor|].
  apply Forall_cons in HP as [Hx HP]. constructor; [auto|].
  destruct Hd as [|y l' Hxy]; constructor.
  apply Forall_cons in HP as [Hy _]. auto.
Qed.

End RenderFacts.

(** X20. The list of patterns sorts each pattern's days in place while it
    renders ([p.days.sort()]).  That never changes what the patterns
    resolve to: the sorted list holds the same days, so every pattern fires
    on the same weekdays.  For weekdays, which are single digits, the
    order is the numeric one although the default sort compares texts. *)
Theorem render_sort_keeps_resolution (tz : TimeZone) (cal : list Z) (ps : list Pattern.t) :
  resolve tz cal (afterRender <$> ps) = resolve tz cal ps
  /\ Forall (fun p => Pattern.days (afterRender p) ≡ₚ Pattern.days p
                      /\ forall w, shouldApply (afterRender p) w = shouldApply p w) ps
  /\ Forall (fun p => Forall (fun d => 0 <= d <= 9) (Pattern.days p) ->
                      Sorted Z.le (Pattern.days (afterRender p))) ps.
Proof.
  split; [|split].
  - unfold resolve. f_equal.
    assert (I : initCounters (afterRender <$> ps) = initCounters ps).
    { unfold initCounters. apply RenderFacts.foldl_fmap_ext. reflexivity. }
    rewrite I. apply RenderFacts.foldl_ext_fun. intros [counters newPlans] d.
    unfold dayStep.
    rewrite (RenderFacts.foldl_fmap_ext (patternStep (Date.getDay tz d)) afterRender ps
               (RenderFacts.patternStep_afterRender (Date.getDay tz d))).
    reflexivity.
  - apply Forall_forall. intros p _. split.
    + apply RenderFacts.sortDays_Permutation.
    + apply RenderFacts.shouldApply_afterRender.
  - apply Forall_forall. intros p _ Hr.
    unfold afterRender. cbn [Pattern.days withDays].
    apply (RenderFacts.Sorted_weaken sortOrder Z.le (fun d => 0 <= d <= 9)).
    + intros x y Hx Hy. apply RenderFacts.digit_order; assumption.
    + rewrite RenderFacts.sortDays_Permutation. exact Hr.
    + unfold sortDays.
      apply (@Sorted_merge_sort _ sortOrder _ RenderFacts.sortOrder_total).
Qed.

(** ** The text of the export *)

Module MoreExportText.

Lemma app_cons c (s t : string) : String c s +:+ t = String c (s +:+ t).
Proof. reflexivity. Qed.

Lemma app_nil (t : string) : "" +:+ t = t.
Proof. reflexivity. Qed.

Lemma concatMapString_app f s t :
  concatMapString f (s +:+ t) = concatMapString f s +:+ concatMapString f t.
Proof.
  induction s as [|a s IH]; [reflexivity|].
  rewrite app_cons. cbn [concatMapString]. rewrite IH, ExportText.append_assoc.
  reflexivity.
Qed.

Lemma replaceAll_concatMap c by_ s :
  JS.replaceAll c by_ s
  = concatMapString (fun a => if Ascii.eqb a c then by_ else String a "") s.
Proof.
  induction s as [|a s IH]; [reflexivity|].
  cbn [JS.replaceAll concatMapString]. rewrite IH. reflexivity.
Qed.

Lemma concatMapString_compose f g s :
  concatMapString g (concatMapString f s)
  = concatMapString (fun a => concatMapString g (f a)) s.
Proof.
  induction s as [|a s IH]; [reflexivity|].
  cbn [concatMapString]. rewrite concatMapString_app, IH. reflexivity.
Qed.

Lemma concatMapString_ext f g s :
  (forall a, f a = g a) -> concatMapString f s = concatMapString g s.
Proof.
  intros H. induction s as [|a s IH]; [reflexivity|].
  cbn [concatMapString]. rewrite H, IH. reflexivity.
Qed.

Lemma hasChar_app c s t : hasChar c (s +:+ t) = hasChar c s || hasChar c t.
Proof.
  induction s as [|a s IH]; [reflexivity|].
  rewrite app_cons. cbn [hasChar]. rewrite IH, orb_assoc. reflexivity.
Qed.

Lemma hasChar_concatMap c f s :
  (forall a, hasChar a s = true -> hasChar c (f a) = false) ->
  hasChar c (concatMapString f s) = false.
Proof.
  induction s as [|a s IH]; intros H; [reflexivity|].
  cbn [concatMapString]. rewrite hasChar_app, IH.
  - rewrite orb_false_r. apply H. cbn [hasChar]. rewrite Ascii.eqb_refl. reflexivity.
  - intros b Hb. apply H. cbn [hasChar]. rewrite Hb, orb_true_r. reflexivity.
Qed.

Lemma exportImage_angle a :
  a <> "010"%char ->
  hasChar "<" (exportImage a) = false /\ hasChar ">" (exportImage a) = false.
Proof.
  destruct a as [[] [] [] [] [] [] [] []]; intros H;
    try (split; reflexivity); exfalso; apply H; reflexivity.
Qed.

End MoreExportText.

(** X23. The three replacements of the export act like one pass over the
    text that the day's cell shows, writing "&lt;" for "<", "&gt;" for ">"
    and "<br>" for a line break and keeping every other character: no
    replacement touches what an earlier one wrote.  So an angle bracket of
    the exported text can only come from a line break: text of one line is
    exported without any. *)
Theorem exportPlanText_one_pass (tz : TimeZone) (st : State) (date : Z) :
  let text := cellValue tz st date in
  let out := exportPlanText (plans st) (dateKey tz date) in
  out = concatMapString exportImage text
  /\ (hasChar "010" text = false ->
      hasChar "<" out = false /\ hasChar ">" out = false).
Proof.
  intros text out.
  assert (E : out = concatMapString exportImage text).
  { unfold out, text, exportPlanText, cellValue.
    rewrite !MoreExportText.replaceAll_concatMap.
    rewrite !MoreExportText.concatMapString_compose.
    apply MoreExportText.concatMapString_ext. intros a.
    destruct a as [[] [] [] [] [] [] [] []]; reflexivity. }
  split; [exact E|]. intros Hn. rewrite E.
  split; apply MoreExportText.hasChar_concatMap; intros a Ha;
    apply MoreExportText.exportImage_angle; intros ->; congruence.
Qed.

Module EscFacts.
Import MoreExportText.

Lemma escHTML_cons a s :
  escHTML (String a s)
  = (if isHtmlSpecial a then htmlEntity a else String a "") +:+ escHTML s.
Proof. reflexivity. Qed.

Lemma special_cases a :
  isHtmlSpecial a = true ->
  a = "&"%char \/ a = "<"%char \/ a = ">"%char \/ a = "034"%char \/ a = "'"%char.
Proof.
  unfold isHtmlSpecial. rewrite !orb_true_iff, !Ascii.eqb_eq. tauto.
Qed.

Lemma plain_not_amp a : isHtmlSpecial a = false -> a <> "&"%char.
Proof. intros H ->. discriminate H. Qed.

End EscFacts.

(** X24. [escHTML] writes none of the characters "<", ">", the double and
    the single quote, and it loses nothing: two texts with the same escaped
    form are the same text. *)
Theorem escHTML_safe_and_injective (s t : string) :
  hasChar "<" (escHTML s) = false /\ hasChar ">" (escHTML s) = false
  /\ hasChar "034" (escHTML s) = false /\ hasChar "'" (escHTML s) = false
  /\ (escHTML s = escHTML t -> s = t).
Proof.
  assert (F : forall c, (c = "<" \/ c = ">" \/ c = "034" \/ c = "'")%char ->
                        hasChar c (escHTML s) = false).
  { intros c Hc. induction s as [|a s IH]; [reflexivity|].
    rewrite EscFacts.escHTML_cons, MoreExportText.hasChar_app, IH, orb_false_r.
    destruct (isHtmlSpecial a) eqn:E.
    - apply EscFacts.special_cases in E.
      destruct E as [->|[->|[->|[->| ->]]]], Hc as [->|[->|[->| ->]]]; reflexivity.
    - cbn [hasChar]. rewrite orb_false_r. apply Ascii.eqb_neq. intros ->.
      destruct Hc as [->|[->|[->| ->]]]; discriminate E. }
  split; [apply F; tauto|]. split; [apply F; tauto|].
  split; [apply F; tauto|]. split; [apply F; tauto|].
  clear F. revert t. induction s as [|a s IH]; intros [|b t] H.
  - reflexivity.
  - exfalso. rewrite EscFacts.escHTML_cons in H. change (escHTML "") with "" in H.
    destruct (isHtmlSpecial b) eqn:E; [|discriminate H].
    apply EscFacts.special_cases in E.
    destruct E as [->|[->|[->|[->| ->]]]]; discriminate H.
  - exfalso. rewrite EscFacts.escHTML_cons in H. change (escHTML "") with "" in H.
    destruct (isHtmlSpecial a) eqn:E; [|discriminate H].
    apply EscFacts.special_cases in E.
    destruct E as [->|[->|[->|[->| ->]]]]; discriminate H.
  - rewrite !EscFacts.escHTML_cons in H.
    destruct (isHtmlSpecial a) eqn:Ea, (isHtmlSpecial b) eqn:Eb.
    + apply EscFacts.special_cases in Ea, Eb.
      destruct Ea as [->|[->|[->|[->| ->]]]], Eb as [->|[->|[->|[->| ->]]]];
        cbn [htmlEntity Ascii.eqb Bool.eqb] in H;
        rewrite ?MoreExportText.app_cons, ?MoreExportText.app_nil in H;
        try discriminate H;
        (f_equal; apply IH; congruence).
    + exfalso. apply EscFacts.special_cases in Ea.
      apply EscFacts.plain_not_amp in Eb. apply Eb.
      destruct Ea as [->|[->|[->|[->| ->]]]];
        cbn [htmlEntity Ascii.eqb Bool.eqb] in H;
        rewrite ?MoreExportText.app_cons, ?MoreExportText.app_nil in H; congruence.
    + exfalso. apply EscFacts.special_cases in Eb.
      apply EscFacts.plain_not_amp in Ea. apply Ea.
      destruct Eb as [->|[->|[->|[->| ->]]]];
        cbn [htmlEntity Ascii.eqb Bool.eqb] in H;
        rewrite ?MoreExportText.app_cons, ?MoreExportText.app_nil in H; congruence.
    + rewrite !MoreExportText.app_cons, !MoreExportText.app_nil in H.
      injection H as -> H. f_equal. apply IH. exact H.
Qed.

(** ** The run of the export *)

(** X25. Whatever the two libraries do, an export keeps the document in
    order: the elements that were in the body stay, in their order, followed
    by at most one new one; every element's identity is below the creation
    counter, which grows by at most one; effects are only appended, and at
    least one is, so the user always gets a download or an alert. *)
Theorem exportToPDF_invariants (tz : TimeZone) (R : Renderer) (st : State) (w : World) :
  freshIds w ->
  let w' := exportToPDF tz R st w in
  freshIds w'
  /\ (exists extra, body w' = body w ++ extra /\ (length extra <= 1)%nat)
  /\ (created w <= created w' <= S (created w))%nat
  /\ (exists added, effects w' = effects w ++ added /\ added <> []).
Proof.
  intros Hf w'. unfold w'.
  destruct (calendar st) as [|first rest] eqn:Ecal.
  - rewrite exportToPDF_empty by assumption. cbn [body created effects].
    split; [exact Hf|]. split; [exists []; rewrite app_nil_r; split; [reflexivity|cbn; lia]|].
    split; [lia|]. eexists. split; [reflexivity | discriminate].
  - rewrite (exportToPDF_unfold tz R st w first rest Ecal). cbv zeta.
    assert (Hf1 : freshIds (mkWorld (body w ++ [pdfContainer tz st w first])
                              (S (created w)) (effects w))).
    { unfold freshIds in *. cbn [body created]. apply Forall_app. split.
      - eapply Forall_impl; [exact Hf|]. cbn. intros; lia.
      - repeat constructor. }
    assert (Hf2 : Forall (fun m => (nodeId m < S (created w))%nat) (body w)).
    { eapply Forall_impl; [exact Hf|]. cbn. intros; lia. }
    destruct (html2canvas R (pdfContainer tz st w first)) as [canvas|err].
    + destruct (assemblePdf R canvas (pdfFileName tz st first)) as [[]|err];
        unfold freshIds; cbn [perform removeChild body created effects];
        rewrite (removeChild_fresh tz st w first Hf);
        (split; [exact Hf2|]);
        (split; [exists []; rewrite app_nil_r; split; [reflexivity|cbn; lia]|]);
        (split; [lia|]); rewrite <- ?app_assoc;
        (eexists; split; [reflexivity | discriminate]).
    + unfold freshIds. cbn [perform body created effects].
      split; [exact Hf1|].
      split; [eexists; split; [reflexivity|cbn; lia]|].
      split; [lia|]. rewrite <- app_assoc.
      eexists; split; [reflexivity | discriminate].
Qed.

Lemma exportToPDF_invariants_witness :
  freshIds (exportToPDF Seoul failingCanvas oneDayPlanner emptyWorld).
Proof.
  apply (exportToPDF_invariants Seoul failingCanvas oneDayPlanner emptyWorld).
  constructor.
Defined.

(** X26. Containers pile up: with a rasterizer that always throws, every
    further export of a non-empty calendar leaves one more container in the
    body, so after n exports the body holds n more elements than before. *)
Theorem failed_exports_accumulate (tz : TimeZone) (R : Renderer) (st : State)
        (w : World) (n : nat) :
  calendar st <> [] ->
  (forall node, exists err, html2canvas R node = inr err) ->
  let w' := Nat.iter n (exportToPDF tz R st) w in
  length (body w') = (length (body w) + n)%nat
  /\ created w' = (created w + n)%nat
  /\ length (effects w') = (length (effects w) + 2 * n)%nat.
Proof.
  intros Hcal Hthrow. cbv zeta. induction n as [|n IH].
  - cbn. repeat split; lia.
  - rewrite Nat.iter_succ. destruct IH as (IH1 & IH2 & IH3).
    set (w0 := Nat.iter n (exportToPDF tz R st) w) in *.
    destruct (calendar st) as [|first rest] eqn:Ecal; [congruence|].
    destruct (Hthrow (pdfContainer tz st w0 first)) as (err & Herr).
    destruct (exportToPDF_rasterization_throws tz R st w0 first rest Ecal err Herr)
      as (Hb & He).
    rewrite Hb, He, !length_app, IH1, IH3. cbn [length].
    split; [lia|]. split; [|lia].
    rewrite (exportToPDF_unfold tz R st w0 first rest Ecal). cbv zeta.
    rewrite Herr. cbn [perform created]. lia.
Qed.

Lemma failed_exports_accumulate_witness :
  length (body (Nat.iter 3 (exportToPDF Seoul failingCanvas oneDayPlanner) emptyWorld))
  = 3%nat.
Proof.
  refine (proj1 (failed_exports_accumulate Seoul failingCanvas oneDayPlanner
                   emptyWorld 3 _ _)).
  - discriminate.
  - intros node. exists "SecurityError". reflexivity.
Defined.

(** ** The reset *)

(** X27. After a confirmed reset the planner is empty: every cell shows
    nothing and each of the three buttons only raises its alert; a declined
    reset changes nothing.  The dialog is not part of the reset: the pattern
    it holds is what the next save stores. *)
Theorem clearPlans_resets (tz : TimeZone) (R : Renderer) (fuel : nat) (now : Z)
        (st : State) (w : World) :
  let st' := clearPlans true st in
  clearPlans false st = st
  /\ clearPlans true st' = st'
  /\ (forall d, cellValue tz st' d = "")
  /\ generateCalendar tz fuel st' = Some (st', [Alert "날짜를 선택해주세요"; Focus])
  /\ applyAllPatterns tz st' = (st', [Alert "먼저 캘린더를 생성해주세요"])
  /\ exportToPDF tz R st' w = perform (Alert "먼저 캘린더를 생성해주세요") w
  /\ patterns (addOrUpdatePattern now st') = [Pattern.withId (editingPattern st) now].
Proof.
  intros st'. repeat split.
Qed.

(** ** The numbers that a day gets *)

(** X21. The entry of a day, in closed form: with pairwise distinct ids,
    one key per day and numbers that stay within 2^53 on the calendar, the
    day after the days [pre] gets one line for each pattern firing on its
    weekday, in store order and joined by line feeds, and the number in the
    line of a pattern is its start number plus its count per day for every
    day of [pre] on which it fired; the days after it do not matter.  A day
    without firing pattern has no entry. *)
Theorem resolve_exact_entry (tz : TimeZone) (pre post : list Z) (d : Z)
        (ps : list Pattern.t) :
  NoDup (map Pattern.id ps) ->
  NoDup (dateKey tz <$> (pre ++ d :: post)) ->
  Forall (safeNumbers (length (pre ++ d :: post))) ps ->
  resolve tz (pre ++ d :: post) ps !! dateKey tz d
  = match map (fun p => displayText p
                 (JS.Fin (Spec.startNumber p
                          + Spec.countPerDay p
                            * Z.of_nat (length (filter
                                (fun x => shouldApply p (Date.getDay tz x) = true) pre)))))
              (filter (fun p => shouldApply p (Date.getDay tz d) = true) ps) with
    | [] => None
    | lines => Some (JS.join JS.LF lines)
    end.
Proof.
  intros Hids Hkeys Hs.
  rewrite PlanFacts.resolve_lookup_middle by assumption.
  replace (linesOn tz ps pre d)
    with (map (fun p => displayText p
                 (JS.Fin (Spec.startNumber p
                          + Spec.countPerDay p
                            * Z.of_nat (length (filter
                                (fun x => shouldApply p (Date.getDay tz x) = true) pre)))))
              (filter (fun p => shouldApply p (Date.getDay tz d) = true) ps));
    [reflexivity|].
  unfold linesOn, firing. apply map_ext_in. intros p Hp.
  apply list_elem_of_In, list_elem_of_filter in Hp as [_ Hp].
  rewrite Forall_forall in Hs. destruct (Hs p Hp) as (s & c & Es & Ec & H0 & H1 & Hb).
  assert (Hk : (firedOn tz p pre <= length (pre ++ d :: post))%nat).
  { unfold firedOn. etransitivity; [apply length_filter|]. rewrite length_app. lia. }
  unfold counterAt. rewrite (NumberFacts.advanced_safe p s c) by (assumption || nia).
  unfold Spec.startNumber, Spec.countPerDay. rewrite Es, Ec. reflexivity.
Qed.

Lemma resolve_exact_entry_witness :
  resolve Seoul mondayToMonday [mondayPattern] !! "2025-01-13" = Some "X 3-4".
Proof.
  assert (Hids : NoDup (map Pattern.id [mondayPattern]))
    by (repeat constructor; apply not_elem_of_nil).
  assert (Hkeys : NoDup (dateKey Seoul <$>
            ((midnightOf (9 * ES.msPerHour) <$> seqZ 20094 7)
             ++ midnightOf (9 * ES.msPerHour) 20101 :: [])))
    by (apply (CalendarFacts.midnights_distinct_keys (9 * ES.msPerHour) 20094 8)).
  assert (S1 : Forall (safeNumbers
                 (length ((midnightOf (9 * ES.msPerHour) <$> seqZ 20094 7)
                          ++ midnightOf (9 * ES.msPerHour) 20101 :: [])))
                 [mondayPattern]).
  { repeat constructor. exists 1, 2.
    repeat split; try reflexivity; try lia; vm_compute; discriminate. }
  pose proof (resolve_exact_entry Seoul _ [] _ [mondayPattern] Hids Hkeys S1) as H.
  etransitivity; [exact H|]. vm_compute. reflexivity.
Defined.

(** X22. A pattern for every weekday numbers the days in a row: alone in
    the store, with start number s and c a day, both integers that are not
    negative, it writes on the i-th day of the calendar (counted from 0) the
    line for the number s + c * i, as long as s + c * (i + 1) is at most
    2^53. *)
Theorem every_day_pattern_numbering (tz : TimeZone) (cal : list Z) (p : Pattern.t)
        (i : nat) (d s c : Z) :
  Pattern.days p = [] ->
  Pattern.startNum p = JS.Fin s -> Pattern.countPerDay p = JS.Fin c ->
  0 <= s -> 0 <= c -> s + c * (Z.of_nat i + 1) <= 2 ^ 53 ->
  NoDup (dateKey tz <$> cal) ->
  cal !! i = Some d ->
  resolve tz cal [p] !! dateKey tz d
  = Some (Spec.line p (s + c * Z.of_nat i)).
Proof.
  intros Hd Es Ec Hs Hc Hb Hkeys Hi.
  pose proof (take_drop_middle cal i d Hi) as Hcal.
  assert (Hlen : length (take i cal) = i).
  { apply length_take_le. apply lookup_lt_Some in Hi. lia. }
  rewrite <- Hcal in Hkeys |- * at 1.
  rewrite PlanFacts.resolve_lookup_middle
    by (assumption || apply PlanFacts.NoDup_single_id).
  assert (F : forall x, shouldApply p x = true)
    by (intros x; unfold shouldApply; rewrite Hd; reflexivity).
  rewrite PlanFacts.linesOn_single, F.
  assert (A : forall l : list Z,
             filter (fun x => shouldApply p (Date.getDay tz x) = true) l = l).
  { induction l as [|x l IH]; [reflexivity|].
    rewrite filter_cons_True by apply F. f_equal. exact IH. }
  assert (K : firedOn tz p (take i cal) = i).
  { unfold firedOn. rewrite A. exact Hlen. }
  unfold counterAt. rewrite K.
  rewrite (NumberFacts.advanced_safe p s c) by (assumption || nia).
  rewrite (NumberFacts.displayText_safe p c) by (assumption || nia).
  reflexivity.
Qed.

Lemma every_day_pattern_numbering_witness :
  resolve Seoul mondayToMonday [Pattern.mk 7 "Civil law" "" 1 3 []] !! "2025-01-08"
  = Some "Civil law 7-9".
Proof.
  assert (Hkeys : NoDup (dateKey Seoul <$> mondayToMonday))
    by (apply (CalendarFacts.midnights_distinct_keys (9 * ES.msPerHour) 20094 8)).
  assert (Hi : mondayToMonday !! 2%nat = Some (midnightOf (9 * ES.msPerHour) 20096))
    by (vm_compute; reflexivity).
  pose proof (every_day_pattern_numbering Seoul mondayToMonday
                (Pattern.mk 7 "Civil law" "" 1 3 []) 2 _ 1 3 eq_refl eq_refl eq_refl
                ltac:(lia) ltac:(lia) ltac:(lia) Hkeys Hi) as H.
  etransitivity; [exact H|]. vm_compute. reflexivity.
Defined.

(** X16. The ids of the store stay pairwise distinct under every operation
    on it, as long as [Date.now()] returns a number that no stored pattern
    has: saving the dialog (replacing or appending), opening a pattern for
    editing, and deleting. *)
Theorem store_ids_stay_distinct (now i : Z) (p : Pattern.t) (st : State) :
  NoDup (map Pattern.id (patterns st)) ->
  now ∉ map Pattern.id (patterns st) ->
  NoDup (map Pattern.id (patterns (addOrUpdatePattern now st)))
  /\ NoDup (map Pattern.id (patterns (removePattern i st)))
  /\ NoDup (map Pattern.id (patterns (addOrUpdatePattern now (editPattern p st))))
  /\ NoDup (map Pattern.id (patterns (removePattern i (addOrUpdatePattern now st)))).
Proof.
  intros Hnd Hnow.
  pose proof (StoreFacts.addOrUpdatePattern_distinct_ids now st Hnd Hnow) as H1.
  split; [exact H1|].
  split; [apply StoreFacts.removePattern_distinct_ids; exact Hnd|].
  split; [apply StoreFacts.addOrUpdatePattern_distinct_ids; assumption|].
  apply StoreFacts.removePattern_distinct_ids. exact H1.
Qed.

Lemma store_ids_stay_distinct_witness :
  NoDup (map Pattern.id (patterns (addOrUpdatePattern 1700000000000
           (plannerWith "" "" [] [mondayPattern])))).
Proof.
  refine (proj1 (store_ids_stay_distinct 1700000000000 0 mondayPattern
                   (plannerWith "" "" [] [mondayPattern]) _ _)).
  - repeat constructor. apply not_elem_of_nil.
  - intros H. apply list_elem_of_singleton in H. discriminate H.
Defined.

(** Witness of X6: the range from 13 January back to 6 January is refused. *)
Lemma generateCalendar_fixed_fails_witness :
  exists msg,
    generateCalendar Seoul 400 (plannerWith "2025-01-13" "2025-01-06" [] [])
    = Some (plannerWith "2025-01-13" "2025-01-06" [] [], [Alert msg]).
Proof.
  assert (Ho : - ES.msPerDay <= 9 * ES.msPerHour < ES.msPerDay)
    by (unfold ES.msPerDay, ES.msPerHour; lia).
  assert (Hv1 : validCivil 2025 1 13) by (vm_compute; repeat split; discriminate).
  assert (Hv2 : validCivil 2025 1 6) by (vm_compute; repeat split; discriminate).
  assert (Es : startDate (plannerWith "2025-01-13" "2025-01-06" [] []) = keyOf 2025 1 13)
    by (vm_compute; reflexivity).
  assert (Ee : endDate (plannerWith "2025-01-13" "2025-01-06" [] []) = keyOf 2025 1 6)
    by (vm_compute; reflexivity).
  apply (proj1 (proj1 (generateCalendar_fixed_fails (9 * ES.msPerHour)
                         (plannerWith "2025-01-13" "2025-01-06" [] [])
                         2025 1 13 2025 1 6 Ho ltac:(lia) Hv1 ltac:(lia) Hv2 Es Ee
                         400 ltac:(lia)))).
  left. vm_compute. reflexivity.
Defined.

(** ** The height of a text area *)

(** X28. [clamp] keeps a number inside its bounds and leaves a number that
    is inside alone, so clamping twice is clamping once; the height that
    [autoResize] sets is therefore between 64 and 360 pixels, and it is the
    content's height whenever that lies in between. *)
Theorem clamp_within_bounds (n min max : Z) :
  min <= max ->
  min <= clamp n min max <= max
  /\ (min <= n <= max -> clamp n min max = n)
  /\ clamp (clamp n min max) min max = clamp n min max
  /\ (forall h, autoResize (Some n) = Some h ->
        64 <= h <= 360 /\ (64 <= n <= 360 -> h = n)).
Proof.
  intros H. unfold autoResize, clamp.
  split; [lia|]. split; [lia|]. split; [lia|].
  intros h [= <-]. lia.
Qed.

Lemma clamp_within_bounds_witness : 64 <= clamp 1000 64 360 <= 360.
Proof. exact (proj1 (clamp_within_bounds 1000 64 360 ltac:(lia))). Defined.
